(** * Binary/string cast kernels of [scalar_cast_string.cc]

    A shallow embedding of the layout transcoder and of the scalar-to-text
    renderers of [arrow/compute/kernels/scalar_cast_string.cc], and the
    properties the specification states about them.

    Conventions of the embedding:
    - [int32_t]/[int64_t] values are [Z]; a narrowing [static_cast] is
      written out as two's complement wrap-around;
    - a buffer is a handle (identity of the allocation) plus typed contents;
      a validity bitmap is a list of bits, an offsets buffer a list of
      integers, a views buffer a list of 16-byte view records and a data
      buffer a list of bytes;
    - pointer arithmetic ([GetValues<T>(i)] adds the array offset) is [drop];
      an out-of-range read yields the default element;
    - [Status]/[Result] are an error monad threaded through a
      [KernelContext] that carries the memory pool (next fresh handle) and
      the trace of calls made to the injected capabilities (UTF-8 check,
      formatters, zone lookup). *)

From Stdlib Require Import ZArith Lia List String Ascii Bool.
From Stdlib.Strings Require Import Byte.
From stdpp Require Import base list.
Import ListNotations.

#[local] Open Scope Z_scope.

(* ===================================================================== *)
(** ** Integers *)

Inductive IntType := int32_t | int64_t.

Definition sizeof (T : IntType) : Z :=
  match T with int32_t => 4 | int64_t => 8 end.

Definition numeric_limits_max (T : IntType) : Z :=
  match T with
  | int32_t => 2147483647
  | int64_t => 9223372036854775807
  end.

Definition numeric_limits_min (T : IntType) : Z := - numeric_limits_max T - 1.

(** [static_cast<T>(z)]: reduction modulo [2^(8*sizeof T)] into the signed
    range. *)
Definition static_cast (T : IntType) (z : Z) : Z :=
  (z - numeric_limits_min T) mod (2 * (numeric_limits_max T + 1))
  + numeric_limits_min T.

Definition in_range (T : IntType) (z : Z) : Prop :=
  numeric_limits_min T <= z <= numeric_limits_max T.

(* ===================================================================== *)
(** ** Status and Result *)

Inductive StatusCode := Invalid | CapacityError | NotImplemented.

Inductive Result (A : Type) : Type :=
| Ok (a : A)
| Err (code : StatusCode) (msg : string).
Arguments Ok {A} a.
Arguments Err {A} code msg.

Definition Status := Result unit.
Definition Status_OK : Status := Ok tt.

(* ===================================================================== *)
(** ** Types *)

(** The classes the kernels are instantiated with (template parameters). *)
Inductive TypeClass :=
| BinaryType | StringType | LargeBinaryType | LargeStringType
| BinaryViewType | StringViewType | FixedSizeBinaryType.

Definition is_utf8 (T : TypeClass) : bool :=
  match T with
  | StringType | LargeStringType | StringViewType => true
  | _ => false
  end.

Definition is_base_binary_type (T : TypeClass) : bool :=
  match T with
  | BinaryType | StringType | LargeBinaryType | LargeStringType => true
  | _ => false
  end.

Definition is_binary_view_like_type (T : TypeClass) : bool :=
  match T with
  | BinaryViewType | StringViewType => true
  | _ => false
  end.

Definition offset_type (T : TypeClass) : IntType :=
  match T with
  | LargeBinaryType | LargeStringType => int64_t
  | _ => int32_t
  end.

Inductive TimeUnit := SECOND | MILLI | MICRO | NANO.

(** Run-time type instances ([DataType]). [primitive] stands for the number,
    boolean and non-timestamp temporal types, which the kernels of this
    file only hand to their formatter. *)
Inductive DataType :=
| binary | utf8 | large_binary | large_utf8 | binary_view | utf8_view
| fixed_size_binary (width : Z)
| timestamp (time_unit : TimeUnit) (timezone : string)
| decimal (width : Z) (precision scale : Z)
| primitive (name : string).

Definition byte_width (t : DataType) : Z :=
  match t with
  | fixed_size_binary w => w
  | decimal w _ _ => w
  | _ => 0
  end.

Definition type_singleton (T : TypeClass) (w : Z) : DataType :=
  match T with
  | BinaryType => binary
  | StringType => utf8
  | LargeBinaryType => large_binary
  | LargeStringType => large_utf8
  | BinaryViewType => binary_view
  | StringViewType => utf8_view
  | FixedSizeBinaryType => fixed_size_binary w
  end.

(* ===================================================================== *)
(** ** Bytes and little-endian fields *)

Definition byte_of_Z (z : Z) : byte :=
  match Byte.of_N (Z.to_N (z mod 256)) with
  | Some b => b
  | None => x00
  end.

Definition Z_of_byte (b : byte) : Z := Z.of_N (Byte.to_N b).

(** The 4 bytes of an [int32_t] in memory, least significant first. *)
Definition store_int32 (z : Z) : list byte :=
  [ byte_of_Z z; byte_of_Z (z / 256);
    byte_of_Z (z / 65536); byte_of_Z (z / 16777216) ].

Definition load_int32 (bs : list byte) : Z :=
  match bs with
  | [b0; b1; b2; b3] =>
      static_cast int32_t
        (Z_of_byte b0 + 256 * Z_of_byte b1
         + 65536 * Z_of_byte b2 + 16777216 * Z_of_byte b3)
  | _ => 0
  end.

(** [memcpy(dst + pos, src, n)] on a byte array of fixed size. *)
Definition memcpy (dst : list byte) (pos : nat) (src : list byte) (n : nat)
  : list byte :=
  take pos dst ++ take n src ++ drop (pos + n) dst.

(* ===================================================================== *)
(** ** View records ([BinaryViewType::c_type])

    A 16-byte union: a 4-byte [size] followed by 12 bytes that are either
    the inline data, or a 4-byte prefix, a 4-byte buffer index and a 4-byte
    offset. The record keeps [size] and the 12 raw bytes; the members of the
    two union alternatives are accessors on them. *)

Definition kInlineSize : Z := 12.
Definition kPrefixSize : Z := 4.
Definition kSize : Z := 16.

Record c_type := { size : Z; raw : list byte }.

(** What [memset(..., 0, ...)] leaves in a view slot. *)
Definition zero_view : c_type := {| size := 0; raw := replicate 12 x00 |}.

Definition is_inline (v : c_type) : bool := size v <=? kInlineSize.

Definition inlined_data (v : c_type) : list byte := raw v.
Definition ref_prefix (v : c_type) : list byte := take 4 (raw v).
Definition ref_buffer_index (v : c_type) : Z := load_int32 (take 4 (drop 4 (raw v))).
Definition ref_offset (v : c_type) : Z := load_int32 (take 4 (drop 8 (raw v))).

(** [v.inlined.size = n; memcpy(v.inlined.data.data(), src, n)] *)
Definition set_inlined (v : c_type) (n : Z) (src : list byte) : c_type :=
  {| size := n; raw := memcpy (raw v) 0 src (Z.to_nat n) |}.

(** [v.ref.size = n; memcpy(v.ref.prefix.data(), src, kPrefixSize);
     v.ref.offset = off] ([buffer_index] is left as it is). *)
Definition set_ref (v : c_type) (n : Z) (src : list byte) (off : Z) : c_type :=
  {| size := n;
     raw := memcpy (memcpy (raw v) 0 src (Z.to_nat kPrefixSize))
                   8 (store_int32 off) 4 |}.

(* ===================================================================== *)
(** ** Buffers and arrays *)

Inductive Contents :=
| Bitmap (bits : list bool)
| Ints (vals : list Z)
| Views (views : list c_type)
| Bytes (bytes : list byte).

Record Buffer := { handle : N; contents : Contents }.

(** [ArrayData]; an [ArraySpan] is the same record seen without ownership. *)
Record ArrayData := {
  type : DataType;
  len : Z;
  offset : Z;
  null_count : Z;
  buffers : list (option Buffer)
}.
Definition ArraySpan := ArrayData.

Definition GetBuffer (a : ArrayData) (i : nat) : option Buffer :=
  default None (buffers a !! i).

Definition set_buffer (a : ArrayData) (i : nat) (b : option Buffer) : ArrayData :=
  {| type := type a; len := len a; offset := offset a;
     null_count := null_count a; buffers := <[i := b]> (buffers a) |}.

Definition bits_of (b : option Buffer) : option (list bool) :=
  match b with
  | Some {| contents := Bitmap l |} => Some l
  | _ => None
  end.

Definition ints_of (b : option Buffer) : list Z :=
  match b with
  | Some {| contents := Ints l |} => l
  | _ => []
  end.

Definition views_of (b : option Buffer) : list c_type :=
  match b with
  | Some {| contents := Views l |} => l
  | _ => []
  end.

Definition bytes_of (b : option Buffer) : list byte :=
  match b with
  | Some {| contents := Bytes l |} => l
  | _ => []
  end.

(** [p[k]] for a pointer [p] into a typed buffer. *)
Definition at_ {A} (d : A) (p : list A) (k : Z) : A := nth (Z.to_nat k) p d.

(** [std::string_view(p + pos, n)] *)
Definition string_view (p : list byte) (pos n : Z) : list byte :=
  take (Z.to_nat n) (drop (Z.to_nat pos) p).

(* ===================================================================== *)
(** ** Kernel context: memory pool and injected capabilities *)

(** Calls to the injected capabilities, in the order they are made. *)
Inductive Call :=
| CallValidateUTF8 (s : list byte)
| CallFormat (value : Z)
| CallLocateZone (name : string)
| CallFormatZoned (value : Z).

Record KernelContext := {
  memory_pool : N;       (* next fresh buffer handle *)
  trace : list Call
}.

Definition M (A : Type) : Type := KernelContext -> Result A * KernelContext.

Definition ret {A} (a : A) : M A := fun ctx => (Ok a, ctx).

Definition raise {A} (code : StatusCode) (msg : string) : M A :=
  fun ctx => (Err code msg, ctx).

Definition bind {A B} (m : M A) (k : A -> M B) : M B :=
  fun ctx =>
    match m ctx with
    | (Ok a, ctx') => k a ctx'
    | (Err c msg, ctx') => (Err c msg, ctx')
    end.

#[global] Instance M_ret : MRet M := @ret.
#[global] Instance M_bind : MBind M := fun A B k m => bind m k.

(** [ARROW_ASSIGN_OR_RAISE] on a pure [Result]. *)
Definition lift {A} (r : Result A) : M A := fun ctx => (r, ctx).

Definition record_call (c : Call) : M unit :=
  fun ctx => (Ok tt, {| memory_pool := memory_pool ctx;
                        trace := trace ctx ++ [c] |}).

(** [ctx->Allocate(...)], a builder's [Finish] and [Buffer::CopySlice]: a
    buffer with a handle no earlier allocation has. The allocator is an
    injected capability; it is taken not to fail. *)
Definition Allocate (c : Contents) : M Buffer :=
  fun ctx => (Ok {| handle := memory_pool ctx; contents := c |},
              {| memory_pool := N.succ (memory_pool ctx); trace := trace ctx |}).

Fixpoint foldM {A S} (f : A -> S -> M S) (l : list A) (s : S) : M S :=
  match l with
  | [] => ret s
  | a :: l' => s' ← f a s; foldM f l' s'
  end.

(** [for (int64_t i = start; i < start + n; i++) body] over a state. *)
Definition for_loop {S} (start n : Z) (body : Z -> S -> S) (s : S) : S :=
  fold_left (fun s i => body i s) (seqZ start n) s.

Record CastOptions := {
  allow_invalid_utf8 : bool;
  to_type : DataType
}.

(* ===================================================================== *)
(** ** Array access *)

(** [bit_util::GetBit] on the validity bitmap at the array's offset; an
    absent bitmap means all valid. *)
Definition IsValid (a : ArraySpan) (i : Z) : bool :=
  match bits_of (GetBuffer a 0) with
  | None => true
  | Some bits => at_ false bits (offset a + i)
  end.

(** Slot [i] of an offset-layout array: [data[offsets[i] : offsets[i+1]]]. *)
Definition GetView_offsets (a : ArraySpan) (i : Z) : list byte :=
  let offsets := ints_of (GetBuffer a 1) in
  let lo := at_ 0 offsets (offset a + i) in
  let hi := at_ 0 offsets (offset a + i + 1) in
  string_view (bytes_of (GetBuffer a 2)) lo (hi - lo).

(** Slot [i] of a view-layout array: inline bytes, or the bytes the
    reference points at in variadic buffer [buffer_index]. *)
Definition resolve_view (a : ArraySpan) (v : c_type) : list byte :=
  if is_inline v then take (Z.to_nat (size v)) (inlined_data v)
  else string_view (bytes_of (GetBuffer a (2 + Z.to_nat (ref_buffer_index v))))
                   (ref_offset v) (size v).

Definition GetView_views (a : ArraySpan) (i : Z) : list byte :=
  resolve_view a (at_ zero_view (views_of (GetBuffer a 1)) (offset a + i)).

(** Slot [i] of a fixed-width array:
    [data[(offset+i)*W : (offset+i+1)*W]]. *)
Definition GetView_fixed (a : ArraySpan) (i : Z) : list byte :=
  let W := byte_width (type a) in
  string_view (bytes_of (GetBuffer a 1)) ((offset a + i) * W) W.

Definition GetView (I : TypeClass) (a : ArraySpan) (i : Z) : list byte :=
  if is_base_binary_type I then GetView_offsets a i
  else if is_binary_view_like_type I then GetView_views a i
  else GetView_fixed a i.

(** The logical content of an array: one entry per slot, [None] for null. *)
Definition slots (I : TypeClass) (a : ArraySpan) : list (option (list byte)) :=
  map (fun i => if IsValid a i then Some (GetView I a i) else None)
      (seqZ 0 (len a)).

(** Modelled from the spec: [VisitArraySpanInline<I>] of
    arrow/visit_data_inline.h, which is not part of this file. It walks the
    slots in order, calls [valid_func] on the bytes of a non-null slot and
    [null_func] on a null slot, and stops at the first error. The state [S]
    stands for the objects the callbacks capture by reference. *)
Definition VisitArraySpanInline {S} (I : TypeClass) (input : ArraySpan)
    (valid_func : list byte -> S -> M S) (null_func : S -> M S) (s : S) : M S :=
  foldM (fun i s =>
           if IsValid input i then valid_func (GetView I input i) s
           else null_func s)
        (seqZ 0 (len input)) s.

(** The same walk over a list of slots. *)
Definition visit_slots {V S} (valid_func : V -> S -> M S) (null_func : S -> M S)
    (l : list (option V)) (s : S) : M S :=
  foldM (fun o s => match o with
                    | Some v => valid_func v s
                    | None => null_func s
                    end) l s.

(** Modelled from the spec: the runs of set bits of
    [bitmap[offset : offset+length]] as [(position, length)] pairs,
    positions counted from [offset] (arrow/util/bit_run_reader.h). *)
Fixpoint set_bit_runs (bits : list bool) (pos : Z) (cur : option (Z * Z))
  : list (Z * Z) :=
  match bits with
  | [] => match cur with Some r => [r] | None => [] end
  | true :: bits' =>
      set_bit_runs bits' (pos + 1)
        (Some (match cur with Some (p, n) => (p, n + 1) | None => (pos, 1) end))
  | false :: bits' =>
      match cur with Some r => [r] | None => [] end
      ++ set_bit_runs bits' (pos + 1) None
  end.

(** The bits [bitmap[offset : offset+length]]; bits past the end of the
    buffer read as unset. *)
Definition bitmap_slice (bits : list bool) (offset length : Z) : list bool :=
  map (fun i => at_ false bits (offset + i)) (seqZ 0 length).

(** Modelled from the spec: [VisitSetBitRunsVoid]; with no bitmap there is
    one run covering everything. *)
Definition VisitSetBitRunsVoid {S} (bitmap : option (list bool))
    (offset length : Z) (visit : Z -> Z -> S -> S) (s : S) : S :=
  match bitmap with
  | None => visit 0 length s
  | Some bits =>
      fold_left (fun s r => visit (fst r) (snd r) s)
                (set_bit_runs (bitmap_slice bits offset length) 0 None) s
  end.

(** Modelled from the spec: [ZeroCopyCastExec] of scalar_cast_internal.cc
    shares all buffers of the input with the output, together with its
    length, offset and null count. *)
Definition ZeroCopyCastExec (input : ArraySpan) (out : ArrayData) : M ArrayData :=
  ret {| type := type out; len := len input; offset := offset input;
         null_count := null_count input; buffers := buffers input |}.

(** Modelled from the spec: [CopyBitmap] gives a fresh bitmap holding
    [bitmap[offset : offset+length]] from bit 0 on. *)
Definition CopyBitmap (bits : list bool) (offset length : Z) : M Buffer :=
  Allocate (Bitmap (bitmap_slice bits offset length)).

(** Modelled from the spec (section 4.1, Validity Bitmap Adapter):
    [GetOrCopyNullBitmapBuffer] for a destination that starts at bit 0:
    no bitmap gives none, a source at offset 0 is shared, otherwise the
    bitmap is copied re-aligned to bit 0 over exactly the array length. *)
Definition GetOrCopyNullBitmapBuffer (input : ArraySpan) : M (option Buffer) :=
  match GetBuffer input 0 with
  | None => ret None
  | Some b =>
      if offset input =? 0 then ret (Some b)
      else
        b' ← CopyBitmap (default [] (bits_of (Some b))) (offset input) (len input);
        ret (Some b')
  end.

(** Modelled from the spec: [CastInts(src, dst, n)] converts [n] integers
    to the destination width, one by one. *)
Definition CastInts (O : IntType) (src : Z -> Z) (n : Z) : list Z :=
  map (fun i => static_cast O (src i)) (seqZ 0 n).

(** Writing [src] through a pointer [dst + pos]. *)
Definition write_at {A} (dst : list A) (pos : Z) (src : list A) : list A :=
  take (Z.to_nat pos) dst ++ src ++ drop (Z.to_nat pos + length src) dst.

Definition with_contents (b : option Buffer) (c : Contents) : option Buffer :=
  match b with
  | Some b => Some {| handle := handle b; contents := c |}
  | None => None
  end.

(** [output->buffers.resize(n)] *)
Definition resize_buffers (n : nat) (l : list (option Buffer)) : list (option Buffer) :=
  take n l ++ replicate (n - length l) None.

Definition with_buffers (a : ArrayData) (bs : list (option Buffer)) : ArrayData :=
  {| type := type a; len := len a; offset := offset a;
     null_count := null_count a; buffers := bs |}.

Definition with_length (a : ArrayData) (n : Z) : ArrayData :=
  {| type := type a; len := n; offset := offset a;
     null_count := null_count a; buffers := buffers a |}.

Definition with_offset (a : ArrayData) (o : Z) : ArrayData :=
  {| type := type a; len := len a; offset := o;
     null_count := null_count a; buffers := buffers a |}.

Definition SetNullCount (a : ArrayData) (n : Z) : ArrayData :=
  {| type := type a; len := len a; offset := offset a;
     null_count := n; buffers := buffers a |}.

(* ===================================================================== *)
(** ** The layout transcoder *)

Section Transcoder.

(** Injected: the UTF-8 well-formedness check of arrow/util/utf8_internal.h
    and the printer of type names. *)
Variable ValidateUTF8Inline : list byte -> bool.
Variable ToString : DataType -> string.

(** *** [struct Utf8Validator] *)

Definition Utf8Validator_VisitNull : M unit := ret tt.

Definition Utf8Validator_VisitValue (str : list byte) : M unit :=
  _ ← record_call (CallValidateUTF8 str);
  if negb (ValidateUTF8Inline str)
  then raise Invalid "Invalid UTF8 payload"
  else ret tt.

(** The guard every overload starts with:
    [if (!options.allow_invalid_utf8) { InitializeUTF8(); ...
       RETURN_NOT_OK(visitor.Visit(input, &validator)); }] *)
Definition ValidateInput (I : TypeClass) (options : CastOptions)
    (input : ArraySpan) : M unit :=
  if negb (allow_invalid_utf8 options) then
    VisitArraySpanInline I input
      (fun str _ => Utf8Validator_VisitValue str)
      (fun _ => Utf8Validator_VisitNull) tt
  else ret tt.

(** The guard as the overloads run it:
    [if constexpr (!I::is_utf8 && O::is_utf8) { ... }] *)
Definition guard (O I : TypeClass) (options : CastOptions) (input : ArraySpan)
  : M unit :=
  if negb (is_utf8 I) && is_utf8 O
  then ValidateInput I options input else ret tt.

(** The validator's walk over a list of slots. *)
Definition validate_slots (l : list (option (list byte))) : M unit :=
  visit_slots (fun str (_ : unit) => Utf8Validator_VisitValue str)
              (fun _ => Utf8Validator_VisitNull) l tt.

Definition failed_casting (from to : DataType) (why : string) : string :=
  String.append "Failed casting from "
    (String.append (ToString from)
       (String.append " to " (String.append (ToString to) why))).

(** *** [CastBinaryToBinaryOffsets<I, O>] *)

(** Same-width offsets: no-op. *)
Definition CastBinaryToBinaryOffsets_same (input : ArraySpan)
    (output : ArrayData) : M ArrayData :=
  ret output.

(** The freshly allocated offsets buffer both width-changing variants fill:
    [output->offset] zeroed entries, then [output->length + 1] converted
    offsets. *)
Definition converted_offsets (O : IntType) (input : ArraySpan)
    (output : ArrayData) : list Z :=
  let input_offsets i := at_ 0 (ints_of (GetBuffer input 1)) (offset input + i) in
  write_at (replicate (Z.to_nat (len output + offset output + 1)) 0)
           (offset output)
           (CastInts O input_offsets (len output + 1)).

(** Upcast offsets. *)
Definition CastBinaryToBinaryOffsets_up (input : ArraySpan)
    (output : ArrayData) : M ArrayData :=
  b ← Allocate (Ints (converted_offsets int64_t input output));
  ret (set_buffer output 1 (Some b)).

(** Downcast offsets. *)
Definition CastBinaryToBinaryOffsets_down (input : ArraySpan)
    (output : ArrayData) : M ArrayData :=
  let kMaxOffset := numeric_limits_max int32_t in
  let input_offsets i := at_ 0 (ints_of (GetBuffer input 1)) (offset input + i) in
  (* Binary offsets are ascending, so it's enough to check the last one *)
  if input_offsets (len input) >? kMaxOffset then
    raise Invalid (failed_casting (type input) (type output)
                                  ": input array too large")
  else
    b ← Allocate (Ints (converted_offsets int32_t input output));
    ret (set_buffer output 1 (Some b)).

Definition CastBinaryToBinaryOffsets (I O : IntType) (input : ArraySpan)
    (output : ArrayData) : M ArrayData :=
  match I, O with
  | int32_t, int64_t => CastBinaryToBinaryOffsets_up input output
  | int64_t, int32_t => CastBinaryToBinaryOffsets_down input output
  | _, _ => CastBinaryToBinaryOffsets_same input output
  end.

(** *** Offset String -> Offset String *)
Definition BinaryToBinaryCastExec_offset_offset (O I : TypeClass)
    (options : CastOptions) (input : ArraySpan) (out : ArrayData) : M ArrayData :=
  _ ← guard O I options input;
  (* Start with a zero-copy cast, but change indices to expected size *)
  output ← ZeroCopyCastExec input out;
  CastBinaryToBinaryOffsets (offset_type I) (offset_type O) input output.

(** *** String View -> Offset String *)

(** State of the two [TypedBufferBuilder]s of the loop. *)
Definition append_offset (offset_ty : IntType)
    (st : list Z * list byte) : list Z * list byte :=
  (fst st ++ [static_cast offset_ty (Z.of_nat (length (snd st)))], snd st).

Definition BinaryToBinaryCastExec_view_offset (O I : TypeClass)
    (options : CastOptions) (input : ArraySpan) (out : ArrayData) : M ArrayData :=
  let offset_ty := offset_type O in
  _ ← guard O I options input;
  let output := SetNullCount (with_length out (len input)) (null_count input) in
  (* Set up validity bitmap *)
  b0 ← GetOrCopyNullBitmapBuffer input;
  let output := set_buffer output 0 b0 in
  (* Set up offset and data buffer; offsets start at 0 *)
  st ← VisitArraySpanInline I input
         (fun s st =>
            (* for non-null value, append string view to buffer and
               calculate offset *)
            ret (append_offset offset_ty (fst st, snd st ++ s)))
         (fun st =>
            (* for null value, no need to update data buffer *)
            ret (append_offset offset_ty st))
         ([0], []);
  b1 ← Allocate (Ints (fst st));
  b2 ← Allocate (Bytes (snd st));
  ret (set_buffer (set_buffer output 1 (Some b1)) 2 (Some b2)).

(** *** Offset String -> String View *)

(** Body of the loop over one run of valid slots; the state is the views
    buffer and [all_entries_are_inline]. [out_views] points at
    [output->offset] in the views buffer. *)
Definition offset_view_step (offset_ty : IntType) (input_offsets : Z -> Z)
    (input_data : list byte) (out_base : Z) (i : Z)
    (st : list c_type * bool) : list c_type * bool :=
  let data_offset := input_offsets i in
  let data_length := static_cast offset_ty (input_offsets (i + 1) - data_offset) in
  let out_view := at_ zero_view (fst st) (out_base + i) in
  if data_length <=? kInlineSize then
    (<[Z.to_nat (out_base + i) :=
         set_inlined out_view (static_cast int32_t data_length)
                     (drop (Z.to_nat data_offset) input_data)]> (fst st),
     snd st)
  else
    (<[Z.to_nat (out_base + i) :=
         set_ref out_view (static_cast int32_t data_length)
                 (drop (Z.to_nat data_offset) input_data)
                 (static_cast int32_t data_offset)]> (fst st),
     false).

Definition BinaryToBinaryCastExec_offset_view (O I : TypeClass)
    (options : CastOptions) (input : ArraySpan) (out : ArrayData) : M ArrayData :=
  let offset_ty := offset_type I in
  _ ← guard O I options input;
  (* Start with a zero-copy cast, then reconfigure the view and data buffers *)
  output ← ZeroCopyCastExec input out;
  let total_length := offset input + len input in
  let validity := bits_of (GetBuffer input 0) in
  let input_offsets i := at_ 0 (ints_of (GetBuffer input 1)) (offset input + i) in
  let input_data := bytes_of (GetBuffer input 2) in
  (* Turn buffers[1] into a buffer of empty BinaryViewType::c_type entries. *)
  b1 ← Allocate (Views (replicate (Z.to_nat total_length) zero_view));
  let output := set_buffer output 1 (Some b1) in
  (* Check against offset overflow *)
  _ ← (if (sizeof offset_ty >? 4) && (total_length >? 0)
          && (input_offsets (len input) >? numeric_limits_max int32_t)
       then raise CapacityError
              (failed_casting (type input) (type output)
                 ": input array too large for efficient conversion.")
       else ret tt);
  (* If all entries are inline, we can drop the extra data buffer for
     large strings in output->buffers[2]. *)
  let st :=
    VisitSetBitRunsVoid validity (offset output) (len output)
      (fun start_offset run_length =>
         for_loop start_offset run_length
           (offset_view_step offset_ty input_offsets input_data (offset output)))
      (views_of (Some b1), true) in
  let output := set_buffer output 1 (with_contents (Some b1) (Views (fst st))) in
  ret (if snd st then set_buffer output 2 None else output).

(** *** String View -> String View *)
Definition BinaryToBinaryCastExec_view_view (O I : TypeClass)
    (options : CastOptions) (input : ArraySpan) (out : ArrayData) : M ArrayData :=
  _ ← guard O I options input;
  ZeroCopyCastExec input out.

(** *** Fixed -> String View *)

(** One iteration of either loop; the state is the views buffer and the
    running [int32_t data_offset]. *)
Definition fixed_view_step (inline_loop : bool) (fixed_size_width : Z)
    (data : list byte) (out_base : Z) (i : Z)
    (st : list c_type * Z) : list c_type * Z :=
  let data_offset := snd st in
  let out_view := at_ zero_view (fst st) (out_base + i) in
  let src := drop (Z.to_nat data_offset) data in
  (<[Z.to_nat (out_base + i) :=
       if inline_loop
       then set_inlined out_view fixed_size_width src
       else set_ref out_view fixed_size_width src (static_cast int32_t data_offset)]>
     (fst st),
   static_cast int32_t (data_offset + fixed_size_width)).

Definition BinaryToBinaryCastExec_fixed_view (O I : TypeClass)
    (options : CastOptions) (input : ArraySpan) (out : ArrayData) : M ArrayData :=
  _ ← guard O I options input;
  let fixed_size_width := byte_width (type input) in
  let total_length := offset input + len input in
  let output := with_buffers (with_offset out (offset input))
                             (resize_buffers 3 (buffers out)) in
  let output := SetNullCount output (null_count input) in
  (* Share the validity bitmap buffer *)
  let output := set_buffer output 0 (GetBuffer input 0) in
  (* Init buffers[1] with empty BinaryViewType::c_type entries. *)
  b1 ← Allocate (Views (replicate (Z.to_nat total_length) zero_view));
  let output := set_buffer output 1 (Some b1) in
  let data_buffer := GetBuffer input 1 in
  let data := bytes_of data_buffer in
  (* Check against offset overflow *)
  _ ← (if (total_length >? 0)
          && ((total_length - 1) * fixed_size_width >? numeric_limits_max int32_t)
       then raise CapacityError
              (failed_casting (type input) (type output)
                 ": input array too large for efficient conversion.")
       else ret tt);
  (* Inline string and non-inline string loops *)
  let data_offset :=
    static_cast int32_t (static_cast int32_t (offset input) * fixed_size_width) in
  if fixed_size_width <=? kInlineSize then
    let st := for_loop 0 (len input)
                (fixed_view_step true fixed_size_width data (offset output))
                (views_of (Some b1), data_offset) in
    ret (set_buffer output 1 (with_contents (Some b1) (Views (fst st))))
  else
    (* We share the fixed-size string array data buffer as variadic data
       buffer 0 (index=2+0) and set every buffer_index to 0. *)
    let output := set_buffer output 2 data_buffer in
    let st := for_loop 0 (len input)
                (fixed_view_step false fixed_size_width data (offset output))
                (views_of (Some b1), data_offset) in
    ret (set_buffer output 1 (with_contents (Some b1) (Views (fst st)))).

(** *** Fixed -> Offset String *)

(** [offsets[i + 1] = offsets[i] + width] through the pointer
    [offsets = buffer + base], in the output offset type. *)
Definition fixed_offset_step (offset_ty : IntType) (width base : Z) (i : Z)
    (offsets : list Z) : list Z :=
  <[Z.to_nat (base + i + 1) :=
      static_cast offset_ty (at_ 0 offsets (base + i) + width)]> offsets.

Definition BinaryToBinaryCastExec_fixed_offset (O I : TypeClass)
    (options : CastOptions) (input : ArraySpan) (out : ArrayData) : M ArrayData :=
  _ ← (if is_utf8 O then ValidateInput I options input else ret tt);
  (* Check for overflow *)
  let output_offset_type := offset_type O in
  let kMaxOffset := numeric_limits_max output_offset_type in
  let width := byte_width (type input) in
  let max_offset := width * len input in
  if max_offset >? kMaxOffset then
    raise Invalid (failed_casting (type input) (type out)
                                  ": input array too large")
  else
    (* Copy buffers over, then generate indices *)
    let output := SetNullCount (with_length out (len input)) (null_count input) in
    output ←
      (if offset input =? offset output then
         ret (set_buffer output 0 (GetBuffer input 0))
       else
         match GetBuffer input 0 with
         | Some b =>
             b0 ← CopyBitmap (default [] (bits_of (Some b)))
                             (offset input) (len input);
             ret (set_buffer output 0 (Some b0))
         | None => ret output
         end);
    (* This buffer is preallocated *)
    let offsets := ints_of (GetBuffer output 1) in
    let offsets :=
      <[Z.to_nat (offset output) :=
          static_cast output_offset_type (offset input * width)]> offsets in
    let offsets :=
      for_loop 0 (len input)
        (fixed_offset_step output_offset_type width (offset output)) offsets in
    let output :=
      set_buffer output 1 (with_contents (GetBuffer output 1) (Ints offsets)) in
    (* Data buffer (index 1) for FWBinary becomes data buffer for VarBinary
       (index 2); it is copied, not shared. *)
    match GetBuffer input 1 with
    | Some input_data =>
        b2 ← Allocate (contents input_data);
        ret (set_buffer output 2 (Some b2))
    | None => ret (set_buffer output 2 None)
    end.

(** *** Fixed -> Fixed *)
Definition BinaryToBinaryCastExec_fixed_fixed (O I : TypeClass)
    (options : CastOptions) (input : ArraySpan) (out : ArrayData) : M ArrayData :=
  let in_width := byte_width (type input) in
  let out_width := byte_width (to_type options) in
  if negb (in_width =? out_width) then
    raise Invalid (failed_casting (type input) (to_type options)
                                  ": widths must match")
  else ZeroCopyCastExec input out.

(** *** Offset String | String View -> Fixed *)

(** Modelled from the spec: [FixedSizeBinaryBuilder] of
    arrow/array/builder_binary.h, the builder of a fresh fixed-width array:
    one validity bit and [byte_width] bytes per slot, zero bytes for a
    null. *)
Record FixedSizeBinaryBuilder := {
  fsb_type : DataType;
  fsb_validity : list bool;
  fsb_data : list byte
}.

Definition FixedSizeBinaryBuilder_new (t : DataType) : FixedSizeBinaryBuilder :=
  {| fsb_type := t; fsb_validity := []; fsb_data := [] |}.

Definition FixedSizeBinaryBuilder_UnsafeAppend (v : list byte)
    (b : FixedSizeBinaryBuilder) : FixedSizeBinaryBuilder :=
  {| fsb_type := fsb_type b;
     fsb_validity := fsb_validity b ++ [true];
     fsb_data := fsb_data b ++ take (Z.to_nat (byte_width (fsb_type b))) v |}.

Definition FixedSizeBinaryBuilder_UnsafeAppendNull
    (b : FixedSizeBinaryBuilder) : FixedSizeBinaryBuilder :=
  {| fsb_type := fsb_type b;
     fsb_validity := fsb_validity b ++ [false];
     fsb_data := fsb_data b
                 ++ replicate (Z.to_nat (byte_width (fsb_type b))) x00 |}.

Definition count_nulls (validity : list bool) : Z :=
  Z.of_nat (length (filter (fun b => b = false) validity)).

Definition FixedSizeBinaryBuilder_FinishInternal
    (b : FixedSizeBinaryBuilder) : M ArrayData :=
  b0 ← Allocate (Bitmap (fsb_validity b));
  b1 ← Allocate (Bytes (fsb_data b));
  ret {| type := fsb_type b;
         len := Z.of_nat (length (fsb_validity b));
         offset := 0;
         null_count := count_nulls (fsb_validity b);
         buffers := [Some b0; Some b1] |}.

Definition BinaryToBinaryCastExec_to_fixed (O I : TypeClass)
    (options : CastOptions) (input : ArraySpan) (out : ArrayData) : M ArrayData :=
  let builder := FixedSizeBinaryBuilder_new (to_type options) in
  builder ← VisitArraySpanInline I input
    (fun v builder =>
       if negb (Z.of_nat (length v) =? byte_width (fsb_type builder)) then
         raise Invalid (failed_casting (type input) (to_type options)
                                       ": widths must match")
       else ret (FixedSizeBinaryBuilder_UnsafeAppend v builder))
    (fun builder => ret (FixedSizeBinaryBuilder_UnsafeAppendNull builder))
    builder;
  FixedSizeBinaryBuilder_FinishInternal builder.

(** *** Overload selection ([enable_if_t]) *)
Definition BinaryToBinaryCastExec (O I : TypeClass)
    (options : CastOptions) (input : ArraySpan) (out : ArrayData) : M ArrayData :=
  match I, O with
  | FixedSizeBinaryType, FixedSizeBinaryType =>
      BinaryToBinaryCastExec_fixed_fixed O I options input out
  | FixedSizeBinaryType, (BinaryViewType | StringViewType) =>
      BinaryToBinaryCastExec_fixed_view O I options input out
  | FixedSizeBinaryType, _ =>
      BinaryToBinaryCastExec_fixed_offset O I options input out
  | _, FixedSizeBinaryType =>
      BinaryToBinaryCastExec_to_fixed O I options input out
  | (BinaryViewType | StringViewType), (BinaryViewType | StringViewType) =>
      BinaryToBinaryCastExec_view_view O I options input out
  | (BinaryViewType | StringViewType), _ =>
      BinaryToBinaryCastExec_view_offset O I options input out
  | _, (BinaryViewType | StringViewType) =>
      BinaryToBinaryCastExec_offset_view O I options input out
  | _, _ =>
      BinaryToBinaryCastExec_offset_offset O I options input out
  end.

End Transcoder.

(* ===================================================================== *)
(** ** The scalar-to-text renderers *)

(** [TypeTraits<O>::BuilderType]: the interface of the text-array builders
    the renderers write into. *)
Class BuilderType (B : Type) := {
  Builder_new : DataType -> B;
  Append : list byte -> B -> M B;
  AppendNull : B -> M B;
  UnsafeAppendNull : B -> B;
  Reserve : Z -> B -> M B;
  ReserveData : Z -> B -> M B;
  Finish : B -> M ArrayData
}.

(** Slot [i] of a primitive array: [values[offset + i]]. *)
Definition GetValue (a : ArraySpan) (i : Z) : Z :=
  at_ 0 (ints_of (GetBuffer a 1)) (offset a + i).

(** The logical content of a primitive array. *)
Definition value_slots (a : ArraySpan) : list (option Z) :=
  map (fun i => if IsValid a i then Some (GetValue a i) else None)
      (seqZ 0 (len a)).

(** Modelled from the spec: [VisitArraySpanInline<I>] for a primitive [I]
    (arrow/visit_data_inline.h): as for the binary layouts, with the slot's
    value in place of its bytes. *)
Definition VisitValuesInline {S} (input : ArraySpan)
    (valid_func : Z -> S -> M S) (null_func : S -> M S) (s : S) : M S :=
  foldM (fun i s =>
           if IsValid input i then valid_func (GetValue input i) s
           else null_func s)
        (seqZ 0 (len input)) s.

(** Modelled from the spec: [ArraySpan::GetNullCount], which counts the
    unset validity bits when the stored count is unknown ([-1]). *)
Definition GetNullCount (a : ArraySpan) : Z :=
  if null_count a =? -1 then
    Z.of_nat (length (filter (fun i => IsValid a i = false) (seqZ 0 (len a))))
  else null_count a.

(** The value of a little-endian two's complement byte string
    ([value_type value(bytes.data())] of the decimal functor). *)
Fixpoint decode_unsigned (bs : list byte) : Z :=
  match bs with
  | [] => 0
  | b :: bs' => Z_of_byte b + 256 * decode_unsigned bs'
  end.

Definition decode_signed (bs : list byte) : Z :=
  let n := decode_unsigned bs in
  let m := 256 ^ Z.of_nat (length bs) in
  if 2 * n <? m then n else n - m.

Definition GetInputTimezone (t : DataType) : string :=
  match t with timestamp _ tz => tz | _ => EmptyString end.

Definition unit_of (t : DataType) : TimeUnit :=
  match t with timestamp u _ => u | _ => SECOND end.

Definition kFormatString : string := "%Y-%m-%d %H:%M:%S%z".
Definition kUtcFormatString : string := "%Y-%m-%d %H:%M:%SZ".

(** The per-value size the timestamp functor preallocates. *)
Definition timestamp_string_length (u : TimeUnit) (timezone : string) : Z :=
  let string_length := 19 in  (* YYYY-MM-DD HH:MM:SS *)
  let string_length :=
    match u with
    | MILLI => string_length + 4    (* .SSS *)
    | MICRO => string_length + 7    (* .SSSSSS *)
    | NANO => string_length + 10    (* .SSSSSSSSS *)
    | SECOND => string_length
    end in
  if negb (String.eqb timezone EmptyString)
  then string_length + 5            (* +0000 *)
  else string_length.

Section Renderer.

Context {B : Type} {builder_ops : BuilderType B}.

(** Injected: the text formatters of arrow/util/formatting.h and
    temporal_internal.h, and the time-zone lookup. *)
Variable StringFormatter : DataType -> Z -> list byte.
Variable time_zone : Type.
Variable LocateZone : string -> Result time_zone.
Variable TimestampFormatter :
  TimeUnit -> string -> time_zone -> Z -> Result (list byte).

(** [formatter(v, [&](std::string_view v) { return builder.Append(v); })] *)
Definition formatter_call (t : DataType) (v : Z) (builder : B) : M B :=
  _ ← record_call (CallFormat v);
  Append (StringFormatter t v) builder.

(** *** [NumericToStringCastFunctor::Exec] (and the generic
    [TemporalToStringCastFunctor::Exec], which has the same body) *)
Definition NumericToStringCastFunctor_Exec (input : ArraySpan) : M ArrayData :=
  let builder := Builder_new (type input) in
  builder ← VisitValuesInline input
              (fun v builder => formatter_call (type input) v builder)
              (fun builder => AppendNull builder)
              builder;
  Finish builder.

Definition TemporalToStringCastFunctor_Exec (input : ArraySpan) : M ArrayData :=
  let builder := Builder_new (type input) in
  builder ← VisitValuesInline input
              (fun v builder => formatter_call (type input) v builder)
              (fun builder => AppendNull builder)
              builder;
  Finish builder.

(** *** [DecimalToStringCastFunctor::Exec]: the slots are fixed-width byte
    strings, reinterpreted as a decimal value before formatting. *)
Definition DecimalToStringCastFunctor_Exec (input : ArraySpan) : M ArrayData :=
  let builder := Builder_new (type input) in
  builder ← VisitArraySpanInline FixedSizeBinaryType input
              (fun bytes builder =>
                 let value := decode_signed bytes in
                 formatter_call (type input) value builder)
              (fun builder => AppendNull builder)
              builder;
  Finish builder.

(** *** [TemporalToStringCastFunctor<O, TimestampType>::ConvertZoned]

    [GetLocale("C")] is left out: the classic locale always exists, and
    the formatter below does not depend on it. *)
Definition ConvertZoned (u : TimeUnit) (input : ArraySpan)
    (timezone : string) (builder : B) : M B :=
  _ ← record_call (CallLocateZone timezone);
  tz ← lift (LocateZone timezone);
  let formatter :=
    TimestampFormatter u
      (if String.eqb timezone "UTC" then kUtcFormatString else kFormatString)
      tz in
  VisitValuesInline input
    (fun v builder =>
       _ ← record_call (CallFormatZoned v);
       formatted ← lift (formatter v);
       Append formatted builder)
    (fun builder => ret (UnsafeAppendNull builder))
    builder.

(** *** [TemporalToStringCastFunctor<O, TimestampType>::Exec] *)
Definition TimestampToStringCastFunctor_Exec (input : ArraySpan) : M ArrayData :=
  let timezone := GetInputTimezone (type input) in
  let ty_unit := unit_of (type input) in
  let builder := Builder_new (type input) in
  (* Preallocate *)
  let string_length := timestamp_string_length ty_unit timezone in
  builder ← Reserve (len input) builder;
  builder ← ReserveData ((len input - GetNullCount input) * string_length) builder;
  builder ←
    (if String.eqb timezone EmptyString then
       VisitValuesInline input
         (fun v builder => formatter_call (type input) v builder)
         (fun builder => ret (UnsafeAppendNull builder))
         builder
     else
       match ty_unit with
       | SECOND => ConvertZoned SECOND input timezone builder
       | MILLI => ConvertZoned MILLI input timezone builder
       | MICRO => ConvertZoned MICRO input timezone builder
       | NANO => ConvertZoned NANO input timezone builder
       end);
  Finish builder.

End Renderer.

(* ===================================================================== *)
(** ** Builders *)

(** Modelled from the spec: [BinaryBuilder]/[StringBuilder] and their large
    variants (arrow/array/builder_binary.h), the growable text-array
    builder of an offset layout: every slot appends the current data
    length to the offsets, a non-null slot appends its bytes to the data, and
    [Finish] closes the offsets with the final data length. The capacity
    errors of the builders are left out: the properties of the renderers
    are stated for texts that fit the offset type ([text_fits]). *)
Record BinaryBuilder := {
  bb_validity : list bool;
  bb_offsets : list Z;
  bb_data : list byte
}.

Definition BinaryBuilder_append_slot (offset_ty : IntType) (valid : bool)
    (v : list byte) (b : BinaryBuilder) : BinaryBuilder :=
  {| bb_validity := bb_validity b ++ [valid];
     bb_offsets := bb_offsets b
                   ++ [static_cast offset_ty (Z.of_nat (length (bb_data b)))];
     bb_data := bb_data b ++ v |}.

Definition BinaryBuilder_Finish (O : TypeClass) (b : BinaryBuilder) : M ArrayData :=
  b0 ← Allocate (Bitmap (bb_validity b));
  b1 ← Allocate (Ints (bb_offsets b
                       ++ [static_cast (offset_type O)
                             (Z.of_nat (length (bb_data b)))]));
  b2 ← Allocate (Bytes (bb_data b));
  ret {| type := type_singleton O 0;
         len := Z.of_nat (length (bb_validity b));
         offset := 0;
         null_count := count_nulls (bb_validity b);
         buffers := [Some b0; Some b1; Some b2] |}.

#[local] Instance BinaryBuilder_ops (O : TypeClass) : BuilderType BinaryBuilder := {
  Builder_new _ := {| bb_validity := []; bb_offsets := []; bb_data := [] |};
  Append v b := ret (BinaryBuilder_append_slot (offset_type O) true v b);
  AppendNull b := ret (BinaryBuilder_append_slot (offset_type O) false [] b);
  UnsafeAppendNull b := BinaryBuilder_append_slot (offset_type O) false [] b;
  Reserve _ b := ret b;
  ReserveData _ b := ret b;
  Finish b := BinaryBuilder_Finish O b
}.

(** Modelled from the spec: [BinaryViewBuilder]/[StringViewBuilder], the
    builder of a view layout: a value no longer than the inline threshold
    is stored in its view, a longer one is appended to the data block (one
    block, buffer index 0) and referenced by prefix and position; a null
    slot appends an empty view. *)
Record BinaryViewBuilder := {
  bv_validity : list bool;
  bv_views : list c_type;
  bv_heap : list byte
}.

Definition BinaryViewBuilder_Append (v : list byte)
    (b : BinaryViewBuilder) : BinaryViewBuilder :=
  let n := Z.of_nat (length v) in
  if n <=? kInlineSize then
    {| bv_validity := bv_validity b ++ [true];
       bv_views := bv_views b ++ [set_inlined zero_view n v];
       bv_heap := bv_heap b |}
  else
    {| bv_validity := bv_validity b ++ [true];
       bv_views := bv_views b
                   ++ [set_ref zero_view n v
                         (static_cast int32_t (Z.of_nat (length (bv_heap b))))];
       bv_heap := bv_heap b ++ v |}.

Definition BinaryViewBuilder_AppendNull (b : BinaryViewBuilder) : BinaryViewBuilder :=
  {| bv_validity := bv_validity b ++ [false];
     bv_views := bv_views b ++ [zero_view];
     bv_heap := bv_heap b |}.

Definition BinaryViewBuilder_Finish (O : TypeClass) (b : BinaryViewBuilder)
  : M ArrayData :=
  b0 ← Allocate (Bitmap (bv_validity b));
  b1 ← Allocate (Views (bv_views b));
  b2 ← Allocate (Bytes (bv_heap b));
  ret {| type := type_singleton O 0;
         len := Z.of_nat (length (bv_validity b));
         offset := 0;
         null_count := count_nulls (bv_validity b);
         buffers := [Some b0; Some b1; Some b2] |}.

#[local] Instance BinaryViewBuilder_ops (O : TypeClass) : BuilderType BinaryViewBuilder := {
  Builder_new _ := {| bv_validity := []; bv_views := []; bv_heap := [] |};
  Append v b := ret (BinaryViewBuilder_Append v b);
  AppendNull b := ret (BinaryViewBuilder_AppendNull b);
  UnsafeAppendNull b := BinaryViewBuilder_AppendNull b;
  Reserve _ b := ret b;
  ReserveData _ b := ret b;
  Finish b := BinaryViewBuilder_Finish O b
}.

(* ===================================================================== *)
(** ** Text formatting of instants *)

Definition digit (n : Z) : byte := byte_of_Z (48 + n mod 10).

(** [n] in exactly [k] decimal digits, zero padded. *)
Definition pad (k : nat) (n : Z) : list byte :=
  map (fun j => digit (n / 10 ^ Z.of_nat j)) (rev (seq 0 k)).

Fixpoint decimal_digits (fuel : nat) (n : Z) (acc : list byte) : list byte :=
  match fuel with
  | O => acc
  | S fuel' =>
      if n <? 10 then digit n :: acc
      else decimal_digits fuel' (n / 10) (digit n :: acc)
  end.

(** Civil date of a day number counted from 1970-01-01 (proleptic
    Gregorian calendar). *)
Definition civil_from_days (days : Z) : Z * Z * Z :=
  let z := days + 719468 in
  let era := z / 146097 in
  let doe := z - era * 146097 in
  let yoe := (doe - doe / 1460 + doe / 36524 - doe / 146096) / 365 in
  let y := yoe + era * 400 in
  let doy := doe - (365 * yoe + yoe / 4 - yoe / 100) in
  let mp := (5 * doy + 2) / 153 in
  let d := doy - (153 * mp + 2) / 5 + 1 in
  let m := if mp <? 10 then mp + 3 else mp - 9 in
  (if m <=? 2 then y + 1 else y, m, d).

Definition units_per_second (u : TimeUnit) : Z :=
  match u with
  | SECOND => 1
  | MILLI => 1000
  | MICRO => 1000000
  | NANO => 1000000000
  end.

Definition fraction_digits (u : TimeUnit) : nat :=
  match u with SECOND => 0 | MILLI => 3 | MICRO => 6 | NANO => 9 end.

(** Civil time: the fields of an instant shifted by a UTC offset. *)
Record civil_time := {
  c_year : Z; c_month : Z; c_day : Z;
  c_hour : Z; c_minute : Z; c_second : Z;
  c_fraction : Z;      (* sub-second part, in units *)
  c_utc_offset : Z     (* seconds east of UTC *)
}.

Definition to_civil (u : TimeUnit) (utc_offset : Z) (v : Z) : civil_time :=
  let scale := units_per_second u in
  let t := v + utc_offset * scale in
  let secs := t / scale in
  let days := secs / 86400 in
  let sod := secs mod 86400 in
  let '(y, m, d) := civil_from_days days in
  {| c_year := y; c_month := m; c_day := d;
     c_hour := sod / 3600; c_minute := sod mod 3600 / 60; c_second := sod mod 60;
     c_fraction := t mod scale; c_utc_offset := utc_offset |}.

Definition year_text (y : Z) : list byte :=
  let ds := decimal_digits 20 (Z.abs y) [] in
  (if y <? 0 then [byte_of_Z 45] else [])
  ++ replicate (4 - length ds) (digit 0) ++ ds.

Definition seconds_text (u : TimeUnit) (c : civil_time) : list byte :=
  pad 2 (c_second c)
  ++ match fraction_digits u with
     | O => []
     | k => byte_of_Z 46 :: pad k (c_fraction c)
     end.

(** [+HHMM] (or [-HHMM] west of UTC). *)
Definition offset_text (utc_offset : Z) : list byte :=
  byte_of_Z (if utc_offset <? 0 then 45 else 43)
  :: pad 2 (Z.abs utc_offset / 3600) ++ pad 2 (Z.abs utc_offset mod 3600 / 60).

Definition directive (u : TimeUnit) (c : civil_time) (d : ascii) : list byte :=
  if Ascii.eqb d "Y" then year_text (c_year c)
  else if Ascii.eqb d "m" then pad 2 (c_month c)
  else if Ascii.eqb d "d" then pad 2 (c_day c)
  else if Ascii.eqb d "H" then pad 2 (c_hour c)
  else if Ascii.eqb d "M" then pad 2 (c_minute c)
  else if Ascii.eqb d "S" then seconds_text u c
  else if Ascii.eqb d "z" then offset_text (c_utc_offset c)
  else [byte_of_ascii "%"; byte_of_ascii d].

Fixpoint format_civil (u : TimeUnit) (c : civil_time) (fmt : string) : list byte :=
  match fmt with
  | EmptyString => []
  | String ch rest =>
      if Ascii.eqb ch "%" then
        match rest with
        | String d rest' => directive u c d ++ format_civil u c rest'
        | EmptyString => [byte_of_ascii ch]
        end
      else byte_of_ascii ch :: format_civil u c rest
  end.

(** Modelled from the spec: [StringFormatter<TimestampType>], the naive
    civil form [YYYY-MM-DD HH:MM:SS] followed by the fractional digits of
    the unit. *)
Definition naive_timestamp_text (u : TimeUnit) (v : Z) : list byte :=
  format_civil u (to_civil u 0 v) "%Y-%m-%d %H:%M:%S".

Definition StringFormatter_timestamp (t : DataType) (v : Z) : list byte :=
  naive_timestamp_text (unit_of t) v.

(** Modelled from the spec: a resolved time zone gives the UTC offset, in
    seconds, in force at an instant (given in seconds). *)
Record time_zone := { tz_utc_offset : Z -> Z }.

(** Modelled from the spec: [TimestampFormatter<Duration>], which converts
    an instant to the zone's civil time and prints it after the format
    string. *)
Definition TimestampFormatter_zoned (u : TimeUnit) (fmt : string)
    (tz : time_zone) (v : Z) : Result (list byte) :=
  let utc_offset := tz_utc_offset tz (v / units_per_second u) in
  Ok (format_civil u (to_civil u utc_offset v) fmt).

(** Modelled from the spec: [DataType::ToString]. *)
Definition type_name (t : DataType) : string :=
  match t with
  | binary => "binary"
  | utf8 => "string"
  | large_binary => "large_binary"
  | large_utf8 => "large_string"
  | binary_view => "binary_view"
  | utf8_view => "string_view"
  | fixed_size_binary w =>
      String.append "fixed_size_binary["
        (String.append (string_of_list_byte (decimal_digits 20 w [])) "]")
  | timestamp _ _ => "timestamp"
  | decimal _ _ _ => "decimal"
  | primitive name => name
  end.

(* ===================================================================== *)
(** ** Well-formed inputs *)

(** A validity bitmap, when present, covers the array. *)
Definition bitmap_ok (a : ArraySpan) : bool :=
  match GetBuffer a 0 with
  | None => true
  | Some {| contents := Bitmap bits |} =>
      offset a + len a <=? Z.of_nat (length bits)
  | Some _ => false
  end.

(** Offset layout of class [T]: [len + 1] offsets from [offset] on,
    starting non-negative, never decreasing, ending inside the data buffer
    and representable in the offset type. *)
Definition wf_offsets (T : TypeClass) (a : ArraySpan) : bool :=
  let offsets := ints_of (GetBuffer a 1) in
  (0 <=? offset a) && (0 <=? len a) && bitmap_ok a
  && (offset a + len a + 1 <=? Z.of_nat (length offsets))
  && (0 <=? at_ 0 offsets (offset a))
  && forallb (fun i => at_ 0 offsets (offset a + i)
                       <=? at_ 0 offsets (offset a + i + 1))
             (seqZ 0 (len a))
  && (at_ 0 offsets (offset a + len a)
      <=? Z.of_nat (length (bytes_of (GetBuffer a 2))))
  && (at_ 0 offsets (offset a + len a) <=? numeric_limits_max (offset_type T)).

(** Fixed-width layout: [offset + len] elements of the type's width. *)
Definition wf_fixed (a : ArraySpan) : bool :=
  let W := byte_width (type a) in
  (0 <=? offset a) && (0 <=? len a) && bitmap_ok a
  && (0 <=? W) && (W <=? numeric_limits_max int32_t)
  && ((offset a + len a) * W <=? Z.of_nat (length (bytes_of (GetBuffer a 1)))).

(** The output record the invocation layer hands to a kernel that fills an
    offset layout: it starts at offset 0 and has its three buffer slots. *)
Definition prepared_output (out : ArrayData) : bool :=
  (offset out =? 0) && (Z.of_nat (length (buffers out)) =? 3).

(** The same with no validity bitmap yet and the offsets buffer
    preallocated for [n] slots. *)
Definition preallocated_output (out : ArrayData) (n : Z) : bool :=
  prepared_output out
  && match GetBuffer out 0 with None => true | Some _ => false end
  && match GetBuffer out 1 with
     | Some {| contents := Ints l |} => n + 1 <=? Z.of_nat (length l)
     | _ => false
     end.

(** Every buffer of the array was allocated before [ctx]. *)
Definition allocated_before (ctx : KernelContext) (a : ArrayData) : bool :=
  forallb (fun b => match b with
                    | Some b => (handle b <? memory_pool ctx)%N
                    | None => true
                    end) (buffers a).

(** Every non-null slot passes the UTF-8 check. *)
Definition utf8_clean (ValidateUTF8Inline : list byte -> bool)
    (l : list (option (list byte))) : bool :=
  forallb (fun o => match o with Some v => ValidateUTF8Inline v | None => true end) l.

(** Whether a cast from [I] to [O] runs the UTF-8 guard. *)
Definition must_validate (O I : TypeClass) (options : CastOptions) : bool :=
  negb (is_utf8 I) && is_utf8 O && negb (allow_invalid_utf8 options).

(** The non-null entries of a slot list. *)
Definition non_null {A} (l : list (option A)) : list A := omap id l.

Definition run {A} (m : M A) (ctx : KernelContext) : Result A := fst (m ctx).

(** The context after further calls to the injected capabilities. *)
Definition add_trace (ctx : KernelContext) (calls : list Call) : KernelContext :=
  {| memory_pool := memory_pool ctx; trace := trace ctx ++ calls |}.

(** The context after [n] further allocations. *)
Definition add_allocations (ctx : KernelContext) (n : N) : KernelContext :=
  {| memory_pool := (memory_pool ctx + n)%N; trace := trace ctx |}.

(** The offsets an offset-layout array exposes: [offsets[0 .. len]]. *)
Definition offsets_of (a : ArraySpan) : list Z :=
  map (fun i => at_ 0 (ints_of (GetBuffer a 1)) (offset a + i))
      (seqZ 0 (len a + 1)).

(** The views a view-layout array exposes: [views[0 .. len)]. *)
Definition views_of_array (a : ArraySpan) : list c_type :=
  map (fun i => at_ zero_view (views_of (GetBuffer a 1)) (offset a + i))
      (seqZ 0 (len a)).

Definition handle_of (b : option Buffer) : option N :=
  match b with Some b => Some (handle b) | None => None end.

(** The positions of the set bits of [bits], counted from [pos]. *)
Fixpoint true_positions (bits : list bool) (pos : Z) : list Z :=
  match bits with
  | [] => []
  | b :: bits' => (if b then [pos] else []) ++ true_positions bits' (pos + 1)
  end.

(** The slots [VisitSetBitRunsVoid] reaches, in order. *)
Definition valid_indices (bitmap : option (list bool)) (offset length : Z)
  : list Z :=
  match bitmap with
  | None => seqZ 0 length
  | Some bits => true_positions (bitmap_slice bits offset length) 0
  end.

(** The view the offset-to-view loop writes for slot [i], and the length it
    reads for it. *)
Definition slot_length (input : ArraySpan) (i : Z) : Z :=
  let offsets := ints_of (GetBuffer input 1) in
  at_ 0 offsets (offset input + i + 1) - at_ 0 offsets (offset input + i).

Definition view_of_slot (input : ArraySpan) (i : Z) : c_type :=
  let data_offset := at_ 0 (ints_of (GetBuffer input 1)) (offset input + i) in
  let src := drop (Z.to_nat data_offset) (bytes_of (GetBuffer input 2)) in
  if slot_length input i <=? kInlineSize
  then set_inlined zero_view (slot_length input i) src
  else set_ref zero_view (slot_length input i) src data_offset.

(** The view the fixed-to-view loops write for slot [i]. *)
Definition view_of_fixed_slot (input : ArraySpan) (i : Z) : c_type :=
  let W := byte_width (type input) in
  let data_offset := (offset input + i) * W in
  let src := drop (Z.to_nat data_offset) (bytes_of (GetBuffer input 1)) in
  if W <=? kInlineSize
  then set_inlined zero_view W src
  else set_ref zero_view W src data_offset.

(** A slot fits a fixed width: it is null or has exactly [W] bytes. *)
Definition width_ok (W : Z) (o : option (list byte)) : bool :=
  match o with
  | Some v => Z.of_nat (length v) =? W
  | None => true
  end.

(** The bytes a slot occupies in a fixed-width data buffer: its own bytes,
    or [W] zero bytes for a null. *)
Definition fixed_payload (W : Z) (o : option (list byte)) : list byte :=
  match o with
  | Some v => v
  | None => replicate (Z.to_nat W) x00
  end.

Definition is_valid_slot {A} (o : option A) : bool :=
  match o with Some _ => true | None => false end.

(** The UTF-8 guard of a cast from [I] to [O] lets the slots [l] through. *)
Definition guard_ok (ValidateUTF8Inline : list byte -> bool) (O I : TypeClass)
    (options : CastOptions) (l : list (option (list byte))) : bool :=
  negb (must_validate O I options) || utf8_clean ValidateUTF8Inline l.

(** The calls the guard makes when it lets the slots through. *)
Definition guard_calls (O I : TypeClass) (options : CastOptions)
    (l : list (option (list byte))) : list Call :=
  if must_validate O I options then map CallValidateUTF8 (non_null l) else [].

(** The number of data bytes of a list of slots. *)
Definition total_bytes (l : list (option (list byte))) : Z :=
  Z.of_nat (length (concat (non_null l))).

(** The offsets a builder reaches after each slot of [l], starting with
    [base] bytes of data. *)
Fixpoint running_offsets (base : Z) (l : list (option (list byte))) : list Z :=
  match l with
  | [] => []
  | o :: l' =>
      let n := base + Z.of_nat (length (default [] o)) in
      n :: running_offsets n l'
  end.

(** The offsets at which the slots of [l] start, the data before them
    being [base] bytes long. *)
Fixpoint slot_starts (base : Z) (l : list (option (list byte))) : list Z :=
  match l with
  | [] => []
  | o :: l' => base :: slot_starts (base + Z.of_nat (length (default [] o))) l'
  end.

(** The data block of a view layout built from the slots [l]: the values
    longer than the inline threshold, one after the other. *)
Fixpoint view_heap (l : list (option (list byte))) : list byte :=
  match l with
  | [] => []
  | Some v :: l' =>
      if Z.of_nat (length v) <=? kInlineSize then view_heap l'
      else v ++ view_heap l'
  | None :: l' => view_heap l'
  end.

(** The views a view builder holds for the slots [l], the data block
    before them being [base] bytes long. *)
Fixpoint built_views (base : Z) (l : list (option (list byte))) : list c_type :=
  match l with
  | [] => []
  | Some v :: l' =>
      let n := Z.of_nat (length v) in
      if n <=? kInlineSize then set_inlined zero_view n v :: built_views base l'
      else set_ref zero_view n v base :: built_views (base + n) l'
  | None :: l' => zero_view :: built_views base l'
  end.

(** The text array a renderer is to produce: each non-null value
    rendered, each null kept. *)
Definition rendered {V} (render : V -> list byte) (l : list (option V))
  : list (option (list byte)) :=
  map (option_map render) l.

(** View layout, as far as the conversions of this file rely on it: the
    array is a valid window and its validity bitmap, when present, covers
    it. *)
Definition wf_views (a : ArraySpan) : bool :=
  (0 <=? offset a) && (0 <=? len a) && bitmap_ok a.

(** Well-formedness of the source of a conversion. *)
Definition wf_input (I : TypeClass) (a : ArraySpan) : bool :=
  if is_base_binary_type I then wf_offsets I a
  else if is_binary_view_like_type I then wf_views a
  else wf_fixed a.

(** The size limits of a conversion from [I] to [O]: the condition under
    which every position it writes fits the index type it is written in
    (for the width-changing offset casts and the view-producing casts this
    is the check the code makes; the fixed-to-offset cast checks
    [W * len] only, and the view-to-offset cast checks nothing), and, for a
    fixed-width destination, the widths agree. *)
Definition within_limits (O I : TypeClass) (options : CastOptions)
    (input : ArraySpan) : bool :=
  let total := offset input + len input in
  let final := at_ 0 (ints_of (GetBuffer input 1)) total in
  let max32 := numeric_limits_max int32_t in
  match I, O with
  | FixedSizeBinaryType, FixedSizeBinaryType =>
      byte_width (type input) =? byte_width (to_type options)
  | FixedSizeBinaryType, (BinaryViewType | StringViewType) =>
      negb ((total >? 0) && ((total - 1) * byte_width (type input) >? max32))
  | FixedSizeBinaryType, _ =>
      total * byte_width (type input) <=? numeric_limits_max (offset_type O)
  | _, FixedSizeBinaryType =>
      forallb (width_ok (byte_width (to_type options))) (slots I input)
      && (0 <=? byte_width (to_type options))
  | (BinaryViewType | StringViewType), (BinaryViewType | StringViewType) => true
  | (BinaryViewType | StringViewType), _ =>
      total_bytes (slots I input) <=? numeric_limits_max (offset_type O)
  | _, (BinaryViewType | StringViewType) =>
      negb ((sizeof (offset_type I) >? 4) && (total >? 0) && (final >? max32))
  | _, _ =>
      negb (match offset_type I, offset_type O with
            | int64_t, int32_t => true
            | _, _ => false
            end && (final >? max32))
  end.

(** What a conversion expects of the output record it is handed. *)
Definition output_ready (O I : TypeClass) (options : CastOptions)
    (input : ArraySpan) (out : ArrayData) : bool :=
  match I, O with
  | FixedSizeBinaryType, FixedSizeBinaryType =>
      byte_width (type out) =? byte_width (to_type options)
  | FixedSizeBinaryType, (BinaryViewType | StringViewType) =>
      len out =? len input
  | FixedSizeBinaryType, _ => preallocated_output out (len input)
  | _, FixedSizeBinaryType => true
  | (BinaryViewType | StringViewType), (BinaryViewType | StringViewType) => true
  | (BinaryViewType | StringViewType), _ => prepared_output out
  | _, _ => true
  end.

(** A conversion's outcome [r] from context [ctx] is a success that keeps
    the slots; the only calls traced are those of the guard, and the pool
    only grows. *)
Definition keeps_slots (O I : TypeClass) (options : CastOptions)
    (input : ArraySpan) (ctx : KernelContext)
    (r : Result ArrayData * KernelContext) : Prop :=
  exists output ctx',
    r = (Ok output, ctx')
    /\ trace ctx' = trace ctx ++ guard_calls O I options (slots I input)
    /\ (memory_pool ctx <= memory_pool ctx')%N
    /\ len output = len input
    /\ slots O output = slots I input.

(** Whether the conversion to views stores slot [i] as a reference, and the
    position in the data buffer that reference points at. *)
Definition would_reference (I : TypeClass) (a : ArraySpan) (i : Z) : bool :=
  if is_base_binary_type I
  then IsValid a i && (kInlineSize <? slot_length a i)
  else kInlineSize <? byte_width (type a).

Definition position (I : TypeClass) (a : ArraySpan) (i : Z) : Z :=
  if is_base_binary_type I
  then at_ 0 (ints_of (GetBuffer a 1)) (offset a + i)
  else (offset a + i) * byte_width (type a).

Definition referenced_positions (I : TypeClass) (a : ArraySpan) : list Z :=
  map (position I a) (List.filter (would_reference I a) (seqZ 0 (len a))).

(** What the offset-to-view conversion leaves in its output, the views
    buffer having handle [h]. *)
Definition offset_view_post (input : ArraySpan) (out output : ArrayData)
    (h : N) : Prop :=
  type output = type out /\ len output = len input
  /\ offset output = offset input /\ null_count output = null_count input
  /\ GetBuffer output 0 = GetBuffer input 0
  /\ handle_of (GetBuffer output 1) = Some h
  /\ (forall j, 0 <= j < len input ->
        at_ zero_view (views_of (GetBuffer output 1)) (offset input + j)
        = if IsValid input j then view_of_slot input j else zero_view)
  /\ GetBuffer output 2
     = if forallb (fun i => slot_length input i <=? kInlineSize)
                  (valid_indices (bits_of (GetBuffer input 0))
                                 (offset input) (len input))
       then None else GetBuffer input 2.

(** What the fixed-to-view conversion leaves in its output, the views
    buffer having handle [h]. *)
Definition fixed_view_post (input : ArraySpan) (out output : ArrayData)
    (h : N) : Prop :=
  type output = type out /\ len output = len out
  /\ offset output = offset input /\ null_count output = null_count input
  /\ GetBuffer output 0 = GetBuffer input 0
  /\ handle_of (GetBuffer output 1) = Some h
  /\ (forall j, 0 <= j < len input ->
        at_ zero_view (views_of (GetBuffer output 1)) (offset input + j)
        = view_of_fixed_slot input j)
  /\ GetBuffer output 2
     = if byte_width (type input) <=? kInlineSize
       then GetBuffer out 2 else GetBuffer input 1.

(* ===================================================================== *)
(** The text classes a renderer writes: every layout but the fixed-width
    one. *)
Definition is_text_layout (O : TypeClass) : bool :=
  is_base_binary_type O || is_binary_view_like_type O.

(** The texts [t] fit the builder of class [O]: their bytes are addressable
    by an offset, or by the 32-bit position of a view. *)
Definition text_fits (O : TypeClass) (t : list (option (list byte))) : bool :=
  if is_binary_view_like_type O
  then Z.of_nat (length (view_heap t)) <=? numeric_limits_max int32_t
  else total_bytes t <=? numeric_limits_max (offset_type O).

(** [TypeTraits<O>::BuilderType]: the renderers at the builder of their
    output class. *)
Definition NumericToString (O : TypeClass)
    (StringFormatter : DataType -> Z -> list byte) (input : ArraySpan)
  : M ArrayData :=
  if is_binary_view_like_type O
  then NumericToStringCastFunctor_Exec (builder_ops := BinaryViewBuilder_ops O)
         StringFormatter input
  else NumericToStringCastFunctor_Exec (builder_ops := BinaryBuilder_ops O)
         StringFormatter input.

Definition TemporalToString (O : TypeClass)
    (StringFormatter : DataType -> Z -> list byte) (input : ArraySpan)
  : M ArrayData :=
  if is_binary_view_like_type O
  then TemporalToStringCastFunctor_Exec (builder_ops := BinaryViewBuilder_ops O)
         StringFormatter input
  else TemporalToStringCastFunctor_Exec (builder_ops := BinaryBuilder_ops O)
         StringFormatter input.

Definition DecimalToString (O : TypeClass)
    (StringFormatter : DataType -> Z -> list byte) (input : ArraySpan)
  : M ArrayData :=
  if is_binary_view_like_type O
  then DecimalToStringCastFunctor_Exec (builder_ops := BinaryViewBuilder_ops O)
         StringFormatter input
  else DecimalToStringCastFunctor_Exec (builder_ops := BinaryBuilder_ops O)
         StringFormatter input.

(** The timestamp renderer, at the formatters modelled above. *)
Definition TimestampToString (O : TypeClass)
    (LocateZone : string -> Result time_zone) (input : ArraySpan)
  : M ArrayData :=
  if is_binary_view_like_type O
  then TimestampToStringCastFunctor_Exec (builder_ops := BinaryViewBuilder_ops O)
         StringFormatter_timestamp time_zone LocateZone TimestampFormatter_zoned
         input
  else TimestampToStringCastFunctor_Exec (builder_ops := BinaryBuilder_ops O)
         StringFormatter_timestamp time_zone LocateZone TimestampFormatter_zoned
         input.

(** The storage of a text array of class [O] that holds the texts [t] and
    not a byte for a null slot: in an offset layout the running offsets
    (a null slot repeating the offset before it) and the non-null texts
    end to end; in a view layout a zeroed view for a null slot and the long
    texts end to end. *)
Definition text_layout (O : TypeClass) (t : list (option (list byte)))
    (output : ArrayData) : Prop :=
  if is_binary_view_like_type O
  then views_of_array output = built_views 0 t
       /\ bytes_of (GetBuffer output 2) = view_heap t
  else offsets_of output = 0 :: running_offsets 0 t
       /\ bytes_of (GetBuffer output 2) = concat (non_null t).

(** What a renderer that walked the slots [l] leaves behind: the text array
    [rendered render l], and one formatter call per non-null slot. *)
Definition render_post {V} (O : TypeClass) (call : V -> Call)
    (render : V -> list byte) (l : list (option V)) (ctx : KernelContext)
    (r : Result ArrayData * KernelContext) : Prop :=
  exists output,
    r = (Ok output, add_allocations (add_trace ctx (map call (non_null l))) 3)
    /\ len output = Z.of_nat (length l)
    /\ offset output = 0
    /\ slots O output = rendered render l
    /\ text_layout O (rendered render l) output.

(** Every null slot of [input] is a null slot of [output]. *)
Definition nulls_kept (input output : ArraySpan) : Prop :=
  len output = len input
  /\ forall i, 0 <= i < len input ->
       IsValid input i = false -> IsValid output i = false.

(** In an offset layout, a null slot repeats the offset before it: its span
    is empty. *)
Definition null_spans_empty (output : ArraySpan) : Prop :=
  forall i : nat,
    Z.of_nat i < len output -> IsValid output (Z.of_nat i) = false ->
    nth (S i) (offsets_of output) 0 = nth i (offsets_of output) 0.

(** The storage of [output] holds no byte for a null slot: an offset layout
    has the non-null slots end to end in its data buffer and an empty span
    for a null slot; a view layout has the long non-null slots end to end
    and a zeroed view for a null slot. *)
Definition compact (O : TypeClass) (output : ArraySpan) : Prop :=
  if is_binary_view_like_type O
  then bytes_of (GetBuffer output 2) = view_heap (slots O output)
       /\ forall i : nat,
            Z.of_nat i < len output -> IsValid output (Z.of_nat i) = false ->
            nth i (views_of_array output) zero_view = zero_view
  else bytes_of (GetBuffer output 2) = concat (non_null (slots O output))
       /\ null_spans_empty output.

(** The outcome [r] of rendering the slots [l] of [input] keeps the nulls,
    called the formatter on the non-null values only, and wrote no byte for
    a null slot. *)
Definition renders_nulls {V} (O : TypeClass) (call : V -> Call)
    (l : list (option V)) (input : ArraySpan) (ctx : KernelContext)
    (r : Result ArrayData * KernelContext) : Prop :=
  exists output ctx',
    r = (Ok output, ctx')
    /\ nulls_kept input output
    /\ trace ctx' = trace ctx ++ map call (non_null l)
    /\ compact O output.

(** The civil form [YYYY-MM-DD HH:MM:SS], with the fractional digits of
    the unit. *)
Definition civil_text (u : TimeUnit) (c : civil_time) : list byte :=
  format_civil u c "%Y-%m-%d %H:%M:%S".

(** The text of an instant of a column tagged with the zone [timezone],
    resolved to [tz]: the civil time in that zone, then the zone's offset
    as [+HHMM], or the letter [Z] when the tag reads exactly [UTC]. *)
Definition zoned_timestamp_text (u : TimeUnit) (timezone : string)
    (tz : time_zone) (v : Z) : list byte :=
  let c := to_civil u (tz_utc_offset tz (v / units_per_second u)) v in
  civil_text u c
  ++ (if String.eqb timezone "UTC" then [byte_of_ascii "Z"]
      else offset_text (c_utc_offset c)).

(** The number of zone lookups in a trace. *)
Definition zone_lookups (calls : list Call) : nat :=
  length (List.filter
            (fun c => match c with CallLocateZone _ => true | _ => false end)
            calls).

(** ** Overload selection, as the file declares it *)

(** The eight overloads of [BinaryToBinaryCastExec], in the order of the
    file. *)
Inductive Overload :=
| OffsetToOffset | ViewToOffset | OffsetToView | ViewToView
| FixedToView | FixedToOffset | FixedToFixed | ToFixed.

(** [std::is_same<T, FixedSizeBinaryType>::value] *)
Definition is_fixed_size_binary (T : TypeClass) : bool :=
  match T with FixedSizeBinaryType => true | _ => false end.

(** The [enable_if_t] condition of each overload. *)
Definition enabled (ov : Overload) (O I : TypeClass) : bool :=
  match ov with
  | OffsetToOffset => is_base_binary_type I && is_base_binary_type O
  | ViewToOffset => is_binary_view_like_type I && is_base_binary_type O
  | OffsetToView => is_base_binary_type I && is_binary_view_like_type O
  | ViewToView => is_binary_view_like_type I && is_binary_view_like_type O
  | FixedToView => is_fixed_size_binary I && is_binary_view_like_type O
  | FixedToOffset => is_fixed_size_binary I && is_base_binary_type O
  | FixedToFixed => is_fixed_size_binary I && is_fixed_size_binary O
  | ToFixed => (is_base_binary_type I || is_binary_view_like_type I)
               && is_fixed_size_binary O
  end.

Definition overload_body (ValidateUTF8Inline : list byte -> bool)
    (ToString : DataType -> string) (ov : Overload) (O I : TypeClass)
  : CastOptions -> ArraySpan -> ArrayData -> M ArrayData :=
  match ov with
  | OffsetToOffset =>
      BinaryToBinaryCastExec_offset_offset ValidateUTF8Inline ToString O I
  | ViewToOffset => BinaryToBinaryCastExec_view_offset ValidateUTF8Inline O I
  | OffsetToView =>
      BinaryToBinaryCastExec_offset_view ValidateUTF8Inline ToString O I
  | ViewToView => BinaryToBinaryCastExec_view_view ValidateUTF8Inline O I
  | FixedToView =>
      BinaryToBinaryCastExec_fixed_view ValidateUTF8Inline ToString O I
  | FixedToOffset =>
      BinaryToBinaryCastExec_fixed_offset ValidateUTF8Inline ToString O I
  | FixedToFixed => BinaryToBinaryCastExec_fixed_fixed ToString O I
  | ToFixed => BinaryToBinaryCastExec_to_fixed ToString O I
  end.

(** What [ZeroCopyCastExec] returns: the input's record under the output's
    type. *)
Definition zero_copy_of (input : ArraySpan) (out : ArrayData) : ArrayData :=
  {| type := type out; len := len input; offset := offset input;
     null_count := null_count input; buffers := buffers input |}.

(** A computation that calls no injected capability. *)
Definition silent {A} (m : M A) : Prop :=
  forall ctx, trace (snd (m ctx)) = trace ctx.

(** What a layout conversion leaves in storage under the slots, a null
    slot included, by overload:
    - views to offsets rebuilds the array slot by slot and writes no byte
      for a null slot;
    - offsets to offsets keeps the source's validity and data buffers and
      the offsets of its window, so whatever span a null slot has;
    - views to views and fixed width to fixed width keep every buffer;
    - offsets to views keeps the validity buffer, writes no data (the data
      buffer is the source's, or none) and leaves the view of a null slot
      zeroed;
    - fixed width to views keeps the validity buffer and writes for every
      slot, null or not, a view of the width over the source's bytes;
    - fixed width to offsets copies the source's data and gives every slot,
      null or not, a span of the width;
    - offsets or views to fixed width stores the bytes of a non-null slot
      and as many zero bytes as the width for a null slot. *)
Definition storage_kept (ov : Overload) (O I : TypeClass)
    (options : CastOptions) (input : ArraySpan) (out output : ArrayData)
  : Prop :=
  match ov with
  | ViewToOffset => compact O output
  | OffsetToOffset =>
      GetBuffer output 0 = GetBuffer input 0
      /\ GetBuffer output 2 = GetBuffer input 2
      /\ offsets_of output = offsets_of input
  | ViewToView | FixedToFixed => buffers output = buffers input
  | OffsetToView =>
      GetBuffer output 0 = GetBuffer input 0
      /\ (GetBuffer output 2 = None \/ GetBuffer output 2 = GetBuffer input 2)
      /\ forall j, 0 <= j < len input -> IsValid input j = false ->
           at_ zero_view (views_of (GetBuffer output 1)) (offset input + j)
           = zero_view
  | FixedToView =>
      GetBuffer output 0 = GetBuffer input 0
      /\ GetBuffer output 2
         = (if byte_width (type input) <=? kInlineSize
            then GetBuffer out 2 else GetBuffer input 1)
      /\ forall j, 0 <= j < len input ->
           let v := at_ zero_view (views_of (GetBuffer output 1))
                        (offset input + j) in
           size v = byte_width (type input)
           /\ resolve_view output v = GetView_fixed input j
  | FixedToOffset =>
      bytes_of (GetBuffer output 2) = bytes_of (GetBuffer input 1)
      /\ forall i, 0 <= i < len input ->
           at_ 0 (ints_of (GetBuffer output 1)) (offset output + i + 1)
           - at_ 0 (ints_of (GetBuffer output 1)) (offset output + i)
           = byte_width (type input)
  | ToFixed =>
      bytes_of (GetBuffer output 1)
      = concat (map (fixed_payload (byte_width (to_type options)))
                    (slots I input))
  end.

(** The outcome [r] of a layout conversion keeps the nulls, validated the
    non-null slots only, and left in storage what its overload leaves
    ([storage_kept]). *)
Definition transcodes_nulls (O I : TypeClass) (options : CastOptions)
    (input : ArraySpan) (out : ArrayData) (ctx : KernelContext)
    (r : Result ArrayData * KernelContext) : Prop :=
  exists output ctx',
    r = (Ok output, ctx')
    /\ nulls_kept input output
    /\ trace ctx' = trace ctx ++ guard_calls O I options (slots I input)
    /\ forall ov, enabled ov O I = true ->
         storage_kept ov O I options input out output.

(** ** Sample inputs *)

Definition ctx0 : KernelContext := {| memory_pool := 100%N; trace := [] |}.

Definition bytes_of_string (s : string) : list byte := list_byte_of_string s.

(** A well-formed UTF-8 check for the samples: ASCII only. *)
Definition ascii_only (s : list byte) : bool :=
  forallb (fun b => Z_of_byte b <? 128) s.

(** ["ab", null, "cde"] with 64-bit offsets. *)
Definition sample_large_binary : ArrayData :=
  {| type := large_binary; len := 3; offset := 0; null_count := 1;
     buffers := [ Some {| handle := 1%N; contents := Bitmap [true; false; true] |};
                  Some {| handle := 2%N; contents := Ints [0; 2; 2; 5] |};
                  Some {| handle := 3%N;
                          contents := Bytes (bytes_of_string "abcde") |} ] |}.

(** No slots, width 13: a fixed-width array above the inline threshold. *)
Definition empty_fixed13 : ArrayData :=
  {| type := fixed_size_binary 13; len := 0; offset := 0; null_count := 0;
     buffers := [ None; Some {| handle := 5%N; contents := Bytes [] |} ] |}.

(** ["ab", null] of width 2. *)
Definition sample_fixed2 : ArrayData :=
  {| type := fixed_size_binary 2; len := 2; offset := 0; null_count := 1;
     buffers := [ Some {| handle := 1%N; contents := Bitmap [true; false] |};
                  Some {| handle := 2%N;
                          contents := Bytes (bytes_of_string "ab" ++ [x00; x00]) |} ] |}.

(** Two slots of width 13, the second one null. *)
Definition sample_fixed13 : ArrayData :=
  {| type := fixed_size_binary 13; len := 2; offset := 0; null_count := 1;
     buffers := [ Some {| handle := 1%N; contents := Bitmap [true; false] |};
                  Some {| handle := 2%N;
                          contents := Bytes (bytes_of_string "abcdefghijklmnopqrstuvwxyz") |} ] |}.

(** ["ab", "abc", "de"] with 32-bit offsets. *)
Definition sample_strings : ArrayData :=
  {| type := utf8; len := 3; offset := 0; null_count := 0;
     buffers := [ None;
                  Some {| handle := 2%N; contents := Ints [0; 2; 5; 7] |};
                  Some {| handle := 3%N;
                          contents := Bytes (bytes_of_string "ababcde") |} ] |}.

(** ["ab", null, "de"] with 32-bit offsets. *)
Definition sample_pairs : ArrayData :=
  {| type := utf8; len := 3; offset := 0; null_count := 1;
     buffers := [ Some {| handle := 1%N; contents := Bitmap [true; false; true] |};
                  Some {| handle := 2%N; contents := Ints [0; 2; 2; 4] |};
                  Some {| handle := 3%N;
                          contents := Bytes (bytes_of_string "abde") |} ] |}.

(** ["a long enough string", null, "", "xy"], seen from slot 1 of a
    five-slot parent: a slice with offset 1. *)
Definition sample_sliced_strings : ArrayData :=
  {| type := utf8; len := 4; offset := 1; null_count := 1;
     buffers := [ Some {| handle := 1%N;
                          contents := Bitmap [true; true; false; true; true] |};
                  Some {| handle := 2%N; contents := Ints [0; 3; 23; 25; 25; 27] |};
                  Some {| handle := 3%N;
                          contents := Bytes (bytes_of_string
                                               "abca long enough string??xy") |} ] |}.

(** [null, "\xFF\xFE"] as binary: the second slot is not UTF-8. *)
Definition sample_not_utf8 : ArrayData :=
  {| type := binary; len := 2; offset := 0; null_count := 1;
     buffers := [ Some {| handle := 1%N; contents := Bitmap [false; true] |};
                  Some {| handle := 2%N; contents := Ints [0; 0; 2] |};
                  Some {| handle := 3%N; contents := Bytes [xff; xfe] |} ] |}.

Definition with_allow (allow : bool) (options : CastOptions) : CastOptions :=
  {| allow_invalid_utf8 := allow; to_type := to_type options |}.

(** A zone database for the samples: UTC and one fixed offset east of
    it. *)
Definition sample_zones (name : string) : Result time_zone :=
  if String.eqb name "UTC" then Ok {| tz_utc_offset := fun _ => 0 |}
  else if String.eqb name "Asia/Kolkata" then Ok {| tz_utc_offset := fun _ => 19800 |}
  else Err Invalid "Cannot locate timezone".

(** [2021-01-01 00:00:00 UTC, null] in seconds, tagged with [timezone]. *)
Definition sample_instants (timezone : string) : ArrayData :=
  {| type := timestamp SECOND timezone; len := 2; offset := 0; null_count := 1;
     buffers := [ Some {| handle := 1%N; contents := Bitmap [true; false] |};
                  Some {| handle := 2%N; contents := Ints [1609459200; 0] |} ] |}.

(** ["ab", null, "cde"] as views, every value inline. *)
Definition sample_views : ArrayData :=
  {| type := binary_view; len := 3; offset := 0; null_count := 1;
     buffers := [ Some {| handle := 1%N; contents := Bitmap [true; false; true] |};
                  Some {| handle := 2%N;
                          contents :=
                            Views [ set_inlined zero_view 2 (bytes_of_string "ab");
                                    zero_view;
                                    set_inlined zero_view 3 (bytes_of_string "cde") ] |} ] |}.

(** [null, "\xFF\xFE"] typed as a string: a slot that is not UTF-8 in an
    array that claims to be. *)
Definition sample_bad_string : ArrayData :=
  {| type := utf8; len := 2; offset := 0; null_count := 1;
     buffers := [ Some {| handle := 1%N; contents := Bitmap [false; true] |};
                  Some {| handle := 2%N; contents := Ints [0; 0; 2] |};
                  Some {| handle := 3%N; contents := Bytes [xff; xfe] |} ] |}.

(** [7, null, 42] as 32-bit integers. *)
Definition sample_numbers : ArrayData :=
  {| type := primitive "int32"; len := 3; offset := 0; null_count := 1;
     buffers := [ Some {| handle := 1%N; contents := Bitmap [true; false; true] |};
                  Some {| handle := 2%N; contents := Ints [7; 0; 42] |} ] |}.

(** A formatter for the samples: the decimal digits of a natural number. *)
Definition sample_formatter (t : DataType) (v : Z) : list byte :=
  decimal_digits 20 v [].

(** [258, null] as 2-byte little-endian decimals. *)
Definition sample_decimals : ArrayData :=
  {| type := decimal 2 4 0; len := 2; offset := 0; null_count := 1;
     buffers := [ Some {| handle := 1%N; contents := Bitmap [true; false] |};
                  Some {| handle := 2%N;
                          contents := Bytes [x02; x01; x00; x00] |} ] |}.

(** One empty slot of a 64-bit-offset array, at position [n] of its data
    buffer. *)
Definition empty_slot_at (n : Z) : ArrayData :=
  {| type := large_binary; len := 1; offset := 0; null_count := 0;
     buffers := [ None;
                  Some {| handle := 2%N; contents := Ints [n; n] |};
                  Some {| handle := 3%N;
                          contents := Bytes (replicate (Z.to_nat n) x00) |} ] |}.

(** The last slot of a fixed-width array of width 8 whose window ends
    [n] elements into the data buffer. *)
Definition last_of_fixed8 (n : Z) : ArrayData :=
  {| type := fixed_size_binary 8; len := 1; offset := n - 1; null_count := 0;
     buffers := [ None;
                  Some {| handle := 2%N;
                          contents := Bytes (replicate (Z.to_nat (n * 8)) x00) |} ] |}.

(** ["ab", null] of width 2, seen from slot 1 of a three-slot parent. *)
Definition sample_sliced_fixed2 : ArrayData :=
  {| type := fixed_size_binary 2; len := 2; offset := 1; null_count := 1;
     buffers := [ Some {| handle := 1%N; contents := Bitmap [true; true; false] |};
                  Some {| handle := 2%N;
                          contents := Bytes (bytes_of_string "xxab" ++ [x00; x00]) |} ] |}.

Definition to_fixed2 : CastOptions :=
  {| allow_invalid_utf8 := false; to_type := fixed_size_binary 2 |}.

Definition no_options : CastOptions :=
  {| allow_invalid_utf8 := false; to_type := binary |}.

(** One slot of width [2^30], seen through a slice that starts at element 1
    of a two-element buffer. *)
Definition sliced_wide_fixed : ArrayData :=
  {| type := fixed_size_binary 1073741824; len := 1; offset := 1; null_count := 0;
     buffers := [ None;
                  Some {| handle := 2%N;
                          contents := Bytes (replicate (Z.to_nat 2147483648) x00) |} ] |}.

(** An output record with an offsets buffer preallocated for [n] slots. *)
Definition preallocated_out (t : DataType) (n : Z) : ArrayData :=
  {| type := t; len := n; offset := 0; null_count := 0;
     buffers := [ None;
                  Some {| handle := 50%N;
                          contents := Ints (replicate (Z.to_nat (n + 1)) 0) |};
                  None ] |}.

Definition sample_out (t : DataType) (n : Z) : ArrayData :=
  {| type := t; len := n; offset := 0; null_count := 0;
     buffers := [None; None; None] |}.

(** A 64-bit-offset array of one slot whose data ends at byte [n]. *)
Definition one_slot_large_binary (n : Z) : ArrayData :=
  {| type := large_binary; len := 1; offset := 0; null_count := 0;
     buffers := [ None;
                  Some {| handle := 2%N; contents := Ints [0; n] |};
                  Some {| handle := 3%N;
                          contents := Bytes (replicate (Z.to_nat n) x00) |} ] |}.

(* ===================================================================== *)
(** * Properties *)

(** ** Integers, bytes and view records *)

Lemma static_cast_id (T : IntType) (z : Z) :
  numeric_limits_min T <= z <= numeric_limits_max T -> static_cast T z = z.
Proof.
  intros Hz. unfold static_cast.
  rewrite Z.mod_small; [lia|].
  destruct T; unfold numeric_limits_min, numeric_limits_max in *; lia.
Qed.

Lemma static_cast_int32_id (z : Z) :
  0 <= z <= 2147483647 -> static_cast int32_t z = z.
Proof. intros. apply static_cast_id. unfold numeric_limits_min. simpl. lia. Qed.

Lemma static_cast_nonneg_id (T : IntType) (z : Z) :
  0 <= z <= numeric_limits_max T -> static_cast T z = z.
Proof.
  intros. apply static_cast_id. unfold numeric_limits_min.
  destruct T; simpl in *; lia.
Qed.

Lemma Z_of_byte_of_Z (z : Z) : Z_of_byte (byte_of_Z z) = z mod 256.
Proof.
  unfold Z_of_byte, byte_of_Z.
  assert (Hb : 0 <= z mod 256 < 256) by (apply Z.mod_pos_bound; lia).
  destruct (Byte.of_N (Z.to_N (z mod 256))) as [b|] eqn:E.
  - apply Byte.to_of_N in E. rewrite E. lia.
  - apply Byte.of_N_None_iff in E. lia.
Qed.

Lemma load_store_int32 (z : Z) :
  0 <= z <= 2147483647 -> load_int32 (store_int32 z) = z.
Proof.
  intros Hz. unfold load_int32, store_int32.
  rewrite !Z_of_byte_of_Z.
  assert (E2 : z / 65536 = z / 256 / 256) by (rewrite Z.div_div by lia; reflexivity).
  assert (E3 : z / 16777216 = z / 256 / 256 / 256)
    by (rewrite !Z.div_div by lia; reflexivity).
  rewrite E2, E3.
  pose proof (Z.div_mod z 256 ltac:(lia)).
  pose proof (Z.div_mod (z / 256) 256 ltac:(lia)).
  pose proof (Z.div_mod (z / 256 / 256) 256 ltac:(lia)).
  pose proof (Z.mod_pos_bound z 256 ltac:(lia)).
  pose proof (Z.mod_pos_bound (z / 256) 256 ltac:(lia)).
  pose proof (Z.mod_pos_bound (z / 256 / 256) 256 ltac:(lia)).
  assert (0 <= z / 256 / 256 / 256 < 128).
  { rewrite <- E3. split; [apply Z.div_pos; lia|].
    apply Z.div_lt_upper_bound; lia. }
  rewrite (Z.mod_small (z / 256 / 256 / 256)) by lia.
  rewrite static_cast_int32_id; lia.
Qed.

(** ** The monad and the slot walks *)

Ltac monad_unfold :=
  unfold mbind, M_bind, bind, mret, M_ret, ret, raise, lift, record_call,
    Allocate in *.

Lemma add_trace_nil (ctx : KernelContext) : add_trace ctx [] = ctx.
Proof. destruct ctx. unfold add_trace. simpl. by rewrite app_nil_r. Qed.

Lemma add_trace_app (ctx : KernelContext) (l1 l2 : list Call) :
  add_trace (add_trace ctx l1) l2 = add_trace ctx (l1 ++ l2).
Proof. unfold add_trace. simpl. by rewrite app_assoc. Qed.

Lemma foldM_ext {A S} (f g : A -> S -> M S) (l : list A) :
  (forall a s ctx, f a s ctx = g a s ctx) ->
  forall s ctx, foldM f l s ctx = foldM g l s ctx.
Proof.
  intros Hfg. induction l as [|a l IH]; intros s ctx; simpl; [done|].
  monad_unfold. rewrite Hfg. destruct (g a s ctx) as [[s'|c msg] ctx']; auto.
Qed.

Lemma foldM_map {A A' S} (h : A -> A') (f : A' -> S -> M S) (l : list A) :
  forall s ctx, foldM f (map h l) s ctx = foldM (fun a => f (h a)) l s ctx.
Proof.
  induction l as [|a l IH]; intros s ctx; simpl; [done|].
  monad_unfold. destruct (f (h a) s ctx) as [[s'|c msg] ctx']; auto.
Qed.

Lemma VisitArraySpanInline_slots {S} (I : TypeClass) (input : ArraySpan)
    (valid_func : list byte -> S -> M S) (null_func : S -> M S) (s : S) ctx :
  VisitArraySpanInline I input valid_func null_func s ctx
  = visit_slots valid_func null_func (slots I input) s ctx.
Proof.
  unfold VisitArraySpanInline, visit_slots, slots.
  rewrite foldM_map. apply foldM_ext. intros i s' ctx'.
  by destruct (IsValid input i).
Qed.

Lemma VisitValuesInline_slots {S} (input : ArraySpan)
    (valid_func : Z -> S -> M S) (null_func : S -> M S) (s : S) ctx :
  VisitValuesInline input valid_func null_func s ctx
  = visit_slots valid_func null_func (value_slots input) s ctx.
Proof.
  unfold VisitValuesInline, visit_slots, value_slots.
  rewrite foldM_map. apply foldM_ext. intros i s' ctx'.
  by destruct (IsValid input i).
Qed.

Lemma visit_slots_cons_some {V S} (vf : V -> S -> M S) (nf : S -> M S) v l s ctx :
  visit_slots vf nf (Some v :: l) s ctx
  = match vf v s ctx with
    | (Ok s', ctx') => visit_slots vf nf l s' ctx'
    | (Err c msg, ctx') => (Err c msg, ctx')
    end.
Proof. reflexivity. Qed.

Lemma visit_slots_cons_none {V S} (vf : V -> S -> M S) (nf : S -> M S) l s ctx :
  visit_slots vf nf (None :: l) s ctx
  = match nf s ctx with
    | (Ok s', ctx') => visit_slots vf nf l s' ctx'
    | (Err c msg, ctx') => (Err c msg, ctx')
    end.
Proof. reflexivity. Qed.

(** ** The UTF-8 guard *)

Section Guard.

Variable ValidateUTF8Inline : list byte -> bool.

Lemma validate_clean (l : list (option (list byte))) ctx :
  utf8_clean ValidateUTF8Inline l = true ->
  validate_slots ValidateUTF8Inline l ctx
  = (Ok tt, add_trace ctx (map CallValidateUTF8 (non_null l))).
Proof.
  revert ctx. induction l as [|[v|] l IH]; intros ctx Hl.
  - simpl. by rewrite add_trace_nil.
  - simpl in Hl. apply andb_prop in Hl as [Hv Hl].
    unfold validate_slots. rewrite visit_slots_cons_some.
    unfold Utf8Validator_VisitValue at 1. monad_unfold. rewrite Hv. simpl.
    change (visit_slots _ _ ?l tt) with (validate_slots ValidateUTF8Inline l). rewrite IH by done.
    f_equal. unfold add_trace. simpl. f_equal. by rewrite <- app_assoc.
  - simpl in Hl. unfold validate_slots. rewrite visit_slots_cons_none.
    unfold Utf8Validator_VisitNull at 1. monad_unfold.
    change (visit_slots _ _ ?l tt) with (validate_slots ValidateUTF8Inline l). by rewrite IH.
Qed.

Lemma validate_dirty (pre post : list (option (list byte))) (v : list byte) ctx :
  utf8_clean ValidateUTF8Inline pre = true ->
  ValidateUTF8Inline v = false ->
  validate_slots ValidateUTF8Inline (pre ++ Some v :: post) ctx
  = (Err Invalid "Invalid UTF8 payload",
     add_trace ctx (map CallValidateUTF8 (non_null pre ++ [v]))).
Proof.
  revert ctx. induction pre as [|[w|] pre IH]; intros ctx Hpre Hv.
  - simpl. unfold validate_slots. rewrite visit_slots_cons_some.
    unfold Utf8Validator_VisitValue. monad_unfold. by rewrite Hv.
  - simpl in Hpre. apply andb_prop in Hpre as [Hw Hpre].
    simpl. unfold validate_slots. rewrite visit_slots_cons_some.
    unfold Utf8Validator_VisitValue at 1. monad_unfold. rewrite Hw. simpl.
    change (visit_slots _ _ ?l tt) with (validate_slots ValidateUTF8Inline l). rewrite IH by done.
    f_equal. unfold add_trace. simpl. f_equal. by rewrite <- app_assoc.
  - simpl in Hpre. simpl. unfold validate_slots. rewrite visit_slots_cons_none.
    unfold Utf8Validator_VisitNull at 1. monad_unfold.
    change (visit_slots _ _ ?l tt) with (validate_slots ValidateUTF8Inline l). by rewrite IH.
Qed.

(** Any list of slots is clean, or splits at its first dirty slot. *)
Lemma utf8_clean_or_first_dirty (l : list (option (list byte))) :
  utf8_clean ValidateUTF8Inline l = true
  \/ exists pre v post,
       l = pre ++ Some v :: post
       /\ utf8_clean ValidateUTF8Inline pre = true
       /\ ValidateUTF8Inline v = false.
Proof.
  induction l as [|o l IH]; [by left|].
  destruct o as [v|].
  - destruct (ValidateUTF8Inline v) eqn:Hv.
    + destruct IH as [IH|(pre & w & post & -> & Hpre & Hw)].
      * left. simpl. by rewrite Hv.
      * right. exists (Some v :: pre), w, post. simpl. by rewrite Hv.
    + right. by exists [], v, l.
  - destruct IH as [IH|(pre & w & post & -> & Hpre & Hw)].
    + by left.
    + right. by exists (None :: pre), w, post.
Qed.

Lemma ValidateInput_slots (I : TypeClass) (options : CastOptions)
    (input : ArraySpan) ctx :
  ValidateInput ValidateUTF8Inline I options input ctx
  = if allow_invalid_utf8 options then (Ok tt, ctx)
    else validate_slots ValidateUTF8Inline (slots I input) ctx.
Proof.
  unfold ValidateInput. destruct (allow_invalid_utf8 options); simpl; [done|].
  apply VisitArraySpanInline_slots.
Qed.

Lemma guard_skipped (O I : TypeClass) options input ctx :
  must_validate O I options = false ->
  guard ValidateUTF8Inline O I options input ctx = (Ok tt, ctx).
Proof.
  unfold guard, must_validate. intros H.
  destruct (negb (is_utf8 I) && is_utf8 O); [|done].
  rewrite ValidateInput_slots. simpl in H.
  by destruct (allow_invalid_utf8 options).
Qed.

Lemma guard_clean (O I : TypeClass) options input ctx :
  must_validate O I options = true ->
  utf8_clean ValidateUTF8Inline (slots I input) = true ->
  guard ValidateUTF8Inline O I options input ctx
  = (Ok tt, add_trace ctx (map CallValidateUTF8 (non_null (slots I input)))).
Proof.
  unfold guard, must_validate. intros H Hc.
  destruct (negb (is_utf8 I) && is_utf8 O); [|done].
  rewrite ValidateInput_slots. simpl in H.
  destruct (allow_invalid_utf8 options); [done|].
  by apply validate_clean.
Qed.

Lemma guard_dirty (O I : TypeClass) options input pre v post ctx :
  must_validate O I options = true ->
  slots I input = pre ++ Some v :: post ->
  utf8_clean ValidateUTF8Inline pre = true ->
  ValidateUTF8Inline v = false ->
  guard ValidateUTF8Inline O I options input ctx
  = (Err Invalid "Invalid UTF8 payload",
     add_trace ctx (map CallValidateUTF8 (non_null pre ++ [v]))).
Proof.
  unfold guard, must_validate. intros H Hs Hpre Hv.
  destruct (negb (is_utf8 I) && is_utf8 O); [|done].
  rewrite ValidateInput_slots. simpl in H.
  destruct (allow_invalid_utf8 options); [done|].
  rewrite Hs. by apply validate_dirty.
Qed.

Lemma guard_cases (O I : TypeClass) options input ctx :
  (exists ctx', guard ValidateUTF8Inline O I options input ctx = (Ok tt, ctx')
                /\ memory_pool ctx' = memory_pool ctx)
  \/ (exists ctx', guard ValidateUTF8Inline O I options input ctx
                   = (Err Invalid "Invalid UTF8 payload", ctx')).
Proof.
  destruct (must_validate O I options) eqn:Hm.
  - destruct (utf8_clean_or_first_dirty (slots I input))
      as [Hc|(pre & v & post & Hs & Hpre & Hv)].
    + left. eexists. split; [by apply guard_clean|done].
    + right. eexists. by eapply guard_dirty.
  - left. eexists. split; [by apply guard_skipped|done].
Qed.

End Guard.

(** ** Lists read through [at_] *)

Lemma at_seqZ (m n i : Z) : 0 <= i < n -> at_ 0 (seqZ m n) i = m + i.
Proof.
  intros Hi. unfold at_. rewrite nth_lookup.
  rewrite lookup_seqZ_lt by lia. simpl. lia.
Qed.

Lemma at_map_seqZ {A} (d : A) (f : Z -> A) (n i : Z) :
  0 <= i < n -> at_ d (map f (seqZ 0 n)) i = f i.
Proof.
  intros Hi. unfold at_.
  rewrite (nth_indep _ d (f 0)) by (rewrite length_map, length_seqZ; lia).
  rewrite map_nth. f_equal.
  change (nth (Z.to_nat i) (seqZ 0 n) 0) with (at_ 0 (seqZ 0 n) i).
  rewrite at_seqZ by lia. lia.
Qed.

Lemma at_app_l {A} (d : A) (l1 l2 : list A) (k : Z) :
  0 <= k < Z.of_nat (length l1) -> at_ d (l1 ++ l2) k = at_ d l1 k.
Proof. intros Hk. unfold at_. apply app_nth1. lia. Qed.

Lemma at_app_r {A} (d : A) (l1 l2 : list A) (k : Z) :
  Z.of_nat (length l1) <= k ->
  at_ d (l1 ++ l2) k = at_ d l2 (k - Z.of_nat (length l1)).
Proof.
  intros Hk. unfold at_. rewrite app_nth2 by lia. f_equal. lia.
Qed.

Lemma at_insert_eq {A} (d : A) (l : list A) (k : Z) (x : A) :
  0 <= k < Z.of_nat (length l) -> at_ d (<[Z.to_nat k := x]> l) k = x.
Proof.
  intros Hk. unfold at_. rewrite nth_lookup.
  rewrite list_lookup_insert_eq by lia. done.
Qed.

Lemma at_insert_ne {A} (d : A) (l : list A) (j k : Z) (x : A) :
  0 <= j -> 0 <= k -> j <> k ->
  at_ d (<[Z.to_nat j := x]> l) k = at_ d l k.
Proof.
  intros Hj Hk Hne. unfold at_. rewrite !nth_lookup.
  rewrite list_lookup_insert_ne by lia. done.
Qed.

Lemma at_replicate {A} (d x : A) (n : nat) (k : Z) :
  0 <= k < Z.of_nat n -> at_ d (replicate n x) k = x.
Proof.
  intros Hk. unfold at_. rewrite nth_lookup.
  rewrite lookup_replicate_2 by lia. done.
Qed.

Lemma length_CastInts (O : IntType) (src : Z -> Z) (n : Z) :
  length (CastInts O src n) = Z.to_nat n.
Proof. unfold CastInts. by rewrite length_map, length_seqZ. Qed.

Lemma at_write_at {A} (d : A) (dst src : list A) (pos k : Z) :
  0 <= pos <= Z.of_nat (length dst) ->
  0 <= k < Z.of_nat (length src) ->
  at_ d (write_at dst pos src) (pos + k) = at_ d src k.
Proof.
  intros Hpos Hk. unfold write_at.
  rewrite at_app_r by (rewrite length_take; lia).
  rewrite length_take.
  rewrite at_app_l by lia. f_equal. lia.
Qed.

(** ** Well-formed offsets *)

Lemma wf_offsets_elim (T : TypeClass) (a : ArraySpan) :
  wf_offsets T a = true ->
  let offsets := ints_of (GetBuffer a 1) in
  0 <= offset a /\ 0 <= len a
  /\ offset a + len a + 1 <= Z.of_nat (length offsets)
  /\ 0 <= at_ 0 offsets (offset a)
  /\ (forall i, 0 <= i < len a ->
        at_ 0 offsets (offset a + i) <= at_ 0 offsets (offset a + i + 1))
  /\ at_ 0 offsets (offset a + len a)
     <= Z.of_nat (length (bytes_of (GetBuffer a 2)))
  /\ at_ 0 offsets (offset a + len a) <= numeric_limits_max (offset_type T).
Proof.
  unfold wf_offsets. intros H.
  repeat (apply andb_prop in H as [H ?]).
  repeat split; try lia.
  intros i Hi.
  match goal with HF : forallb _ _ = true |- _ =>
    rewrite forallb_forall in HF; apply Z.leb_le, HF end.
  apply list_elem_of_In, elem_of_seqZ. lia.
Qed.

(** Offsets never decrease, so each lies between the first and the last. *)
Lemma wf_offsets_monotone (T : TypeClass) (a : ArraySpan) :
  wf_offsets T a = true ->
  forall i j, 0 <= i <= j -> j <= len a ->
    at_ 0 (ints_of (GetBuffer a 1)) (offset a + i)
    <= at_ 0 (ints_of (GetBuffer a 1)) (offset a + j).
Proof.
  intros Hwf. apply wf_offsets_elim in Hwf as (_ & _ & _ & _ & Hmono & _).
  intros i j Hij Hj.
  replace j with (i + Z.of_nat (Z.to_nat (j - i))) in * by lia.
  induction (Z.to_nat (j - i)) as [|n IH].
  - replace (i + Z.of_nat 0) with i by lia. lia.
  - etrans; [apply IH; lia|].
    replace (offset a + (i + Z.of_nat (S n)))
      with (offset a + (i + Z.of_nat n) + 1) by lia.
    apply Hmono. lia.
Qed.

Lemma wf_offsets_bounds (T : TypeClass) (a : ArraySpan) :
  wf_offsets T a = true ->
  forall i, 0 <= i <= len a ->
    0 <= at_ 0 (ints_of (GetBuffer a 1)) (offset a + i)
      <= at_ 0 (ints_of (GetBuffer a 1)) (offset a + len a).
Proof.
  intros Hwf i Hi. split.
  - pose proof (wf_offsets_monotone T a Hwf 0 i ltac:(lia) ltac:(lia)) as H.
    apply wf_offsets_elim in Hwf as (_ & _ & _ & H0 & _).
    replace (offset a + 0) with (offset a) in H by lia. lia.
  - apply (wf_offsets_monotone T a Hwf); lia.
Qed.

(** ** Narrowing the offsets (64 -> 32 bits) *)

Lemma GetBuffer_set_buffer_eq (a : ArrayData) (i : nat) (b : option Buffer) :
  (i < length (buffers a))%nat -> GetBuffer (set_buffer a i b) i = b.
Proof.
  intros Hi. unfold GetBuffer, set_buffer. simpl.
  by rewrite list_lookup_insert_eq.
Qed.

Lemma GetBuffer_set_buffer_ne (a : ArrayData) (i j : nat) (b : option Buffer) :
  i <> j -> GetBuffer (set_buffer a i b) j = GetBuffer a j.
Proof.
  intros Hi. unfold GetBuffer, set_buffer. simpl.
  by rewrite list_lookup_insert_ne.
Qed.

Lemma GetBuffer_set_buffer_None (a : ArrayData) (i : nat) :
  GetBuffer (set_buffer a i None) i = None.
Proof.
  unfold GetBuffer, set_buffer. simpl.
  destruct (decide (i < length (buffers a))%nat).
  - by rewrite list_lookup_insert_eq.
  - rewrite list_insert_ge by lia. by rewrite lookup_ge_None_2 by lia.
Qed.

Lemma length_buffers_set_buffer (a : ArrayData) (i : nat) (b : option Buffer) :
  length (buffers (set_buffer a i b)) = length (buffers a).
Proof. unfold set_buffer. simpl. apply length_insert. Qed.

Lemma GetBuffer_record t n o c (l : list (option Buffer)) (i : nat) :
  GetBuffer {| type := t; len := n; offset := o; null_count := c; buffers := l |} i
  = default None (l !! i).
Proof. reflexivity. Qed.

Lemma GetBuffer_Some_lt (a : ArrayData) (i : nat) (b : Buffer) :
  GetBuffer a i = Some b -> (i < length (buffers a))%nat.
Proof.
  unfold GetBuffer. intros H.
  destruct (buffers a !! i) eqn:E; [|done].
  by apply lookup_lt_Some in E.
Qed.

Lemma ints_nonempty_buffer (a : ArrayData) (i : nat) :
  (0 < length (ints_of (GetBuffer a i)))%nat -> (i < length (buffers a))%nat.
Proof.
  destruct (GetBuffer a i) as [b|] eqn:E; [|simpl; lia].
  intros _. by eapply GetBuffer_Some_lt.
Qed.

Lemma converted_offsets_exact (O : IntType) (T : TypeClass)
    (input : ArraySpan) (output : ArrayData) :
  wf_offsets T input = true ->
  len output = len input -> offset output = offset input ->
  at_ 0 (ints_of (GetBuffer input 1)) (offset input + len input)
    <= numeric_limits_max O ->
  forall i, 0 <= i <= len input ->
    at_ 0 (converted_offsets O input output) (offset output + i)
    = at_ 0 (ints_of (GetBuffer input 1)) (offset input + i).
Proof.
  intros Hwf Hlen Hoff Hlast i Hi.
  pose proof (wf_offsets_bounds T input Hwf i Hi) as Hb.
  apply wf_offsets_elim in Hwf as (Ho & Hl & _).
  unfold converted_offsets. rewrite Hlen, Hoff.
  rewrite at_write_at.
  - unfold CastInts. rewrite at_map_seqZ by lia.
    apply static_cast_nonneg_id. lia.
  - rewrite length_replicate. lia.
  - rewrite length_CastInts. lia.
Qed.

(** C1, as amended: casting a well-formed 64-bit-offset array to 32-bit
    offsets looks at the final offset only. If it exceeds the 32-bit
    maximum the conversion fails with [Invalid] (not [CapacityError]),
    naming the source and destination types; otherwise (the maximum itself
    included) it succeeds with a fresh offsets buffer holding exactly the
    source offsets. *)
Theorem downcast_offsets_checks_final_offset
    (ToString : DataType -> string) (T : TypeClass)
    (input : ArraySpan) (out : ArrayData) (ctx : KernelContext) :
  offset_type T = int64_t ->
  wf_offsets T input = true ->
  let output := {| type := type out; len := len input; offset := offset input;
                   null_count := null_count input; buffers := buffers input |} in
  let final := at_ 0 (ints_of (GetBuffer input 1)) (offset input + len input) in
  if final >? numeric_limits_max int32_t then
    CastBinaryToBinaryOffsets ToString int64_t int32_t input output ctx
    = (Err Invalid (failed_casting ToString (type input) (type out)
                                   ": input array too large"), ctx)
  else
    exists b,
      CastBinaryToBinaryOffsets ToString int64_t int32_t input output ctx
      = (Ok (set_buffer output 1 (Some b)), add_allocations ctx 1)
      /\ handle b = memory_pool ctx
      /\ offsets_of (set_buffer output 1 (Some b)) = offsets_of input.
Proof.
  intros HT Hwf output final.
  unfold CastBinaryToBinaryOffsets, CastBinaryToBinaryOffsets_down.
  fold final. destruct (final >? numeric_limits_max int32_t) eqn:Hcmp; [done|].
  eexists. split; [|split].
  - monad_unfold. simpl. unfold add_allocations. simpl.
    rewrite N.add_1_r; reflexivity.
  - done.
  - unfold offsets_of. simpl.
    pose proof (wf_offsets_elim T input Hwf) as (Ho & Hl & Hlen & _).
    assert (Hbuf : (1 < length (buffers output))%nat).
    { apply ints_nonempty_buffer. unfold GetBuffer in *. simpl. lia. }
    rewrite GetBuffer_set_buffer_eq by done.
    apply map_ext_in. intros i Hi.
    apply list_elem_of_In, elem_of_seqZ in Hi. simpl.
    apply (converted_offsets_exact int32_t T input output); try done; lia.
Qed.

Lemma wf_one_slot_large_binary (n : Z) :
  0 <= n <= numeric_limits_max int64_t ->
  wf_offsets LargeBinaryType (one_slot_large_binary n) = true.
Proof.
  intros Hn. unfold wf_offsets, one_slot_large_binary, bitmap_ok, GetBuffer, at_.
  simpl. rewrite length_replicate.
  repeat (apply andb_true_intro; split); try done; apply Z.leb_le; simpl in *; lia.
Qed.

(** The witness of [downcast_offsets_checks_final_offset]: the sample
    array ["ab", null, "cde"]. *)
Lemma downcast_offsets_checks_final_offset_witness :
  offset_type LargeBinaryType = int64_t
  /\ wf_offsets LargeBinaryType sample_large_binary = true
  /\ exists b,
       CastBinaryToBinaryOffsets type_name int64_t int32_t sample_large_binary
         {| type := binary; len := 3; offset := 0; null_count := 1;
            buffers := buffers sample_large_binary |} ctx0
       = (Ok (set_buffer
                {| type := binary; len := 3; offset := 0; null_count := 1;
                   buffers := buffers sample_large_binary |} 1 (Some b)),
          add_allocations ctx0 1)
       /\ handle b = memory_pool ctx0
       /\ offsets_of (set_buffer
                        {| type := binary; len := 3; offset := 0; null_count := 1;
                           buffers := buffers sample_large_binary |} 1 (Some b))
          = offsets_of sample_large_binary.
Proof.
  split; [reflexivity|]. split; [reflexivity|].
  exact (downcast_offsets_checks_final_offset type_name LargeBinaryType
           sample_large_binary (sample_out binary 3) ctx0 eq_refl eq_refl).
Defined.

(** C1 as stated fails: a well-formed 64-bit-offset array whose final
    offset is one past the 32-bit maximum is rejected with [Invalid], so
    not with [CapacityError]. *)
Lemma downcast_overflow_is_not_CapacityError :
  let input := one_slot_large_binary 2147483648 in
  wf_offsets LargeBinaryType input = true
  /\ at_ 0 (ints_of (GetBuffer input 1)) (offset input + len input)
     > numeric_limits_max int32_t
  /\ run (BinaryToBinaryCastExec ascii_only type_name
            BinaryType LargeBinaryType
            {| allow_invalid_utf8 := false; to_type := binary |}
            input (sample_out binary 1)) ctx0
     = Err Invalid "Failed casting from large_binary to binary: input array too large"
  /\ ~ exists msg,
        run (BinaryToBinaryCastExec ascii_only type_name
               BinaryType LargeBinaryType
               {| allow_invalid_utf8 := false; to_type := binary |}
               input (sample_out binary 1)) ctx0
        = Err CapacityError msg.
Proof.
  assert (H : run (BinaryToBinaryCastExec ascii_only type_name
            BinaryType LargeBinaryType
            {| allow_invalid_utf8 := false; to_type := binary |}
            (one_slot_large_binary 2147483648) (sample_out binary 1)) ctx0
     = Err Invalid "Failed casting from large_binary to binary: input array too large")
    by reflexivity.
  split; [apply wf_one_slot_large_binary; simpl; lia|].
  split; [reflexivity|]. split; [exact H|].
  intros [msg Hmsg]. rewrite H in Hmsg. discriminate.
Qed.

(** The boundary of C1: a final offset equal to the 32-bit maximum passes. *)
Example downcast_at_maximum_succeeds :
  exists a, run (BinaryToBinaryCastExec ascii_only type_name
                   BinaryType LargeBinaryType
                   {| allow_invalid_utf8 := false; to_type := binary |}
                   (one_slot_large_binary 2147483647) (sample_out binary 1)) ctx0
            = Ok a
            /\ offsets_of a = [0; 2147483647].
Proof. eexists. split; reflexivity. Qed.

(** ** Runs of valid slots *)

Lemma for_loop_fold {S} (start n : Z) (body : Z -> S -> S) (s : S) :
  for_loop start n body s = fold_left (fun s i => body i s) (seqZ start n) s.
Proof. reflexivity. Qed.

Lemma seqZ_snoc (m n : Z) : 0 <= n -> seqZ m (n + 1) = seqZ m n ++ [m + n].
Proof.
  intros Hn. rewrite seqZ_app by lia. f_equal.
Qed.

Lemma set_bit_runs_fold {S} (body : Z -> S -> S) (bits : list bool) :
  forall (pos : Z) (cur : option (Z * Z)) (s : S),
    match cur with Some (p, n) => 0 <= n /\ p + n = pos | None => True end ->
    fold_left (fun s r => for_loop (fst r) (snd r) body s)
              (set_bit_runs bits pos cur) s
    = fold_left (fun s i => body i s)
        (match cur with Some (p, n) => seqZ p n | None => [] end
         ++ true_positions bits pos) s.
Proof.
  induction bits as [|b bits IH]; intros pos cur s Hcur.
  - simpl. destruct cur as [[p n]|]; simpl; [|done].
    by rewrite app_nil_r.
  - destruct b; simpl.
    + rewrite IH.
      * destruct cur as [[p n]|].
        -- destruct Hcur as [Hn <-]. rewrite seqZ_snoc by lia.
           by rewrite <- app_assoc.
        -- done.
      * destruct cur as [[p n]|]; [|lia]. lia.
    + rewrite fold_left_app. rewrite IH by done. simpl.
      destruct cur as [[p n]|]; simpl; [|done].
      by rewrite fold_left_app.
Qed.

Lemma VisitSetBitRunsVoid_fold {S} (bitmap : option (list bool))
    (offset length : Z) (body : Z -> S -> S) (s : S) :
  VisitSetBitRunsVoid bitmap offset length
    (fun start_offset run_length => for_loop start_offset run_length body) s
  = fold_left (fun s i => body i s) (valid_indices bitmap offset length) s.
Proof.
  unfold VisitSetBitRunsVoid, valid_indices. destruct bitmap as [bits|].
  - by rewrite (set_bit_runs_fold body _ 0 None s).
  - reflexivity.
Qed.

Lemma elem_of_true_positions (bits : list bool) (pos i : Z) :
  i ∈ true_positions bits pos
  <-> pos <= i < pos + Z.of_nat (length bits) /\ at_ false bits (i - pos) = true.
Proof.
  revert pos. induction bits as [|b bits IH]; intros pos.
  - simpl. split; [by intros ?%elem_of_nil|lia].
  - simpl true_positions. rewrite elem_of_app, IH.
    unfold at_. split.
    + intros [Hi|[Hi Hb]].
      * destruct b; [|by apply elem_of_nil in Hi].
        apply list_elem_of_singleton in Hi as ->.
        rewrite Z.sub_diag. simpl. lia.
      * split; [simpl; lia|].
        replace (Z.to_nat (i - pos)) with (S (Z.to_nat (i - (pos + 1)))) by lia.
        done.
    + intros [Hi Hb].
      destruct (decide (i = pos)) as [->|Hne].
      * left. rewrite Z.sub_diag in Hb. simpl in Hb. subst b.
        by apply list_elem_of_singleton.
      * right. split; [simpl in Hi; lia|].
        replace (Z.to_nat (i - pos)) with (S (Z.to_nat (i - (pos + 1)))) in Hb by lia.
        done.
Qed.

Lemma NoDup_true_positions (bits : list bool) (pos : Z) :
  NoDup (true_positions bits pos).
Proof.
  revert pos. induction bits as [|b bits IH]; intros pos; simpl.
  - constructor.
  - destruct b; simpl; [|apply IH].
    constructor; [|apply IH].
    rewrite elem_of_true_positions. lia.
Qed.

Lemma length_bitmap_slice (bits : list bool) (offset length : Z) :
  List.length (bitmap_slice bits offset length) = Z.to_nat length.
Proof. unfold bitmap_slice. by rewrite length_map, length_seqZ. Qed.

Lemma elem_of_valid_indices (a : ArraySpan) (i : Z) :
  i ∈ valid_indices (bits_of (GetBuffer a 0)) (offset a) (len a)
  <-> 0 <= i < len a /\ IsValid a i = true.
Proof.
  unfold valid_indices, IsValid. destruct (bits_of (GetBuffer a 0)) as [bits|].
  - rewrite elem_of_true_positions, length_bitmap_slice.
    split.
    + intros [Hi Hb]. split; [lia|].
      unfold bitmap_slice in Hb. rewrite at_map_seqZ in Hb by lia.
      by rewrite Z.sub_0_r in Hb.
    + intros [Hi Hb]. split; [lia|].
      unfold bitmap_slice. rewrite at_map_seqZ by lia.
      by rewrite Z.sub_0_r.
  - rewrite elem_of_seqZ. split; [intros ?; split; [lia|done]|lia].
Qed.

Lemma NoDup_valid_indices (bitmap : option (list bool)) (offset length : Z) :
  NoDup (valid_indices bitmap offset length).
Proof.
  unfold valid_indices. destruct bitmap; [apply NoDup_true_positions|].
  apply NoDup_seqZ.
Qed.

(** ** Offset layout to view layout *)

Section OffsetToView.

Variable ValidateUTF8Inline : list byte -> bool.
Variable ToString : DataType -> string.
Variables (I : TypeClass) (input : ArraySpan).
Hypothesis Hwf : wf_offsets I input = true.
Hypothesis Hfinal :
  0 < len input ->
  at_ 0 (ints_of (GetBuffer input 1)) (offset input + len input)
  <= numeric_limits_max int32_t.

Let input_offsets := fun i => at_ 0 (ints_of (GetBuffer input 1)) (offset input + i).
Let input_data := bytes_of (GetBuffer input 2).

Lemma slot_length_bounds (i : Z) :
  0 <= i < len input ->
  0 <= slot_length input i <= numeric_limits_max int32_t
  /\ 0 <= input_offsets i <= numeric_limits_max int32_t
  /\ input_offsets i + slot_length input i <= Z.of_nat (length input_data).
Proof.
  intros Hi. unfold slot_length, input_offsets, input_data.
  specialize (Hfinal ltac:(lia)).
  pose proof (wf_offsets_bounds I input Hwf i ltac:(lia)).
  pose proof (wf_offsets_bounds I input Hwf (i + 1) ltac:(lia)).
  pose proof (wf_offsets_monotone I input Hwf i (i + 1) ltac:(lia) ltac:(lia)).
  apply wf_offsets_elim in Hwf as (_ & _ & _ & _ & _ & Hdata & _).
  replace (offset input + (i + 1)) with (offset input + i + 1) in * by lia.
  lia.
Qed.

Lemma offset_view_step_spec (base i : Z) (vs : list c_type) (f : bool) :
  0 <= i < len input ->
  at_ zero_view vs (base + i) = zero_view ->
  offset_view_step (offset_type I) input_offsets input_data base i (vs, f)
  = (<[Z.to_nat (base + i) := view_of_slot input i]> vs,
     f && (slot_length input i <=? kInlineSize)).
Proof.
  intros Hi Hz.
  destruct (slot_length_bounds i Hi) as (Hl & Ho & _).
  unfold offset_view_step, view_of_slot. simpl. rewrite Hz.
  fold input_data.
  replace (input_offsets (i + 1) - input_offsets i) with (slot_length input i)
    by (unfold slot_length, input_offsets; f_equal; f_equal; lia).
  rewrite (static_cast_nonneg_id (offset_type I)).
  2:{ split; [lia|]. destruct (offset_type I); simpl in *; lia. }
  rewrite !static_cast_int32_id by (simpl in *; lia).
  fold (input_offsets i).
  destruct (slot_length input i <=? kInlineSize).
  - by rewrite andb_true_r.
  - by rewrite andb_false_r.
Qed.

Lemma offset_view_fold (base : Z) (l : list Z) :
  0 <= base ->
  forall st : list c_type * bool,
    NoDup l ->
    (forall i, i ∈ l -> 0 <= i < len input) ->
    (forall i, i ∈ l -> base + i < Z.of_nat (length (fst st))) ->
    (forall i, i ∈ l -> at_ zero_view (fst st) (base + i) = zero_view) ->
    let st' := fold_left
                 (fun st i => offset_view_step (offset_type I) input_offsets
                                input_data base i st) l st in
    length (fst st') = length (fst st)
    /\ snd st' = snd st && forallb (fun i => slot_length input i <=? kInlineSize) l
    /\ forall j, 0 <= base + j ->
         at_ zero_view (fst st') (base + j)
         = if bool_decide (j ∈ l) then view_of_slot input j
           else at_ zero_view (fst st) (base + j).
Proof.
  intros Hbase. induction l as [|i l IH]; intros [vs f] Hnd Hrange Hlen Hzero.
  - simpl. split; [done|]. split; [by rewrite andb_true_r|].
    intros j _. first [done | rewrite bool_decide_eq_false_2; [done|apply not_elem_of_nil]].
  - apply NoDup_cons in Hnd as [Hi Hnd]. simpl fold_left.
    assert (Hir : 0 <= i < len input) by (apply Hrange; left).
    rewrite offset_view_step_spec; [|done|apply Hzero; left].
    specialize (IH (<[Z.to_nat (base + i) := view_of_slot input i]> vs,
                    f && (slot_length input i <=? kInlineSize)) Hnd).
    simpl in IH. destruct IH as (IHlen & IHf & IHv).
    + intros k Hk. apply Hrange. by right.
    + intros k Hk. rewrite length_insert. apply (Hlen k). by right.
    + intros k Hk. rewrite at_insert_ne.
      * apply Hzero. by right.
      * lia.
      * specialize (Hrange k ltac:(by right)). lia.
      * intros E. assert (k = i) by lia. subst. done.
    + simpl. split; [by rewrite IHlen, length_insert|].
      split; [by rewrite IHf, andb_assoc|].
      intros j Hj. rewrite IHv by done.
      destruct (decide (j = i)) as [->|Hne].
      * rewrite bool_decide_eq_false_2 by done.
        rewrite bool_decide_eq_true_2 by left.
        apply at_insert_eq. split; [lia|]. apply (Hlen i). left.
      * destruct (decide (j ∈ l)) as [Hjl|Hjl].
        -- rewrite !bool_decide_eq_true_2; [done|by right|done].
        -- rewrite !bool_decide_eq_false_2; try done.
           ++ apply at_insert_ne; lia.
           ++ intros [?|?]%elem_of_cons; done.
Qed.

Variables (O : TypeClass) (options : CastOptions) (out : ArrayData).

Lemma offset_view_run (ctx ctx1 : KernelContext) :
  guard ValidateUTF8Inline O I options input ctx = (Ok tt, ctx1) ->
  (sizeof (offset_type I) >? 4) && (offset input + len input >? 0)
    && (input_offsets (len input) >? numeric_limits_max int32_t) = false ->
  exists output,
    BinaryToBinaryCastExec_offset_view ValidateUTF8Inline ToString O I
      options input out ctx
    = (Ok output, add_allocations ctx1 1)
    /\ offset_view_post input out output (memory_pool ctx1).
Proof.
  intros Hguard Hcheck.
  pose proof (wf_offsets_elim I input Hwf) as (Ho & Hl & Hlen & _).
  assert (Hbuf : (1 < length (buffers input))%nat).
  { apply (ints_nonempty_buffer input). lia. }
  unfold BinaryToBinaryCastExec_offset_view, ZeroCopyCastExec.
  monad_unfold. rewrite Hguard. cbv beta iota zeta.
  cbn [offset len type set_buffer views_of contents with_contents handle
       buffers null_count].
  fold input_offsets input_data. fold (input_offsets (len input)).
  rewrite Hcheck. rewrite !VisitSetBitRunsVoid_fold.
  set (l := valid_indices (bits_of (GetBuffer input 0)) (offset input) (len input)).
  set (st0 := (replicate (Z.to_nat (offset input + len input)) zero_view, true)).
  destruct (offset_view_fold (offset input) l Ho st0) as (Hlen' & Hflag & Hviews).
  { apply NoDup_valid_indices. }
  { intros i Hi. by apply elem_of_valid_indices in Hi as [? _]. }
  { intros i Hi. apply elem_of_valid_indices in Hi as [? _].
    simpl. rewrite length_replicate. lia. }
  { intros i Hi. apply elem_of_valid_indices in Hi as [? _].
    simpl. apply at_replicate. lia. }
  set (st' := fold_left _ l st0) in *.
  eexists. split.
  { unfold add_allocations. rewrite N.add_1_r. reflexivity. }
  assert (Hv : forall j, 0 <= j < len input ->
            at_ zero_view st'.1 (offset input + j)
            = if IsValid input j then view_of_slot input j else zero_view).
  { intros j Hj. rewrite Hviews by lia.
    destruct (IsValid input j) eqn:Ev.
    - rewrite bool_decide_eq_true_2; [done|].
      by apply elem_of_valid_indices.
    - rewrite bool_decide_eq_false_2.
      + simpl. apply at_replicate. lia.
      + intros [_ E]%elem_of_valid_indices. congruence. }
  simpl in Hflag. rewrite Hflag.
  set (b1 := Some {| handle := memory_pool ctx1; contents := Views st'.1 |}).
  set (a1 := set_buffer _ 1 (Some _)).
  assert (Hbuf1 : (1 < length (buffers a1))%nat)
    by (unfold a1; rewrite length_buffers_set_buffer; simpl; lia).
  assert (Ha0 : GetBuffer a1 0 = GetBuffer input 0)
    by (unfold a1; by rewrite GetBuffer_set_buffer_ne by done).
  assert (Ha2 : GetBuffer a1 2 = GetBuffer input 2)
    by (unfold a1; by rewrite GetBuffer_set_buffer_ne by done).
  destruct (forallb _ l) eqn:Hall; unfold offset_view_post;
    cbn [type len offset null_count set_buffer];
    change ({| type := type a1; len := len a1; offset := offset a1;
               null_count := null_count a1;
               buffers := <[1%nat:=b1]> (buffers a1) |})
      with (set_buffer a1 1 b1);
    try change ({| type := type a1; len := len a1; offset := offset a1;
               null_count := null_count a1;
               buffers := <[2%nat:=None]> (buffers (set_buffer a1 1 b1)) |})
      with (set_buffer (set_buffer a1 1 b1) 2 None).
  - rewrite GetBuffer_set_buffer_None.
    rewrite !(GetBuffer_set_buffer_ne _ 2) by done.
    rewrite GetBuffer_set_buffer_eq by done.
    rewrite GetBuffer_set_buffer_ne by done.
    repeat split; try done. fold l. by rewrite Hall.
  - rewrite !(GetBuffer_set_buffer_ne _ 1) by done.
    rewrite GetBuffer_set_buffer_eq by done.
    repeat split; try done. fold l. rewrite Hall.
    by rewrite GetBuffer_set_buffer_ne by done.
Qed.

Lemma offset_view_run_overflow (ctx ctx1 : KernelContext) :
  guard ValidateUTF8Inline O I options input ctx = (Ok tt, ctx1) ->
  (sizeof (offset_type I) >? 4) && (offset input + len input >? 0)
    && (input_offsets (len input) >? numeric_limits_max int32_t) = true ->
  BinaryToBinaryCastExec_offset_view ValidateUTF8Inline ToString O I
    options input out ctx
  = (Err CapacityError
       (failed_casting ToString (type input) (type out)
          ": input array too large for efficient conversion."),
     add_allocations ctx1 1).
Proof.
  intros Hguard Hcheck.
  unfold BinaryToBinaryCastExec_offset_view, ZeroCopyCastExec.
  monad_unfold. rewrite Hguard. cbv beta iota zeta.
  cbn [offset len type set_buffer].
  fold (input_offsets (len input)). rewrite Hcheck.
  unfold add_allocations. by rewrite N.add_1_r.
Qed.

Lemma offset_view_run_guard_error (ctx ctx1 : KernelContext) c msg :
  guard ValidateUTF8Inline O I options input ctx = (Err c msg, ctx1) ->
  BinaryToBinaryCastExec_offset_view ValidateUTF8Inline ToString O I
    options input out ctx
  = (Err c msg, ctx1).
Proof.
  intros Hguard. unfold BinaryToBinaryCastExec_offset_view.
  monad_unfold. by rewrite Hguard.
Qed.

End OffsetToView.

(** ** View records *)

Lemma resolve_set_inlined (a : ArraySpan) (n : Z) (src : list byte) :
  0 <= n <= kInlineSize -> n <= Z.of_nat (length src) ->
  resolve_view a (set_inlined zero_view n src) = take (Z.to_nat n) src.
Proof.
  intros Hn Hsrc. unfold resolve_view, is_inline, set_inlined, inlined_data.
  cbn [size raw]. rewrite (proj2 (Z.leb_le _ _)) by lia.
  unfold memcpy. rewrite take_0. cbn [app].
  apply take_app_length'. rewrite length_take. lia.
Qed.

Lemma size_set_inlined (v : c_type) (n : Z) (src : list byte) :
  size (set_inlined v n src) = n.
Proof. reflexivity. Qed.

Lemma size_set_ref (v : c_type) (n : Z) (src : list byte) (off : Z) :
  size (set_ref v n src off) = n.
Proof. reflexivity. Qed.

Lemma raw_set_ref (n : Z) (src : list byte) (off : Z) :
  4 <= Z.of_nat (length src) ->
  raw (set_ref zero_view n src off)
  = take 4 src ++ replicate 4 x00 ++ store_int32 off.
Proof.
  intros Hsrc.
  destruct src as [|b0 [|b1 [|b2 [|b3 rest]]]]; simpl in Hsrc; try lia.
  reflexivity.
Qed.

Lemma ref_fields (n : Z) (src : list byte) (off : Z) :
  4 <= Z.of_nat (length src) -> 0 <= off <= 2147483647 ->
  ref_prefix (set_ref zero_view n src off) = take 4 src
  /\ ref_buffer_index (set_ref zero_view n src off) = 0
  /\ ref_offset (set_ref zero_view n src off) = off.
Proof.
  intros Hsrc Hoff. unfold ref_prefix, ref_buffer_index, ref_offset.
  rewrite raw_set_ref by done.
  destruct src as [|b0 [|b1 [|b2 [|b3 rest]]]]; simpl in Hsrc; try lia.
  cbn [take drop app replicate].
  split; [done|]. split; [reflexivity|].
  change (take 4 (store_int32 off)) with (store_int32 off).
  by apply load_store_int32.
Qed.

Lemma resolve_set_ref (a : ArraySpan) (n : Z) (src : list byte) (off : Z) :
  kInlineSize < n -> 4 <= Z.of_nat (length src) -> 0 <= off <= 2147483647 ->
  resolve_view a (set_ref zero_view n src off)
  = string_view (bytes_of (GetBuffer a 2)) off n.
Proof.
  intros Hn Hsrc Hoff. unfold resolve_view, is_inline.
  rewrite size_set_ref. rewrite (proj2 (Z.leb_gt _ _)) by lia.
  destruct (ref_fields n src off Hsrc Hoff) as (_ & -> & ->).
  reflexivity.
Qed.

Section SlotViews.

Variables (I : TypeClass) (input : ArraySpan).
Hypothesis Hwf : wf_offsets I input = true.
Hypothesis Hfinal :
  0 < len input ->
  at_ 0 (ints_of (GetBuffer input 1)) (offset input + len input)
  <= numeric_limits_max int32_t.

Lemma view_of_slot_resolve (output : ArraySpan) (i : Z) :
  0 <= i < len input ->
  (kInlineSize < slot_length input i -> GetBuffer output 2 = GetBuffer input 2) ->
  resolve_view output (view_of_slot input i) = GetView_offsets input i.
Proof.
  intros Hi Hdata.
  destruct (slot_length_bounds I input Hwf Hfinal i Hi) as (Hl & Ho & Hd).
  simpl in Hl, Ho.
  unfold view_of_slot, GetView_offsets, string_view.
  change (at_ 0 (ints_of (GetBuffer input 1)) (offset input + i + 1)
          - at_ 0 (ints_of (GetBuffer input 1)) (offset input + i))
    with (slot_length input i).
  destruct (slot_length input i <=? kInlineSize) eqn:Hcmp.
  - apply Z.leb_le in Hcmp. apply resolve_set_inlined; [lia|].
    rewrite length_drop. lia.
  - apply Z.leb_gt in Hcmp. rewrite resolve_set_ref.
    + unfold string_view. by rewrite Hdata.
    + done.
    + rewrite length_drop. unfold kInlineSize in *. lia.
    + lia.
Qed.

(** A long slot is stored as a reference: prefix, buffer index 0 and the
    slot's own position in the data buffer. *)
Lemma view_of_slot_ref (i : Z) :
  0 <= i < len input ->
  kInlineSize < slot_length input i ->
  let v := view_of_slot input i in
  let data_offset := at_ 0 (ints_of (GetBuffer input 1)) (offset input + i) in
  is_inline v = false /\ size v = slot_length input i
  /\ ref_prefix v = take 4 (GetView_offsets input i)
  /\ ref_buffer_index v = 0
  /\ ref_offset v = data_offset.
Proof.
  intros Hi Hlong v data_offset.
  destruct (slot_length_bounds I input Hwf Hfinal i Hi) as (Hl & Ho & Hd).
  simpl in Hl, Ho. unfold v, view_of_slot.
  rewrite (proj2 (Z.leb_gt _ _)) by done.
  unfold is_inline. rewrite size_set_ref.
  split; [by apply Z.leb_gt|]. split; [done|].
  fold data_offset.
  destruct (ref_fields (slot_length input i)
              (drop (Z.to_nat data_offset) (bytes_of (GetBuffer input 2)))
              data_offset) as (Hp & Hb & Hoff).
  { rewrite length_drop. unfold kInlineSize, data_offset in *. lia. }
  { unfold data_offset. lia. }
  split; [|done]. rewrite Hp.
  unfold GetView_offsets, string_view. fold data_offset.
  rewrite take_take. f_equal. unfold slot_length, kInlineSize in *. lia.
Qed.

(** A short slot is stored inline. *)
Lemma view_of_slot_inline (i : Z) :
  0 <= i < len input ->
  slot_length input i <= kInlineSize ->
  let v := view_of_slot input i in
  is_inline v = true /\ size v = slot_length input i
  /\ take (Z.to_nat (size v)) (inlined_data v) = GetView_offsets input i.
Proof.
  intros Hi Hshort v.
  destruct (slot_length_bounds I input Hwf Hfinal i Hi) as (Hl & Ho & Hd).
  pose proof (view_of_slot_resolve input i Hi ltac:(lia)) as Hr.
  unfold v, view_of_slot in *.
  rewrite (proj2 (Z.leb_le _ _)) in * by done.
  unfold resolve_view, is_inline in Hr. rewrite size_set_inlined in *.
  rewrite (proj2 (Z.leb_le _ _)) in Hr by done.
  unfold is_inline. rewrite size_set_inlined.
  split; [by apply Z.leb_le|]. split; done.
Qed.

End SlotViews.

(** ** Fixed-width layout to view layout *)

Lemma wf_fixed_elim (a : ArraySpan) :
  wf_fixed a = true ->
  let W := byte_width (type a) in
  0 <= offset a /\ 0 <= len a /\ 0 <= W <= numeric_limits_max int32_t
  /\ (offset a + len a) * W <= Z.of_nat (length (bytes_of (GetBuffer a 1))).
Proof.
  unfold wf_fixed. intros H.
  repeat (apply andb_prop in H as [H ?]).
  repeat split; lia.
Qed.

Section FixedToView.

Variable ValidateUTF8Inline : list byte -> bool.
Variable ToString : DataType -> string.
Variable input : ArraySpan.
Hypothesis Hwf : wf_fixed input = true.
Hypothesis Hfits :
  0 < len input ->
  (offset input + len input - 1) * byte_width (type input)
  <= numeric_limits_max int32_t.

Let W := byte_width (type input).
Let data := bytes_of (GetBuffer input 1).

Lemma fixed_slot_position (i : Z) :
  0 <= i < len input ->
  0 <= (offset input + i) * W <= 2147483647
  /\ (offset input + i) * W + W <= Z.of_nat (length data).
Proof.
  intros Hi. destruct (wf_fixed_elim input Hwf) as (Ho & Hl & HW & Hd).
  specialize (Hfits ltac:(lia)). fold W in HW, Hd, Hfits. fold data in Hd.
  simpl in Hfits, HW.
  assert ((offset input + i) * W <= (offset input + len input - 1) * W)
    by (apply Z.mul_le_mono_nonneg_r; lia).
  assert ((offset input + i) * W + W <= (offset input + len input) * W)
    by (replace ((offset input + i) * W + W) with ((offset input + i + 1) * W) by lia;
        apply Z.mul_le_mono_nonneg_r; lia).
  split; [|lia]. split; [apply Z.mul_nonneg_nonneg; lia|lia].
Qed.

Lemma fixed_first_position :
  0 < len input ->
  static_cast int32_t (static_cast int32_t (offset input) * W) = offset input * W.
Proof.
  intros Hlen. destruct (wf_fixed_elim input Hwf) as (Ho & Hl & HW & Hd).
  destruct (fixed_slot_position 0 ltac:(lia)) as [Hp _].
  rewrite Z.add_0_r in Hp. fold W in HW.
  destruct (decide (W = 0)) as [->|HW0].
  - rewrite !Z.mul_0_r. reflexivity.
  - assert (offset input <= offset input * W) by nia.
    rewrite (static_cast_int32_id (offset input)) by lia.
    apply static_cast_int32_id. lia.
Qed.

Lemma fixed_view_step_spec (i : Z) (vs : list c_type) :
  0 <= i < len input ->
  at_ zero_view vs (offset input + i) = zero_view ->
  fixed_view_step (W <=? kInlineSize) W data (offset input) i
                  (vs, (offset input + i) * W)
  = (<[Z.to_nat (offset input + i) := view_of_fixed_slot input i]> vs,
     static_cast int32_t ((offset input + i + 1) * W)).
Proof.
  intros Hi Hz. destruct (fixed_slot_position i Hi) as [Hp _].
  unfold fixed_view_step, view_of_fixed_slot. cbn [fst snd].
  fold W data. rewrite Hz.
  rewrite (static_cast_int32_id ((offset input + i) * W)) by lia.
  f_equal. f_equal. lia.
Qed.

Lemma fixed_view_fold (vs0 : list c_type) (k : nat) :
  Z.of_nat k <= len input ->
  (forall i, 0 <= i < len input ->
     offset input + i < Z.of_nat (length vs0)
     /\ at_ zero_view vs0 (offset input + i) = zero_view) ->
  let st := fold_left
              (fun st i => fixed_view_step (W <=? kInlineSize) W data
                             (offset input) i st)
              (seqZ 0 (Z.of_nat k)) (vs0, offset input * W) in
  length (fst st) = length vs0
  /\ (Z.of_nat k < len input -> snd st = (offset input + Z.of_nat k) * W)
  /\ forall j, 0 <= j < len input ->
       at_ zero_view (fst st) (offset input + j)
       = if j <? Z.of_nat k then view_of_fixed_slot input j else zero_view.
Proof.
  destruct (wf_fixed_elim input Hwf) as (Ho & Hl & HW & Hd).
  intros Hk Hvs0. induction k as [|k IH].
  - simpl. split; [done|]. split; [intros _; f_equal; lia|].
    intros j Hj. rewrite (proj2 (Z.ltb_ge _ _)) by lia. by apply Hvs0.
  - replace (Z.of_nat (S k)) with (Z.of_nat k + 1) by lia.
    rewrite seqZ_snoc by lia. rewrite fold_left_app. cbn [fold_left].
    destruct IH as (IHlen & IHd & IHv); [lia|].
    destruct (fold_left _ (seqZ 0 (Z.of_nat k)) _) as [vs d] eqn:Est.
    cbn [fst snd] in *. rewrite IHd by lia. rewrite Z.add_0_l.
    rewrite fixed_view_step_spec; [|lia|].
    2:{ rewrite IHv by lia. by rewrite (proj2 (Z.ltb_ge _ _)) by lia. }
    cbn [fst snd]. split; [by rewrite length_insert|]. split.
    + intros Hlt. destruct (fixed_slot_position (Z.of_nat k + 1) ltac:(lia)) as [Hp _].
      replace (offset input + Z.of_nat k + 1) with (offset input + (Z.of_nat k + 1)) by lia.
      apply static_cast_int32_id. lia.
    + intros j Hj. destruct (decide (j = Z.of_nat k)) as [->|Hne].
      * rewrite (proj2 (Z.ltb_lt _ _)) by lia.
        apply at_insert_eq. rewrite IHlen.
        destruct (Hvs0 (Z.of_nat k)); lia.
      * rewrite at_insert_ne by lia. rewrite IHv by done.
        destruct (j <? Z.of_nat k) eqn:E1.
        -- apply Z.ltb_lt in E1. by rewrite (proj2 (Z.ltb_lt _ _)) by lia.
        -- apply Z.ltb_ge in E1. by rewrite (proj2 (Z.ltb_ge _ _)) by lia.
Qed.

End FixedToView.

Lemma lookup_resize_buffers (l : list (option Buffer)) (i : nat) :
  (i < 3)%nat ->
  default None (resize_buffers 3 l !! i) = default None (l !! i).
Proof.
  intros Hi. unfold resize_buffers.
  destruct (decide (i < length l)%nat) as [Hlt|Hge].
  - rewrite lookup_app_l by (rewrite length_take; lia).
    by rewrite lookup_take_lt by lia.
  - rewrite (lookup_ge_None_2 l) by lia.
    rewrite lookup_app_r by (rewrite length_take; lia).
    rewrite lookup_replicate_2; [done|]. rewrite length_take. lia.
Qed.

Lemma length_resize_buffers (l : list (option Buffer)) :
  length (resize_buffers 3 l) = 3%nat.
Proof.
  unfold resize_buffers. rewrite length_app, length_take, length_replicate. lia.
Qed.

Lemma fixed_view_run (ValidateUTF8Inline : list byte -> bool)
    (ToString : DataType -> string) (O I : TypeClass) (options : CastOptions)
    (input : ArraySpan) (out : ArrayData) (ctx ctx1 : KernelContext) :
  wf_fixed input = true ->
  guard ValidateUTF8Inline O I options input ctx = (Ok tt, ctx1) ->
  (offset input + len input >? 0)
    && ((offset input + len input - 1) * byte_width (type input)
        >? numeric_limits_max int32_t) = false ->
  exists output,
    BinaryToBinaryCastExec_fixed_view ValidateUTF8Inline ToString O I
      options input out ctx
    = (Ok output, add_allocations ctx1 1)
    /\ fixed_view_post input out output (memory_pool ctx1).
Proof.
  intros Hwf Hguard Hcheck.
  destruct (wf_fixed_elim input Hwf) as (Ho & Hl & HW & Hd).
  assert (Hfits : 0 < len input ->
            (offset input + len input - 1) * byte_width (type input)
            <= numeric_limits_max int32_t).
  { intros Hlen. apply andb_false_iff in Hcheck as [Hc|Hc]; lia. }
  unfold BinaryToBinaryCastExec_fixed_view.
  monad_unfold. rewrite Hguard. cbv beta iota zeta.
  cbn [offset len type set_buffer with_buffers with_offset SetNullCount
       views_of contents with_contents handle buffers null_count].
  rewrite Hcheck. unfold for_loop.
  set (vs0 := replicate (Z.to_nat (offset input + len input)) zero_view).
  assert (Hvs0 : forall i, 0 <= i < len input ->
            offset input + i < Z.of_nat (length vs0)
            /\ at_ zero_view vs0 (offset input + i) = zero_view).
  { intros i Hi. unfold vs0. rewrite length_replicate.
    split; [lia|]. apply at_replicate. lia. }
  pose proof (fixed_view_fold input Hwf Hfits vs0 (Z.to_nat (len input))
                ltac:(lia) Hvs0) as Hfold.
  rewrite Z2Nat.id in Hfold by lia.
  assert (Hd0 : (vs0, static_cast int32_t
                        (static_cast int32_t (offset input) * byte_width (type input)))
                = (vs0, offset input * byte_width (type input))
                \/ len input = 0).
  { destruct (decide (len input = 0)); [by right|left].
    f_equal. apply (fixed_first_position input Hwf Hfits). lia. }
  assert (Hfold' : forall b, b = (byte_width (type input) <=? kInlineSize) ->
    let st := fold_left
                (fun st i => fixed_view_step b (byte_width (type input))
                               (bytes_of (GetBuffer input 1)) (offset input) i st)
                (seqZ 0 (len input))
                (vs0, static_cast int32_t
                        (static_cast int32_t (offset input)
                         * byte_width (type input))) in
    forall j, 0 <= j < len input ->
      at_ zero_view (fst st) (offset input + j) = view_of_fixed_slot input j).
  { intros b -> st j Hj. unfold st.
    destruct Hd0 as [->|Hz]; [|lia].
    destruct Hfold as (_ & _ & Hv). rewrite Hv by done.
    by rewrite (proj2 (Z.ltb_lt _ _)) by lia. }
  destruct (byte_width (type input) <=? kInlineSize) eqn:Hcmp;
    (eexists; split;
     [unfold add_allocations; rewrite N.add_1_r; reflexivity|]).
  - specialize (Hfold' true eq_refl). cbv zeta in Hfold'.
    unfold fixed_view_post, set_buffer, SetNullCount, with_buffers, with_offset.
    cbn [type len offset null_count buffers]. rewrite !GetBuffer_record, Hcmp.
    repeat first
      [ rewrite list_lookup_insert_eq
          by (rewrite ?length_insert, length_resize_buffers; lia)
      | rewrite list_lookup_insert_ne by lia ].
    rewrite lookup_resize_buffers by lia.
    repeat split; try done.
  - specialize (Hfold' false eq_refl). cbv zeta in Hfold'.
    unfold fixed_view_post, set_buffer, SetNullCount, with_buffers, with_offset.
    cbn [type len offset null_count buffers]. rewrite !GetBuffer_record, Hcmp.
    repeat first
      [ rewrite list_lookup_insert_eq
          by (rewrite ?length_insert, length_resize_buffers; lia)
      | rewrite list_lookup_insert_ne by lia ].
    repeat split; try done.
Qed.

Lemma fixed_view_run_overflow (ValidateUTF8Inline : list byte -> bool)
    (ToString : DataType -> string) (O I : TypeClass) (options : CastOptions)
    (input : ArraySpan) (out : ArrayData) (ctx ctx1 : KernelContext) :
  guard ValidateUTF8Inline O I options input ctx = (Ok tt, ctx1) ->
  (offset input + len input >? 0)
    && ((offset input + len input - 1) * byte_width (type input)
        >? numeric_limits_max int32_t) = true ->
  BinaryToBinaryCastExec_fixed_view ValidateUTF8Inline ToString O I
    options input out ctx
  = (Err CapacityError
       (failed_casting ToString (type input) (type out)
          ": input array too large for efficient conversion."),
     add_allocations ctx1 1).
Proof.
  intros Hguard Hcheck. unfold BinaryToBinaryCastExec_fixed_view.
  monad_unfold. rewrite Hguard. cbv beta iota zeta.
  rewrite Hcheck. unfold add_allocations. by rewrite N.add_1_r.
Qed.

Lemma fixed_view_run_guard_error (ValidateUTF8Inline : list byte -> bool)
    (ToString : DataType -> string) (O I : TypeClass) (options : CastOptions)
    (input : ArraySpan) (out : ArrayData) (ctx ctx1 : KernelContext) c msg :
  guard ValidateUTF8Inline O I options input ctx = (Err c msg, ctx1) ->
  BinaryToBinaryCastExec_fixed_view ValidateUTF8Inline ToString O I
    options input out ctx
  = (Err c msg, ctx1).
Proof.
  intros Hguard. unfold BinaryToBinaryCastExec_fixed_view.
  monad_unfold. by rewrite Hguard.
Qed.

Section FixedSlotViews.

Variable input : ArraySpan.
Hypothesis Hwf : wf_fixed input = true.
Hypothesis Hfits :
  0 < len input ->
  (offset input + len input - 1) * byte_width (type input)
  <= numeric_limits_max int32_t.

Lemma view_of_fixed_slot_inline (i : Z) :
  0 <= i < len input ->
  byte_width (type input) <= kInlineSize ->
  let v := view_of_fixed_slot input i in
  is_inline v = true /\ size v = byte_width (type input)
  /\ take (Z.to_nat (size v)) (inlined_data v) = GetView_fixed input i.
Proof.
  intros Hi Hshort v.
  destruct (fixed_slot_position input Hwf Hfits i Hi) as (Hp & Hd).
  destruct (wf_fixed_elim input Hwf) as (_ & _ & HW & _).
  unfold v, view_of_fixed_slot. rewrite (proj2 (Z.leb_le _ _)) by done.
  unfold is_inline. rewrite size_set_inlined.
  split; [by apply Z.leb_le|]. split; [done|].
  pose proof (resolve_set_inlined input (byte_width (type input))
    (drop (Z.to_nat ((offset input + i) * byte_width (type input)))
          (bytes_of (GetBuffer input 1)))) as Hr.
  unfold resolve_view, is_inline in Hr. rewrite size_set_inlined in Hr.
  rewrite (proj2 (Z.leb_le _ _)) in Hr by done.
  apply Hr; [lia|]. rewrite length_drop. lia.
Qed.

Lemma view_of_fixed_slot_ref (i : Z) :
  0 <= i < len input ->
  kInlineSize < byte_width (type input) ->
  let v := view_of_fixed_slot input i in
  is_inline v = false /\ size v = byte_width (type input)
  /\ ref_prefix v = take 4 (GetView_fixed input i)
  /\ ref_buffer_index v = 0
  /\ ref_offset v = (offset input + i) * byte_width (type input).
Proof.
  intros Hi Hlong v.
  destruct (fixed_slot_position input Hwf Hfits i Hi) as (Hp & Hd).
  unfold v, view_of_fixed_slot. rewrite (proj2 (Z.leb_gt _ _)) by done.
  unfold is_inline. rewrite size_set_ref.
  split; [by apply Z.leb_gt|]. split; [done|].
  destruct (ref_fields (byte_width (type input))
              (drop (Z.to_nat ((offset input + i) * byte_width (type input)))
                    (bytes_of (GetBuffer input 1)))
              ((offset input + i) * byte_width (type input)))
    as (Hpre & Hb & Hoff).
  { rewrite length_drop. unfold kInlineSize in *. lia. }
  { lia. }
  split; [|done]. rewrite Hpre.
  unfold GetView_fixed, string_view. rewrite take_take. f_equal.
  unfold kInlineSize in *. lia.
Qed.

Lemma view_of_fixed_slot_resolve (output : ArraySpan) (i : Z) :
  0 <= i < len input ->
  (kInlineSize < byte_width (type input) ->
   GetBuffer output 2 = GetBuffer input 1) ->
  resolve_view output (view_of_fixed_slot input i) = GetView_fixed input i.
Proof.
  intros Hi Hdata.
  destruct (Z.le_gt_cases (byte_width (type input)) kInlineSize) as [Hs|Hl].
  - destruct (view_of_fixed_slot_inline i Hi Hs) as (Hin & Hsz & Hbytes).
    unfold resolve_view. by rewrite Hin.
  - destruct (view_of_fixed_slot_ref i Hi Hl) as (Hin & Hsz & _ & Hb & Hoff).
    unfold resolve_view. rewrite Hin, Hb, Hoff, Hsz.
    change (2 + Z.to_nat 0)%nat with 2%nat. rewrite (Hdata Hl). reflexivity.
Qed.

End FixedSlotViews.

(** ** Capacity of view references *)

Lemma Exec_offset_view ValidateUTF8Inline ToString (O I : TypeClass) options input out :
  is_base_binary_type I = true -> is_binary_view_like_type O = true ->
  BinaryToBinaryCastExec ValidateUTF8Inline ToString O I options input out
  = BinaryToBinaryCastExec_offset_view ValidateUTF8Inline ToString O I options input out.
Proof. by destruct I, O. Qed.

Lemma Exec_fixed_view ValidateUTF8Inline ToString (O : TypeClass) options input out :
  is_binary_view_like_type O = true ->
  BinaryToBinaryCastExec ValidateUTF8Inline ToString O FixedSizeBinaryType options input out
  = BinaryToBinaryCastExec_fixed_view ValidateUTF8Inline ToString O
      FixedSizeBinaryType options input out.
Proof. by destruct O. Qed.

Lemma Exec_view_offset ValidateUTF8Inline ToString (O I : TypeClass) options input out :
  is_binary_view_like_type I = true -> is_base_binary_type O = true ->
  BinaryToBinaryCastExec ValidateUTF8Inline ToString O I options input out
  = BinaryToBinaryCastExec_view_offset ValidateUTF8Inline O I options input out.
Proof. by destruct I, O. Qed.

Lemma Exec_offset_offset ValidateUTF8Inline ToString (O I : TypeClass) options input out :
  is_base_binary_type I = true -> is_base_binary_type O = true ->
  BinaryToBinaryCastExec ValidateUTF8Inline ToString O I options input out
  = BinaryToBinaryCastExec_offset_offset ValidateUTF8Inline ToString O I options input out.
Proof. by destruct I, O. Qed.

Lemma Exec_view_view ValidateUTF8Inline ToString (O I : TypeClass) options input out :
  is_binary_view_like_type I = true -> is_binary_view_like_type O = true ->
  BinaryToBinaryCastExec ValidateUTF8Inline ToString O I options input out
  = BinaryToBinaryCastExec_view_view ValidateUTF8Inline O I options input out.
Proof. by destruct I, O. Qed.

Lemma Exec_fixed_offset ValidateUTF8Inline ToString (O : TypeClass) options input out :
  is_base_binary_type O = true ->
  BinaryToBinaryCastExec ValidateUTF8Inline ToString O FixedSizeBinaryType options input out
  = BinaryToBinaryCastExec_fixed_offset ValidateUTF8Inline ToString O
      FixedSizeBinaryType options input out.
Proof. by destruct O. Qed.

Lemma Exec_to_fixed ValidateUTF8Inline ToString (I : TypeClass) options input out :
  is_base_binary_type I || is_binary_view_like_type I = true ->
  BinaryToBinaryCastExec ValidateUTF8Inline ToString FixedSizeBinaryType I options input out
  = BinaryToBinaryCastExec_to_fixed ToString
      FixedSizeBinaryType I options input out.
Proof. by destruct I. Qed.

Lemma not_view_cases (I : TypeClass) :
  is_binary_view_like_type I = false ->
  is_base_binary_type I = true \/ I = FixedSizeBinaryType.
Proof. destruct I; simpl; intros; try discriminate; auto. Qed.

(** C10: converting a 32-bit-offset array to views never fails with a
    capacity error: it succeeds, or the UTF-8 guard rejects it. *)
Theorem offset32_to_view_never_CapacityError
    (ValidateUTF8Inline : list byte -> bool) (ToString : DataType -> string)
    (O I : TypeClass) (options : CastOptions)
    (input : ArraySpan) (out : ArrayData) (ctx : KernelContext) :
  is_base_binary_type I = true ->
  offset_type I = int32_t ->
  is_binary_view_like_type O = true ->
  let result := run (BinaryToBinaryCastExec ValidateUTF8Inline ToString
                       O I options input out) ctx in
  ((exists output, result = Ok output)
   \/ result = Err Invalid "Invalid UTF8 payload")
  /\ forall msg, result <> Err CapacityError msg.
Proof.
  intros HI HT HO result.
  assert (H : (exists output, result = Ok output)
              \/ result = Err Invalid "Invalid UTF8 payload").
  { unfold result, run. rewrite Exec_offset_view by done.
    unfold BinaryToBinaryCastExec_offset_view, ZeroCopyCastExec.
    destruct (guard_cases ValidateUTF8Inline O I options input ctx)
      as [(ctx1 & Hg & _)|(ctx1 & Hg)]; monad_unfold; rewrite Hg.
    - left. rewrite HT. cbn [sizeof Z.gtb Z.compare andb fst]. eauto.
    - by right. }
  split; [done|]. intros msg Hmsg.
  destruct H as [[output H]|H]; rewrite H in Hmsg; discriminate.
Qed.

Lemma offset32_to_view_never_CapacityError_witness :
  is_base_binary_type BinaryType = true
  /\ offset_type BinaryType = int32_t
  /\ is_binary_view_like_type StringViewType = true
  /\ forall msg,
       run (BinaryToBinaryCastExec ascii_only type_name StringViewType BinaryType
              no_options sample_large_binary (sample_out utf8_view 3)) ctx0
       <> Err CapacityError msg.
Proof.
  repeat (split; [reflexivity|]).
  exact (proj2 (offset32_to_view_never_CapacityError ascii_only type_name
                  StringViewType BinaryType no_options sample_large_binary
                  (sample_out utf8_view 3) ctx0 eq_refl eq_refl eq_refl)).
Defined.

Lemma offset_view_check_final (I : TypeClass) (input : ArraySpan) :
  wf_offsets I input = true ->
  (sizeof (offset_type I) >? 4) && (offset input + len input >? 0)
    && (at_ 0 (ints_of (GetBuffer input 1)) (offset input + len input)
        >? numeric_limits_max int32_t) = false ->
  0 < len input ->
  at_ 0 (ints_of (GetBuffer input 1)) (offset input + len input)
  <= numeric_limits_max int32_t.
Proof.
  intros Hwf Hcheck Hlen.
  apply wf_offsets_elim in Hwf as (Ho & _ & _ & _ & _ & _ & Hmax).
  destruct (offset_type I); simpl in *; [lia|].
  rewrite (proj2 (Z.gtb_lt _ _)) in Hcheck by lia. simpl in Hcheck. lia.
Qed.

Lemma Exists_referenced_position (I : TypeClass) (input : ArraySpan) (P : Z -> Prop) :
  Exists P (referenced_positions I input) ->
  exists i, 0 <= i < len input /\ would_reference I input i = true
            /\ P (position I input i).
Proof.
  unfold referenced_positions. rewrite List.Exists_exists.
  intros (p & Hin & HP). apply in_map_iff in Hin as (i & <- & Hi).
  apply filter_In in Hi as [Hi Hw].
  apply list_elem_of_In, elem_of_seqZ in Hi. exists i. repeat split; try done; lia.
Qed.

(** C7: a conversion that produces view references (offset-to-view and
    fixed-to-view) on a well-formed source that passed the UTF-8 guard
    fails with a capacity error whenever a position a view would reference
    lies beyond the 31-bit range; and when it succeeds every reference it
    wrote carries the slot's true position (not a wrapped one) in buffer
    index 0. *)
Theorem view_reference_positions_checked
    (ValidateUTF8Inline : list byte -> bool) (ToString : DataType -> string)
    (O I : TypeClass) (options : CastOptions)
    (input : ArraySpan) (out : ArrayData) (ctx ctx1 : KernelContext) :
  is_binary_view_like_type O = true ->
  is_binary_view_like_type I = false ->
  wf_input I input = true ->
  guard ValidateUTF8Inline O I options input ctx = (Ok tt, ctx1) ->
  let result := run (BinaryToBinaryCastExec ValidateUTF8Inline ToString
                       O I options input out) ctx in
  (Exists (fun p => numeric_limits_max int32_t < p) (referenced_positions I input) ->
   result = Err CapacityError
              (failed_casting ToString (type input) (type out)
                 ": input array too large for efficient conversion."))
  /\ (forall output, result = Ok output ->
        forall i, 0 <= i < len input -> would_reference I input i = true ->
          let v := at_ zero_view (views_of (GetBuffer output 1)) (offset input + i) in
          is_inline v = false /\ ref_buffer_index v = 0
          /\ ref_offset v = position I input i
          /\ 0 <= position I input i <= numeric_limits_max int32_t).
Proof.
  intros HO HI Hwf Hguard result.
  destruct (not_view_cases I HI) as [Hbase| ->].
  - (* offset layout *)
    unfold wf_input in Hwf. rewrite Hbase in Hwf.
    unfold result, run. rewrite Exec_offset_view by done.
    destruct ((sizeof (offset_type I) >? 4) && (offset input + len input >? 0)
              && (at_ 0 (ints_of (GetBuffer input 1)) (offset input + len input)
                  >? numeric_limits_max int32_t)) eqn:Hcheck.
    + rewrite (offset_view_run_overflow ValidateUTF8Inline ToString I input
                 O options out ctx ctx1 Hguard Hcheck).
      split; [done|]. intros output Hout. discriminate.
    + pose proof (offset_view_check_final I input Hwf Hcheck) as Hfinal.
      destruct (offset_view_run ValidateUTF8Inline ToString I input Hwf Hfinal
                  O options out ctx ctx1 Hguard Hcheck) as (output' & -> & Hpost).
      split.
      * intros Hex. exfalso.
        apply Exists_referenced_position in Hex as (i & Hi & Hw & Hp).
        unfold would_reference, position in *. rewrite Hbase in *.
        specialize (Hfinal ltac:(lia)).
        pose proof (wf_offsets_bounds I input Hwf i ltac:(lia)). lia.
      * intros output [= <-] i Hi Hw.
        destruct Hpost as (_ & _ & _ & _ & _ & _ & Hviews & _).
        unfold would_reference, position in *. rewrite Hbase in *.
        apply andb_prop in Hw as [Hv Hlong]. apply Z.ltb_lt in Hlong.
        cbv zeta. rewrite Hviews, Hv by done.
        destruct (view_of_slot_ref I input Hwf Hfinal i Hi Hlong)
          as (Hin & _ & _ & Hb & Hoff).
        destruct (slot_length_bounds I input Hwf Hfinal i Hi) as (_ & Hpos & _).
        repeat split; try done; lia.
  - (* fixed-width layout *)
    unfold wf_input in Hwf. simpl in Hwf.
    unfold result, run. rewrite Exec_fixed_view by done.
    destruct ((offset input + len input >? 0)
              && ((offset input + len input - 1) * byte_width (type input)
                  >? numeric_limits_max int32_t)) eqn:Hcheck.
    + rewrite (fixed_view_run_overflow ValidateUTF8Inline ToString O _ options
                 input out ctx ctx1 Hguard Hcheck).
      split; [done|]. intros output Hout. discriminate.
    + assert (Hfits : 0 < len input ->
                (offset input + len input - 1) * byte_width (type input)
                <= numeric_limits_max int32_t).
      { destruct (wf_fixed_elim input Hwf) as (Ho & _).
        intros Hlen. apply andb_false_iff in Hcheck as [Hc|Hc]; lia. }
      destruct (fixed_view_run ValidateUTF8Inline ToString O _ options input out
                  ctx ctx1 Hwf Hguard Hcheck) as (output' & -> & Hpost).
      split.
      * intros Hex. exfalso.
        apply Exists_referenced_position in Hex as (i & Hi & Hw & Hp).
        unfold position in Hp. simpl in Hp.
        destruct (fixed_slot_position input Hwf Hfits i Hi) as (Hpos & _).
        simpl in Hp. lia.
      * intros output [= <-] i Hi Hw.
        destruct Hpost as (_ & _ & _ & _ & _ & _ & Hviews & _).
        unfold would_reference, position in *. simpl in Hw |- *.
        apply Z.ltb_lt in Hw. rewrite Hviews by done.
        destruct (view_of_fixed_slot_ref input Hwf Hfits i Hi Hw)
          as (Hin & _ & _ & Hb & Hoff).
        destruct (fixed_slot_position input Hwf Hfits i Hi) as (Hpos & _).
        repeat split; try done; lia.
Qed.

Lemma view_reference_positions_checked_witness :
  is_binary_view_like_type BinaryViewType = true
  /\ is_binary_view_like_type FixedSizeBinaryType = false
  /\ wf_input FixedSizeBinaryType sample_fixed13 = true
  /\ guard ascii_only BinaryViewType FixedSizeBinaryType no_options
       sample_fixed13 ctx0 = (Ok tt, ctx0)
  /\ forall output,
       run (BinaryToBinaryCastExec ascii_only type_name BinaryViewType
              FixedSizeBinaryType no_options sample_fixed13
              (sample_out binary_view 2)) ctx0 = Ok output ->
       forall i, 0 <= i < len sample_fixed13 ->
         would_reference FixedSizeBinaryType sample_fixed13 i = true ->
         let v := at_ zero_view (views_of (GetBuffer output 1))
                      (offset sample_fixed13 + i) in
         is_inline v = false /\ ref_buffer_index v = 0
         /\ ref_offset v = position FixedSizeBinaryType sample_fixed13 i
         /\ 0 <= position FixedSizeBinaryType sample_fixed13 i
            <= numeric_limits_max int32_t.
Proof.
  repeat (split; [reflexivity|]).
  exact (proj2 (view_reference_positions_checked ascii_only type_name
                  BinaryViewType FixedSizeBinaryType no_options sample_fixed13
                  (sample_out binary_view 2) ctx0 ctx0
                  eq_refl eq_refl eq_refl eq_refl)).
Defined.

(** ** Inline or by reference; the external data buffer *)

Lemma is_inline_view_of_slot (I : TypeClass) (input : ArraySpan) (i : Z) :
  is_inline (view_of_slot input i) = (slot_length input i <=? kInlineSize).
Proof.
  unfold view_of_slot.
  destruct (slot_length input i <=? kInlineSize) eqn:E; unfold is_inline;
    by rewrite ?size_set_inlined, ?size_set_ref.
Qed.

Lemma all_views_inline (I : TypeClass) (input output : ArraySpan) :
  len output = len input -> offset output = offset input ->
  (forall j, 0 <= j < len input ->
     at_ zero_view (views_of (GetBuffer output 1)) (offset input + j)
     = if IsValid input j then view_of_slot input j else zero_view) ->
  forallb is_inline (views_of_array output)
  = forallb (fun i => slot_length input i <=? kInlineSize)
            (valid_indices (bits_of (GetBuffer input 0)) (offset input) (len input)).
Proof.
  intros Hlen Hoff Hviews. apply eq_true_iff_eq.
  rewrite !forallb_forall. unfold views_of_array. rewrite Hlen, Hoff. split.
  - intros H i Hi. apply list_elem_of_In, elem_of_valid_indices in Hi as [Hi Hv].
    specialize (H (at_ zero_view (views_of (GetBuffer output 1)) (offset input + i))).
    rewrite Hviews in H by done. rewrite Hv, (is_inline_view_of_slot I) in H.
    apply H. apply in_map_iff. exists i.
    split; [rewrite Hviews by done; by rewrite Hv|].
    apply list_elem_of_In, elem_of_seqZ. lia.
  - intros H v Hv. apply in_map_iff in Hv as (i & <- & Hi).
    apply list_elem_of_In, elem_of_seqZ in Hi.
    rewrite Hviews by lia. destruct (IsValid input i) eqn:Ev; [|done].
    rewrite (is_inline_view_of_slot I). apply H.
    apply list_elem_of_In, elem_of_valid_indices. split; [lia|done].
Qed.

(** C6, as amended: a fixed-width source of width [W] cast to views stores
    every element inline when [W] is at most the inline threshold, and as a
    reference (prefix, buffer index 0, position in the source data buffer,
    which is shared) when [W] exceeds it; the external data buffer of the
    output follows from [W] alone: for [W] up to the threshold it is left as
    the output record was handed over, for [W] above it it is the source
    data buffer, also when the array has no slots. The offset-to-view
    conversion recomputes it: the external data buffer is dropped exactly
    when every view written is inline, and is the shared source data buffer
    otherwise. *)
Theorem view_storage_and_external_buffer
    (ValidateUTF8Inline : list byte -> bool) (ToString : DataType -> string)
    (O : TypeClass) (options : CastOptions) (out : ArrayData)
    (ctx ctx1 : KernelContext) :
  is_binary_view_like_type O = true ->
  (forall input output,
     wf_fixed input = true ->
     guard ValidateUTF8Inline O FixedSizeBinaryType options input ctx = (Ok tt, ctx1) ->
     run (BinaryToBinaryCastExec ValidateUTF8Inline ToString O FixedSizeBinaryType
            options input out) ctx = Ok output ->
     let W := byte_width (type input) in
     (forall i, 0 <= i < len input ->
        let v := at_ zero_view (views_of (GetBuffer output 1)) (offset input + i) in
        size v = W
        /\ if W <=? kInlineSize
           then is_inline v = true
                /\ take (Z.to_nat W) (inlined_data v) = GetView_fixed input i
           else is_inline v = false
                /\ ref_prefix v = take 4 (GetView_fixed input i)
                /\ ref_buffer_index v = 0
                /\ ref_offset v = (offset input + i) * W)
     /\ GetBuffer output 2
        = if W <=? kInlineSize then GetBuffer out 2 else GetBuffer input 1)
  /\ (forall I input output,
        is_base_binary_type I = true ->
        wf_offsets I input = true ->
        guard ValidateUTF8Inline O I options input ctx = (Ok tt, ctx1) ->
        run (BinaryToBinaryCastExec ValidateUTF8Inline ToString O I
               options input out) ctx = Ok output ->
        GetBuffer output 2
        = if forallb is_inline (views_of_array output)
          then None else GetBuffer input 2).
Proof.
  intros HO. split.
  - intros input output Hwf Hguard Hrun W.
    unfold run in Hrun. rewrite Exec_fixed_view in Hrun by done.
    destruct ((offset input + len input >? 0)
              && ((offset input + len input - 1) * byte_width (type input)
                  >? numeric_limits_max int32_t)) eqn:Hcheck.
    { rewrite (fixed_view_run_overflow ValidateUTF8Inline ToString O _ options
                 input out ctx ctx1 Hguard Hcheck) in Hrun. discriminate. }
    assert (Hfits : 0 < len input ->
              (offset input + len input - 1) * byte_width (type input)
              <= numeric_limits_max int32_t).
    { destruct (wf_fixed_elim input Hwf) as (Ho & _).
      intros Hlen. apply andb_false_iff in Hcheck as [Hc|Hc]; lia. }
    destruct (fixed_view_run ValidateUTF8Inline ToString O _ options input out
                ctx ctx1 Hwf Hguard Hcheck) as (output' & E & Hpost).
    rewrite E in Hrun. injection Hrun as ->.
    destruct Hpost as (_ & _ & _ & _ & _ & _ & Hviews & Hbuf).
    split; [|exact Hbuf].
    intros i Hi v. unfold v. rewrite Hviews by done. fold W.
    destruct (W <=? kInlineSize) eqn:Hcmp.
    + apply Z.leb_le in Hcmp.
      destruct (view_of_fixed_slot_inline input Hwf Hfits i Hi Hcmp)
        as (Hin & Hsz & Hbytes).
      rewrite Hsz in Hbytes. done.
    + apply Z.leb_gt in Hcmp.
      destruct (view_of_fixed_slot_ref input Hwf Hfits i Hi Hcmp)
        as (Hin & Hsz & Hp & Hb & Hoff). done.
  - intros I input output Hbase Hwf Hguard Hrun.
    unfold run in Hrun. rewrite Exec_offset_view in Hrun by done.
    destruct ((sizeof (offset_type I) >? 4) && (offset input + len input >? 0)
              && (at_ 0 (ints_of (GetBuffer input 1)) (offset input + len input)
                  >? numeric_limits_max int32_t)) eqn:Hcheck.
    { rewrite (offset_view_run_overflow ValidateUTF8Inline ToString I input
                 O options out ctx ctx1 Hguard Hcheck) in Hrun. discriminate. }
    pose proof (offset_view_check_final I input Hwf Hcheck) as Hfinal.
    destruct (offset_view_run ValidateUTF8Inline ToString I input Hwf Hfinal
                O options out ctx ctx1 Hguard Hcheck) as (output' & E & Hpost).
    rewrite E in Hrun. injection Hrun as ->.
    destruct Hpost as (_ & Hlen & Hoff & _ & _ & _ & Hviews & Hbuf).
    by rewrite (all_views_inline I input output Hlen Hoff Hviews).
Qed.

Lemma view_storage_and_external_buffer_witness :
  is_binary_view_like_type BinaryViewType = true
  /\ wf_fixed sample_fixed13 = true
  /\ guard ascii_only BinaryViewType FixedSizeBinaryType no_options
       sample_fixed13 ctx0 = (Ok tt, ctx0)
  /\ exists output,
       run (BinaryToBinaryCastExec ascii_only type_name BinaryViewType
              FixedSizeBinaryType no_options sample_fixed13
              (sample_out binary_view 2)) ctx0 = Ok output
       /\ GetBuffer output 2 = GetBuffer sample_fixed13 1.
Proof.
  repeat (split; [reflexivity|]).
  eexists. split; [reflexivity|].
  exact (proj2 (proj1 (view_storage_and_external_buffer ascii_only type_name
                         BinaryViewType no_options (sample_out binary_view 2)
                         ctx0 ctx0 eq_refl)
                  sample_fixed13 _ eq_refl eq_refl eq_refl)).
Defined.

(** C6 as stated fails: a fixed-width array of width 13 with no slots is
    converted to a view array that has no reference view at all (it has no
    view), and still gets the source data buffer as its external buffer. *)
Lemma fixed_to_view_keeps_buffer_without_reference :
  exists output,
    run (BinaryToBinaryCastExec ascii_only type_name BinaryViewType
           FixedSizeBinaryType no_options empty_fixed13
           (sample_out binary_view 0)) ctx0 = Ok output
    /\ views_of (GetBuffer output 1) = []
    /\ Forall (fun v => is_inline v = true) (views_of_array output)
    /\ GetBuffer output 2 = GetBuffer empty_fixed13 1
    /\ GetBuffer output 2 <> None.
Proof.
  eexists. split; [reflexivity|].
  split; [reflexivity|]. split; [constructor|]. split; [reflexivity|discriminate].
Qed.

(** ** Offset or view layout to fixed-width layout *)

Lemma map_seqZ_nth {A} (f : Z -> A) (l : list A) (d : A) :
  (forall i, (i < length l)%nat -> f (Z.of_nat i) = nth i l d) ->
  map f (seqZ 0 (Z.of_nat (length l))) = l.
Proof.
  intros H. apply (nth_ext _ _ d d).
  - by rewrite length_map, length_seqZ, Nat2Z.id.
  - intros n Hn. rewrite length_map, length_seqZ, Nat2Z.id in Hn.
    rewrite <- H by done.
    pose proof (at_map_seqZ d f (Z.of_nat (length l)) (Z.of_nat n) ltac:(lia)) as E.
    unfold at_ in E. by rewrite Nat2Z.id in E.
Qed.

Lemma chunk_at (W : nat) (chunks : list (list byte)) (d : list byte) :
  Forall (fun c => length c = W) chunks ->
  forall i, (i < length chunks)%nat ->
    take W (drop (i * W) (concat chunks)) = nth i chunks d.
Proof.
  intros Hall. induction Hall as [|c chunks Hc Hall IH]; intros i Hi.
  - simpl in Hi. lia.
  - simpl. destruct i as [|i].
    + simpl. by apply take_app_length'.
    + simpl. rewrite drop_app_ge by lia.
      replace (W + i * W - length c)%nat with (i * W)%nat by lia.
      apply IH. simpl in Hi. lia.
Qed.

Section ToFixed.

Variable ToString : DataType -> string.
Variables (I : TypeClass) (options : CastOptions) (input : ArraySpan).

Let W := byte_width (to_type options).
Let msg := failed_casting ToString (type input) (to_type options)
                          ": widths must match".

Let visit :=
  visit_slots
    (fun v builder =>
       if negb (Z.of_nat (length v) =? byte_width (fsb_type builder)) then
         raise Invalid msg
       else ret (FixedSizeBinaryBuilder_UnsafeAppend v builder))
    (fun builder => ret (FixedSizeBinaryBuilder_UnsafeAppendNull builder)).

Lemma to_fixed_visit_ok (l : list (option (list byte))) :
  forallb (width_ok W) l = true ->
  forall b ctx, fsb_type b = to_type options ->
    visit l b ctx
    = (Ok {| fsb_type := to_type options;
             fsb_validity := fsb_validity b ++ map is_valid_slot l;
             fsb_data := fsb_data b ++ concat (map (fixed_payload W) l) |}, ctx).
Proof.
  induction l as [|[v|] l IH]; intros Hl b ctx Hb.
  - simpl. rewrite !app_nil_r. monad_unfold. destruct b; simpl in *; by subst.
  - simpl in Hl. apply andb_prop in Hl as [Hv Hl].
    unfold visit. rewrite visit_slots_cons_some.
    rewrite Hb. fold W. rewrite Hv. cbn [negb]. monad_unfold.
    change (visit_slots _ _ l ?b ctx) with (visit l b ctx).
    rewrite IH by done. cbn [FixedSizeBinaryBuilder_UnsafeAppend fsb_validity
                              fsb_data fsb_type map is_valid_slot concat fixed_payload].
    rewrite Hb. fold W. rewrite take_ge by (apply Z.eqb_eq in Hv; lia).
    by rewrite <- !app_assoc.
  - simpl in Hl. unfold visit. rewrite visit_slots_cons_none. monad_unfold.
    change (visit_slots _ _ l ?b ctx) with (visit l b ctx).
    rewrite IH by done. cbn [FixedSizeBinaryBuilder_UnsafeAppendNull fsb_validity
                              fsb_data fsb_type map is_valid_slot concat fixed_payload].
    rewrite Hb. fold W. by rewrite <- !app_assoc.
Qed.

Lemma to_fixed_visit_mismatch (pre post : list (option (list byte))) (v : list byte) :
  forallb (width_ok W) pre = true ->
  Z.of_nat (length v) <> W ->
  forall b ctx, fsb_type b = to_type options ->
    visit (pre ++ Some v :: post) b ctx = (Err Invalid msg, ctx).
Proof.
  induction pre as [|[w|] pre IH]; intros Hpre Hv b ctx Hb.
  - simpl. unfold visit. rewrite visit_slots_cons_some. rewrite Hb. fold W.
    by rewrite (proj2 (Z.eqb_neq _ _)) by done.
  - simpl in Hpre. apply andb_prop in Hpre as [Hw Hpre].
    simpl. unfold visit. rewrite visit_slots_cons_some.
    rewrite Hb. fold W. rewrite Hw. cbn [negb]. monad_unfold.
    change (visit_slots _ _ ?l ?b ctx) with (visit l b ctx).
    by apply IH.
  - simpl in Hpre. simpl. unfold visit. rewrite visit_slots_cons_none. monad_unfold.
    change (visit_slots _ _ ?l ?b ctx) with (visit l b ctx).
    by apply IH.
Qed.

Lemma to_fixed_run (out : ArrayData) ctx :
  BinaryToBinaryCastExec_to_fixed ToString FixedSizeBinaryType I options input
    out ctx
  = match visit (slots I input) (FixedSizeBinaryBuilder_new (to_type options)) ctx with
    | (Ok builder, ctx') => FixedSizeBinaryBuilder_FinishInternal builder ctx'
    | (Err c m, ctx') => (Err c m, ctx')
    end.
Proof.
  unfold BinaryToBinaryCastExec_to_fixed. monad_unfold.
  by rewrite VisitArraySpanInline_slots.
Qed.

End ToFixed.

Lemma nth_map_default {A B} (f : A -> B) (l : list A) (d : A) (d' : B) (i : nat) :
  (i < length l)%nat -> nth i (map f l) d' = f (nth i l d).
Proof.
  intros Hi. rewrite (nth_indep _ d' (f d)) by (by rewrite length_map).
  apply map_nth.
Qed.

Lemma fixed_slots_of_payloads (W : Z) (l : list (option (list byte)))
    (t : DataType) (b0 b1 : Buffer) (n : Z) :
  0 <= W -> byte_width t = W ->
  forallb (width_ok W) l = true ->
  contents b0 = Bitmap (map is_valid_slot l) ->
  contents b1 = Bytes (concat (map (fixed_payload W) l)) ->
  slots FixedSizeBinaryType
    {| type := t; len := Z.of_nat (length l); offset := 0; null_count := n;
       buffers := [Some b0; Some b1] |}
  = l.
Proof.
  intros HW Ht Hl Hb0 Hb1. unfold slots. cbn [len].
  apply (map_seqZ_nth _ l None). intros i Hi.
  unfold IsValid, GetView, GetView_fixed, GetBuffer, string_view, bits_of, bytes_of.
  cbn [is_base_binary_type is_binary_view_like_type buffers lookup list_lookup
       default offset type].
  destruct b0 as [h0 c0], b1 as [h1 c1]. simpl in Hb0, Hb1. subst c0 c1.
  cbn [default id]. rewrite Ht, Z.add_0_l. unfold at_. rewrite Nat2Z.id.
  rewrite (nth_map_default _ _ None) by done.
  assert (Hchunks : Forall (fun c => length c = Z.to_nat W) (map (fixed_payload W) l)).
  { rewrite Forall_map. rewrite forallb_forall in Hl.
    apply Forall_forall. intros o Ho. apply list_elem_of_In, Hl in Ho.
    destruct o as [v|]; simpl in *; [apply Z.eqb_eq in Ho; lia|].
    by rewrite length_replicate. }
  pose proof (chunk_at (Z.to_nat W) _ [] Hchunks i
                ltac:(by rewrite length_map)) as Hc.
  replace (Z.to_nat (Z.of_nat i * W)) with (i * Z.to_nat W)%nat by nia.
  rewrite Hc. rewrite (nth_map_default _ _ None) by done.
  by destruct (nth i l None).
Qed.

Lemma to_fixed_success (ToString : DataType -> string)
    (I : TypeClass) (options : CastOptions)
    (input : ArraySpan) (out : ArrayData) (ctx : KernelContext) :
  let W := byte_width (to_type options) in
  forallb (width_ok W) (slots I input) = true -> 0 <= W ->
  exists output,
    BinaryToBinaryCastExec_to_fixed ToString FixedSizeBinaryType I options
      input out ctx
    = (Ok output, add_allocations ctx 2)
    /\ type output = to_type options
    /\ len output = Z.of_nat (length (slots I input))
    /\ slots FixedSizeBinaryType output = slots I input
    /\ bytes_of (GetBuffer output 1)
       = concat (map (fixed_payload W) (slots I input))
    /\ handle_of (GetBuffer output 0) = Some (memory_pool ctx)
    /\ handle_of (GetBuffer output 1) = Some (N.succ (memory_pool ctx)).
Proof.
  intros W Hall HW. rewrite to_fixed_run.
  rewrite (to_fixed_visit_ok ToString options input _ Hall) by done.
  unfold FixedSizeBinaryBuilder_FinishInternal. monad_unfold.
  cbn [fsb_validity fsb_data fsb_type FixedSizeBinaryBuilder_new app memory_pool trace].
  eexists. split.
  { unfold add_allocations. cbn [memory_pool trace].
    replace (memory_pool ctx + 2)%N with (N.succ (N.succ (memory_pool ctx))) by lia.
    reflexivity. }
  cbn [type len]. rewrite length_map.
  split; [done|]. split; [done|]. split.
  { by apply (fixed_slots_of_payloads W). }
  done.
Qed.

(** C3: a cast from an offset or view layout to a fixed-width layout of
    width [W] fails with [Invalid], naming both types, at the first
    non-null slot whose length is not [W] (nulls before it are passed over
    unchecked); when every non-null slot has length [W] it succeeds with a
    freshly built array that has the same slots, each occupying [W] bytes
    of a new data buffer. *)
Theorem cast_to_fixed_checks_widths
    (ValidateUTF8Inline : list byte -> bool) (ToString : DataType -> string)
    (I : TypeClass) (options : CastOptions)
    (input : ArraySpan) (out : ArrayData) (ctx : KernelContext) :
  is_base_binary_type I || is_binary_view_like_type I = true ->
  let W := byte_width (to_type options) in
  let cast := BinaryToBinaryCastExec ValidateUTF8Inline ToString
                FixedSizeBinaryType I options input out in
  (forall pre v post,
     slots I input = pre ++ Some v :: post ->
     forallb (width_ok W) pre = true ->
     Z.of_nat (length v) <> W ->
     cast ctx = (Err Invalid (failed_casting ToString (type input) (to_type options)
                                             ": widths must match"), ctx))
  /\ (forallb (width_ok W) (slots I input) = true -> 0 <= W ->
      exists output,
        cast ctx = (Ok output, add_allocations ctx 2)
        /\ type output = to_type options
        /\ len output = Z.of_nat (length (slots I input))
        /\ slots FixedSizeBinaryType output = slots I input
        /\ bytes_of (GetBuffer output 1)
           = concat (map (fixed_payload W) (slots I input))
        /\ handle_of (GetBuffer output 0) = Some (memory_pool ctx)
        /\ handle_of (GetBuffer output 1) = Some (N.succ (memory_pool ctx))).
Proof.
  intros HI W cast. unfold cast. rewrite Exec_to_fixed by done.
  split.
  - intros pre v post Hs Hpre Hv. rewrite to_fixed_run, Hs.
    by rewrite (to_fixed_visit_mismatch ToString options input pre post v Hpre Hv).
  - intros Hall HW. by apply to_fixed_success.
Qed.

(** The example of the specification: ["ab", "abc", "de"] cast to width 2
    fails on the second element. *)
Lemma cast_to_fixed_checks_widths_witness :
  is_base_binary_type StringType || is_binary_view_like_type StringType = true
  /\ slots StringType sample_strings
     = [Some (bytes_of_string "ab")] ++ Some (bytes_of_string "abc")
       :: [Some (bytes_of_string "de")]
  /\ forallb (width_ok 2) [Some (bytes_of_string "ab")] = true
  /\ Z.of_nat (length (bytes_of_string "abc")) <> 2
  /\ BinaryToBinaryCastExec ascii_only type_name FixedSizeBinaryType StringType
       to_fixed2 sample_strings (sample_out (fixed_size_binary 2) 3) ctx0
     = (Err Invalid "Failed casting from string to fixed_size_binary[2]: widths must match",
        ctx0).
Proof.
  split; [reflexivity|]. split; [reflexivity|]. split; [reflexivity|].
  split; [by vm_compute|].
  exact (proj1 (cast_to_fixed_checks_widths ascii_only type_name StringType
                  to_fixed2 sample_strings (sample_out (fixed_size_binary 2) 3)
                  ctx0 eq_refl)
           [Some (bytes_of_string "ab")] (bytes_of_string "abc")
           [Some (bytes_of_string "de")] eq_refl eq_refl ltac:(by vm_compute)).
Defined.

(** With a null in the middle and matching widths the cast succeeds. *)
Example cast_pairs_to_fixed2 :
  exists output,
    run (BinaryToBinaryCastExec ascii_only type_name FixedSizeBinaryType StringType
           to_fixed2 sample_pairs (sample_out (fixed_size_binary 2) 3)) ctx0
    = Ok output
    /\ slots FixedSizeBinaryType output
       = [Some (bytes_of_string "ab"); None; Some (bytes_of_string "de")].
Proof. eexists. split; reflexivity. Qed.

(** ** The guard, summarized *)

Lemma guard_ok_run (ValidateUTF8Inline : list byte -> bool) (O I : TypeClass)
    (options : CastOptions) (input : ArraySpan) (ctx : KernelContext) :
  guard_ok ValidateUTF8Inline O I options (slots I input) = true ->
  guard ValidateUTF8Inline O I options input ctx
  = (Ok tt, add_trace ctx (guard_calls O I options (slots I input))).
Proof.
  unfold guard_ok, guard_calls. intros H.
  destruct (must_validate O I options) eqn:Hm; simpl in H.
  - by apply guard_clean.
  - rewrite add_trace_nil. by apply guard_skipped.
Qed.

Lemma guard_allow (ValidateUTF8Inline : list byte -> bool) (O I : TypeClass)
    (options : CastOptions) (l : list (option (list byte))) :
  allow_invalid_utf8 options = true ->
  guard_ok ValidateUTF8Inline O I options l = true
  /\ guard_calls O I options l = [].
Proof.
  intros Ha. unfold guard_ok, guard_calls, must_validate. rewrite Ha.
  by rewrite !andb_false_r.
Qed.

(** ** Offset layout to offset layout *)

Lemma slots_base_ext (O I : TypeClass) (a b : ArraySpan) :
  is_base_binary_type I = true -> is_base_binary_type O = true ->
  len b = len a ->
  (forall i, 0 <= i < len a -> IsValid b i = IsValid a i) ->
  (forall i, 0 <= i < len a -> IsValid a i = true ->
     GetView_offsets b i = GetView_offsets a i) ->
  slots O b = slots I a.
Proof.
  intros HI HO Hlen Hv Hg. unfold slots, GetView. rewrite HI, HO, Hlen.
  apply map_ext_in. intros i Hi. apply list_elem_of_In, elem_of_seqZ in Hi.
  rewrite Hv by lia. destruct (IsValid a i) eqn:E; [|done].
  by rewrite Hg by (done || lia).
Qed.

Section OffsetToOffset.

Variable ValidateUTF8Inline : list byte -> bool.
Variable ToString : DataType -> string.
Variables (O I : TypeClass) (options : CastOptions).
Variables (input : ArraySpan) (out : ArrayData).
Hypothesis HI : is_base_binary_type I = true.
Hypothesis HO : is_base_binary_type O = true.
Hypothesis Hwf : wf_offsets I input = true.

Let final := at_ 0 (ints_of (GetBuffer input 1)) (offset input + len input).
Let narrowing := match offset_type I, offset_type O with
                 | int64_t, int32_t => true
                 | _, _ => false
                 end.

Lemma offset_offset_run_overflow (ctx ctx1 : KernelContext) :
  guard ValidateUTF8Inline O I options input ctx = (Ok tt, ctx1) ->
  narrowing && (final >? numeric_limits_max int32_t) = true ->
  BinaryToBinaryCastExec_offset_offset ValidateUTF8Inline ToString O I
    options input out ctx
  = (Err Invalid (failed_casting ToString (type input) (type out)
                                 ": input array too large"), ctx1).
Proof.
  intros Hguard Hcheck. apply andb_prop in Hcheck as [Hn Hf].
  unfold BinaryToBinaryCastExec_offset_offset, ZeroCopyCastExec. monad_unfold.
  rewrite Hguard. unfold narrowing in Hn.
  destruct (offset_type I), (offset_type O); try discriminate.
  unfold CastBinaryToBinaryOffsets, CastBinaryToBinaryOffsets_down.
  cbn [len offset type]. fold final. by rewrite Hf.
Qed.

Lemma offset_offset_run (ctx ctx1 : KernelContext) :
  guard ValidateUTF8Inline O I options input ctx = (Ok tt, ctx1) ->
  narrowing && (final >? numeric_limits_max int32_t) = false ->
  exists output ctx2,
    BinaryToBinaryCastExec_offset_offset ValidateUTF8Inline ToString O I
      options input out ctx
    = (Ok output, ctx2)
    /\ trace ctx2 = trace ctx1
    /\ type output = type out /\ len output = len input
    /\ offset output = offset input /\ null_count output = null_count input
    /\ GetBuffer output 0 = GetBuffer input 0
    /\ GetBuffer output 2 = GetBuffer input 2
    /\ offsets_of output = offsets_of input
    /\ slots O output = slots I input.
Proof.
  intros Hguard Hcheck.
  pose proof (wf_offsets_elim I input Hwf) as (Ho & Hl & Hlen & _ & _ & _ & Hmax).
  assert (Hbuf : (1 < length (buffers input))%nat).
  { apply (ints_nonempty_buffer input). lia. }
  set (zc := {| type := type out; len := len input; offset := offset input;
                null_count := null_count input; buffers := buffers input |}).
  assert (Hconv : forall T b, contents b = Ints (converted_offsets T input zc) ->
            final <= numeric_limits_max T ->
            offsets_of (set_buffer zc 1 (Some b)) = offsets_of input
            /\ slots O (set_buffer zc 1 (Some b)) = slots I input).
  { intros T b Hb Hfin.
    assert (Hat : forall i, 0 <= i <= len input ->
              at_ 0 (ints_of (GetBuffer (set_buffer zc 1 (Some b)) 1)) (offset input + i)
              = at_ 0 (ints_of (GetBuffer input 1)) (offset input + i)).
    { intros i Hi. rewrite GetBuffer_set_buffer_eq by done.
      destruct b as [h c]. simpl in Hb. subst c. cbn [ints_of contents].
      by apply (converted_offsets_exact T I input zc). }
    split.
    - unfold offsets_of. cbn [len offset set_buffer].
      apply map_ext_in. intros i Hi. apply list_elem_of_In, elem_of_seqZ in Hi.
      apply Hat. lia.
    - apply slots_base_ext; try done.
      + intros i Hi. unfold IsValid. by rewrite GetBuffer_set_buffer_ne by done.
      + intros i Hi _. unfold GetView_offsets.
        rewrite (GetBuffer_set_buffer_ne _ 1 2) by done.
        change (offset (set_buffer zc 1 (Some b))) with (offset input).
        change (GetBuffer zc 2) with (GetBuffer input 2).
        replace (offset input + i + 1) with (offset input + (i + 1)) by lia.
        rewrite !Hat by lia. reflexivity. }
  unfold BinaryToBinaryCastExec_offset_offset, ZeroCopyCastExec. monad_unfold.
  rewrite Hguard. fold zc. unfold narrowing in Hcheck.
  unfold CastBinaryToBinaryOffsets.
  destruct (offset_type I) eqn:EI, (offset_type O) eqn:EO.
  - (* 32 -> 32 *)
    unfold CastBinaryToBinaryOffsets_same. monad_unfold.
    exists zc, ctx1. repeat split; try done.
    by apply slots_base_ext.
  - (* 32 -> 64 *)
    unfold CastBinaryToBinaryOffsets_up. monad_unfold.
    destruct (Hconv int64_t {| handle := memory_pool ctx1;
                               contents := Ints (converted_offsets int64_t input zc) |}
                eq_refl) as [Hoffs Hslots].
    { fold final in Hmax. simpl in *. lia. }
    eexists _, _. split; [reflexivity|].
    repeat split; try done; by rewrite GetBuffer_set_buffer_ne by done.
  - (* 64 -> 32 *)
    unfold CastBinaryToBinaryOffsets_down.
    change (at_ 0 (ints_of (GetBuffer input 1)) (offset input + len input))
      with final.
    cbn [andb] in Hcheck. rewrite Hcheck. monad_unfold.
    destruct (Hconv int32_t {| handle := memory_pool ctx1;
                               contents := Ints (converted_offsets int32_t input zc) |}
                eq_refl) as [Hoffs Hslots].
    { lia. }
    eexists _, _. split; [reflexivity|].
    repeat split; try done; by rewrite GetBuffer_set_buffer_ne by done.
  - (* 64 -> 64 *)
    unfold CastBinaryToBinaryOffsets_same. monad_unfold.
    exists zc, ctx1. repeat split; try done.
    by apply slots_base_ext.
Qed.

End OffsetToOffset.

(** ** View layout to offset layout *)

Lemma non_null_cons_some {A} (v : A) (l : list (option A)) :
  non_null (Some v :: l) = v :: non_null l.
Proof. reflexivity. Qed.

Lemma non_null_cons_none {A} (l : list (option A)) :
  non_null (None :: l) = non_null l.
Proof. reflexivity. Qed.

Lemma total_bytes_cons (o : option (list byte)) (l : list (option (list byte))) :
  total_bytes (o :: l) = Z.of_nat (length (default [] o)) + total_bytes l.
Proof.
  unfold total_bytes. destruct o as [v|]; simpl.
  - rewrite length_app. lia.
  - done.
Qed.

Lemma total_bytes_nonneg (l : list (option (list byte))) : 0 <= total_bytes l.
Proof. unfold total_bytes. lia. Qed.

Lemma length_running_offsets (base : Z) (l : list (option (list byte))) :
  length (running_offsets base l) = length l.
Proof. revert base. induction l as [|o l IH]; intros base; simpl; [done|]. by rewrite IH. Qed.

Lemma running_offsets_bounds (l : list (option (list byte))) :
  forall base x, x ∈ running_offsets base l -> base <= x <= base + total_bytes l.
Proof.
  induction l as [|o l IH]; intros base x Hx; simpl in Hx.
  - by apply elem_of_nil in Hx.
  - rewrite total_bytes_cons. pose proof (total_bytes_nonneg l).
    apply elem_of_cons in Hx as [->|Hx]; [lia|].
    apply IH in Hx. lia.
Qed.

Lemma running_offsets_slot (l : list (option (list byte))) :
  forall (base : Z) (i : nat), 0 <= base -> (i < length l)%nat ->
    let bounds := base :: running_offsets base l in
    let lo := nth i bounds 0 in
    let hi := nth (S i) bounds 0 in
    base <= lo
    /\ hi = lo + Z.of_nat (length (default [] (nth i l None)))
    /\ take (Z.to_nat (hi - lo)) (drop (Z.to_nat (lo - base)) (concat (non_null l)))
       = default [] (nth i l None).
Proof.
  induction l as [|o l IH]; intros base i Hbase Hi; [simpl in Hi; lia|].
  destruct i as [|i].
  - cbn [nth running_offsets]. split; [lia|]. split; [done|].
    rewrite Z.sub_diag. cbn [Z.to_nat drop].
    replace (base + Z.of_nat (length (default [] o)) - base)
      with (Z.of_nat (length (default [] o))) by lia.
    rewrite Nat2Z.id. destruct o as [v|]; simpl.
    + by apply take_app_length'.
    + by rewrite take_0.
  - cbn [running_offsets].
    set (n := base + Z.of_nat (length (default [] o))).
    destruct (IH n i ltac:(lia) ltac:(simpl in Hi; lia)) as (Hlo & Hhi & Hbytes).
    change (nth (S i) (base :: n :: running_offsets n l) 0)
      with (nth i (n :: running_offsets n l) 0).
    change (nth (S (S i)) (base :: n :: running_offsets n l) 0)
      with (nth (S i) (n :: running_offsets n l) 0).
    change (nth (S i) (o :: l) None) with (nth i l None).
    cbv zeta in *. split; [lia|]. split; [done|].
    rewrite <- Hbytes. f_equal.
    destruct o as [v|]; cbn [default length id] in n; subst n.
    + rewrite non_null_cons_some. cbn [concat]. rewrite drop_app_ge by lia.
      f_equal. lia.
    + rewrite non_null_cons_none. f_equal. lia.
Qed.

Section ViewToOffsetVisit.

Variable offset_ty : IntType.

Let visit :=
  visit_slots
    (fun (s : list byte) (st : list Z * list byte) =>
       ret (append_offset offset_ty (fst st, snd st ++ s)))
    (fun st => ret (append_offset offset_ty st)).

Lemma view_offset_visit (l : list (option (list byte))) :
  forall ofs d ctx,
    Z.of_nat (length d) + total_bytes l <= numeric_limits_max offset_ty ->
    visit l (ofs, d) ctx
    = (Ok (ofs ++ running_offsets (Z.of_nat (length d)) l, d ++ concat (non_null l)),
       ctx).
Proof.
  induction l as [|[v|] l IH]; intros ofs d ctx Hfit.
  - simpl. by rewrite !app_nil_r.
  - rewrite total_bytes_cons in Hfit. pose proof (total_bytes_nonneg l).
    simpl in Hfit.
    unfold visit. rewrite visit_slots_cons_some. monad_unfold.
    unfold append_offset. cbn [fst snd].
    change (visit_slots _ _ l ?st ctx) with (visit l st ctx).
    rewrite IH by (rewrite length_app; lia).
    rewrite length_app, Nat2Z.inj_add.
    rewrite static_cast_nonneg_id by lia.
    cbn [running_offsets default]. rewrite non_null_cons_some. cbn [concat].
    by rewrite <- !app_assoc.
  - rewrite total_bytes_cons in Hfit. pose proof (total_bytes_nonneg l).
    simpl in Hfit.
    unfold visit. rewrite visit_slots_cons_none. monad_unfold.
    unfold append_offset. cbn [fst snd].
    change (visit_slots _ _ l ?st ctx) with (visit l st ctx).
    rewrite IH by lia.
    rewrite static_cast_nonneg_id by lia.
    cbn [running_offsets default length]. rewrite non_null_cons_none.
    rewrite Z.add_0_r. by rewrite <- !app_assoc.
Qed.

End ViewToOffsetVisit.

Lemma bitmap_ok_bits (a : ArraySpan) (b : Buffer) :
  bitmap_ok a = true -> GetBuffer a 0 = Some b ->
  exists bits, contents b = Bitmap bits
               /\ offset a + len a <= Z.of_nat (length bits).
Proof.
  unfold bitmap_ok. intros H E. rewrite E in H.
  destruct b as [h [bits| | |]]; try discriminate.
  exists bits. split; [done|lia].
Qed.

Lemma GetOrCopyNullBitmapBuffer_run (input : ArraySpan) (ctx : KernelContext) :
  bitmap_ok input = true ->
  exists b0 ctx',
    GetOrCopyNullBitmapBuffer input ctx = (Ok b0, ctx')
    /\ trace ctx' = trace ctx
    /\ (memory_pool ctx <= memory_pool ctx')%N
    /\ forall i, 0 <= i < len input ->
         match bits_of b0 with
         | None => true
         | Some bits => at_ false bits i
         end = IsValid input i.
Proof.
  intros Hok. unfold GetOrCopyNullBitmapBuffer, IsValid.
  destruct (GetBuffer input 0) as [b|] eqn:E.
  - destruct (bitmap_ok_bits input b Hok E) as (bits & Hb & Hlen).
    destruct b as [h c]. simpl in Hb. subst c.
    destruct (offset input =? 0) eqn:Ez.
    + apply Z.eqb_eq in Ez. exists (Some {| handle := h; contents := Bitmap bits |}), ctx.
      repeat split; try done; try lia.
      intros i Hi. cbn [bits_of]. by rewrite Ez, Z.add_0_l.
    + unfold CopyBitmap. monad_unfold. eexists _, _. split; [reflexivity|].
      cbn [trace memory_pool bits_of default]. repeat split; try done; try lia.
      intros i Hi. unfold bitmap_slice. cbn [id]. by rewrite at_map_seqZ by lia.
  - exists None, ctx. repeat split; try done; lia.
Qed.

Lemma nth_slots (I : TypeClass) (a : ArraySpan) (i : nat) :
  (Z.of_nat i < len a) ->
  nth i (slots I a) None
  = if IsValid a (Z.of_nat i) then Some (GetView I a (Z.of_nat i)) else None.
Proof.
  intros Hi. unfold slots.
  pose proof (at_map_seqZ None
                (fun i => if IsValid a i then Some (GetView I a i) else None)
                (len a) (Z.of_nat i) ltac:(lia)) as E.
  unfold at_ in E. by rewrite Nat2Z.id in E.
Qed.

Lemma length_slots (I : TypeClass) (a : ArraySpan) :
  length (slots I a) = Z.to_nat (len a).
Proof. unfold slots. by rewrite length_map, length_seqZ. Qed.

Lemma prepared_output_elim (out : ArrayData) :
  prepared_output out = true -> offset out = 0 /\ length (buffers out) = 3%nat.
Proof. unfold prepared_output. intros H. apply andb_prop in H as [H1 H2]. lia. Qed.

Lemma view_offset_run (ValidateUTF8Inline : list byte -> bool)
    (O I : TypeClass) (options : CastOptions)
    (input : ArraySpan) (out : ArrayData) (ctx ctx1 : KernelContext) :
  is_base_binary_type O = true ->
  wf_views input = true ->
  prepared_output out = true ->
  total_bytes (slots I input) <= numeric_limits_max (offset_type O) ->
  guard ValidateUTF8Inline O I options input ctx = (Ok tt, ctx1) ->
  exists output ctx2,
    BinaryToBinaryCastExec_view_offset ValidateUTF8Inline O I options input out ctx
    = (Ok output, ctx2)
    /\ trace ctx2 = trace ctx1
    /\ type output = type out /\ len output = len input /\ offset output = 0
    /\ null_count output = null_count input
    /\ (forall i, 0 <= i < len input -> IsValid output i = IsValid input i)
    /\ offsets_of output = 0 :: running_offsets 0 (slots I input)
    /\ bytes_of (GetBuffer output 2) = concat (non_null (slots I input))
    /\ slots O output = slots I input.
Proof.
  intros HO Hwf Hout Hfit Hguard.
  unfold wf_views in Hwf. apply andb_prop in Hwf as [Hwf Hbm].
  apply andb_prop in Hwf as [Hoff Hlen].
  apply prepared_output_elim in Hout as [Hout0 Hout3].
  destruct (GetOrCopyNullBitmapBuffer_run input ctx1 Hbm)
    as (b0 & ctxb & Hb0 & Htr & _ & Hvalid).
  unfold BinaryToBinaryCastExec_view_offset. monad_unfold.
  rewrite Hguard, Hb0. rewrite VisitArraySpanInline_slots.
  rewrite (view_offset_visit (offset_type O)) by (simpl; lia).
  cbn [fst snd app length].
  set (l := slots I input) in *.
  set (b1 := {| handle := memory_pool ctxb;
                contents := Ints (0 :: running_offsets 0 l) |}).
  set (b2 := {| handle := N.succ (memory_pool ctxb);
                contents := Bytes (concat (non_null l)) |}).
  pose (output := set_buffer
                    (set_buffer
                       (set_buffer
                          (SetNullCount (with_length out (len input)) (null_count input))
                          0 b0) 1 (Some b1)) 2 (Some b2)).
  assert (H0 : GetBuffer output 0 = b0).
  { unfold output. rewrite !GetBuffer_set_buffer_ne by done.
    apply GetBuffer_set_buffer_eq. simpl. lia. }
  assert (H1 : GetBuffer output 1 = Some b1).
  { unfold output. rewrite GetBuffer_set_buffer_ne by done.
    apply GetBuffer_set_buffer_eq. rewrite length_buffers_set_buffer. simpl. lia. }
  assert (H2 : GetBuffer output 2 = Some b2).
  { unfold output. apply GetBuffer_set_buffer_eq.
    rewrite !length_buffers_set_buffer. simpl. lia. }
  assert (Hoffs : forall i, 0 <= i <= len input ->
            at_ 0 (ints_of (GetBuffer output 1)) (offset output + i)
            = nth (Z.to_nat i) (0 :: running_offsets 0 l) 0).
  { intros i Hi. rewrite H1. cbn [ints_of b1 contents].
    change (offset output) with (offset out). rewrite Hout0. by rewrite Z.add_0_l. }
  assert (Hv : forall i, 0 <= i < len input -> IsValid output i = IsValid input i).
  { intros i Hi. rewrite <- Hvalid by done. unfold IsValid. rewrite H0.
    change (offset output) with (offset out). by rewrite Hout0, Z.add_0_l. }
  exists output, {| memory_pool := N.succ (N.succ (memory_pool ctxb));
                    trace := trace ctxb |}.
  split; [reflexivity|]. split; [done|]. split; [done|]. split; [done|].
  split; [done|]. split; [done|]. split; [exact Hv|]. split.
  { unfold offsets_of. change (len output) with (len input).
    apply (nth_ext _ _ 0 0).
    - rewrite length_map, length_seqZ. cbn [length].
      rewrite length_running_offsets. unfold l. rewrite length_slots. lia.
    - intros n Hn. rewrite length_map, length_seqZ in Hn.
      pose proof (at_map_seqZ 0
        (fun i => at_ 0 (ints_of (GetBuffer output 1)) (offset output + i))
        (len input + 1) (Z.of_nat n) ltac:(lia)) as E.
      unfold at_ at 1 in E. rewrite Nat2Z.id in E. rewrite E.
      rewrite Hoffs by lia. by rewrite Nat2Z.id. }
  split; [by rewrite H2|].
  unfold slots at 1. change (len output) with (len input).
  unfold slots in l. apply map_ext_in. intros i Hi.
  apply list_elem_of_In, elem_of_seqZ in Hi.
  rewrite Hv by lia. destruct (IsValid input i) eqn:Ev; [|done]. f_equal.
  unfold GetView at 1. rewrite HO. unfold GetView_offsets, string_view.
  replace (offset output + i + 1) with (offset output + (i + 1)) by lia.
  rewrite !Hoffs by lia. rewrite H2. cbn [bytes_of b2 contents].
  destruct (running_offsets_slot l 0 (Z.to_nat i) ltac:(lia))
    as (Hlo & Hhi & Hbytes).
  { unfold l. rewrite length_map, length_seqZ. lia. }
  cbv zeta in Hbytes. rewrite Z.sub_0_r in Hbytes.
  replace (Z.to_nat (i + 1)) with (S (Z.to_nat i)) by lia.
  rewrite Hbytes.
  pose proof (nth_slots I input (Z.to_nat i) ltac:(lia)) as Hn.
  unfold slots in Hn. fold l in Hn. rewrite Hn.
  rewrite Z2Nat.id by lia. by rewrite Ev.
Qed.

(** ** Fixed-width layout to offset layout *)

Lemma fixed_offset_guard (ValidateUTF8Inline : list byte -> bool) (O : TypeClass)
    (options : CastOptions) (input : ArraySpan) :
  (if is_utf8 O then ValidateInput ValidateUTF8Inline FixedSizeBinaryType options input
   else ret tt)
  = guard ValidateUTF8Inline O FixedSizeBinaryType options input.
Proof. reflexivity. Qed.

Lemma fixed_offset_fold (offset_ty : IntType) (W origin : Z) (offsets0 : list Z)
    (k : nat) :
  0 <= W -> 0 <= origin ->
  (origin + Z.of_nat k) * W <= numeric_limits_max offset_ty ->
  Z.of_nat k + 1 <= Z.of_nat (length offsets0) ->
  at_ 0 offsets0 0 = origin * W ->
  let offsets := fold_left (fun s i => fixed_offset_step offset_ty W 0 i s)
                           (seqZ 0 (Z.of_nat k)) offsets0 in
  length offsets = length offsets0
  /\ forall j, 0 <= j <= Z.of_nat k -> at_ 0 offsets j = (origin + j) * W.
Proof.
  intros HW Ho. induction k as [|k IH]; intros Hmax Hlen H0.
  - simpl. split; [done|]. intros j Hj. replace j with 0 by lia.
    by rewrite Z.add_0_r.
  - replace (Z.of_nat (S k)) with (Z.of_nat k + 1) in * by lia.
    rewrite seqZ_snoc by lia. rewrite fold_left_app. cbn [fold_left].
    destruct IH as (IHlen & IHv); [nia|lia|done|].
    set (offs := fold_left _ (seqZ 0 (Z.of_nat k)) offsets0) in *.
    unfold fixed_offset_step. rewrite !Z.add_0_l.
    rewrite IHv by lia.
    replace ((origin + Z.of_nat k) * W + W) with ((origin + (Z.of_nat k + 1)) * W) by lia.
    rewrite static_cast_nonneg_id by (split; [apply Z.mul_nonneg_nonneg; lia|lia]).
    split; [by rewrite length_insert|].
    intros j Hj. destruct (decide (j = Z.of_nat k + 1)) as [->|Hne].
    + apply at_insert_eq. lia.
    + rewrite at_insert_ne by lia. apply IHv. lia.
Qed.

Lemma preallocated_output_elim (out : ArrayData) (n : Z) :
  preallocated_output out n = true ->
  offset out = 0 /\ length (buffers out) = 3%nat
  /\ GetBuffer out 0 = None
  /\ exists h l, GetBuffer out 1 = Some {| handle := h; contents := Ints l |}
                 /\ n + 1 <= Z.of_nat (length l).
Proof.
  unfold preallocated_output. intros H.
  apply andb_prop in H as [H H1]. apply andb_prop in H as [Hp H0].
  apply prepared_output_elim in Hp as [Ho Hl].
  split; [done|]. split; [done|].
  destruct (GetBuffer out 0); [discriminate|]. split; [done|].
  destruct (GetBuffer out 1) as [[h [| l | |]]|]; try discriminate.
  exists h, l. split; [done|lia].
Qed.

Section FixedToOffset.

Variable ValidateUTF8Inline : list byte -> bool.
Variable ToString : DataType -> string.
Variables (O : TypeClass) (options : CastOptions).
Variables (input : ArraySpan) (out : ArrayData).
Hypothesis HO : is_base_binary_type O = true.
Hypothesis Hwf : wf_fixed input = true.

Let W := byte_width (type input).

Lemma fixed_offset_run_overflow (ctx ctx1 : KernelContext) :
  guard ValidateUTF8Inline O FixedSizeBinaryType options input ctx = (Ok tt, ctx1) ->
  (W * len input >? numeric_limits_max (offset_type O)) = true ->
  BinaryToBinaryCastExec_fixed_offset ValidateUTF8Inline ToString O
    FixedSizeBinaryType options input out ctx
  = (Err Invalid (failed_casting ToString (type input) (type out)
                                 ": input array too large"), ctx1).
Proof.
  intros Hguard Hcheck. unfold BinaryToBinaryCastExec_fixed_offset.
  rewrite fixed_offset_guard. monad_unfold. rewrite Hguard.
  fold W. by rewrite Hcheck.
Qed.

Lemma fixed_offset_run (ctx ctx1 : KernelContext) :
  preallocated_output out (len input) = true ->
  guard ValidateUTF8Inline O FixedSizeBinaryType options input ctx = (Ok tt, ctx1) ->
  (offset input + len input) * W <= numeric_limits_max (offset_type O) ->
  exists output ctx2,
    BinaryToBinaryCastExec_fixed_offset ValidateUTF8Inline ToString O
      FixedSizeBinaryType options input out ctx
    = (Ok output, ctx2)
    /\ trace ctx2 = trace ctx1
    /\ (memory_pool ctx1 <= memory_pool ctx2)%N
    /\ type output = type out /\ len output = len input /\ offset output = 0
    /\ null_count output = null_count input
    /\ (forall i, 0 <= i < len input -> IsValid output i = IsValid input i)
    /\ (forall i, 0 <= i <= len input ->
          at_ 0 (ints_of (GetBuffer output 1)) i = (offset input + i) * W)
    /\ bytes_of (GetBuffer output 2) = bytes_of (GetBuffer input 1)
    /\ match GetBuffer output 2 with
       | Some b2 => (memory_pool ctx1 <= handle b2)%N
                    /\ exists b, GetBuffer input 1 = Some b
                                 /\ contents b2 = contents b
       | None => GetBuffer input 1 = None
       end
    /\ slots O output = slots FixedSizeBinaryType input.
Proof.
  intros Hout Hguard Hfit.
  destruct (wf_fixed_elim input Hwf) as (Ho & Hl & HW & Hd). fold W in HW, Hd.
  pose proof Hwf as Hwf'. unfold wf_fixed in Hwf'.
  repeat (apply andb_prop in Hwf' as [Hwf' ?]).
  assert (Hbm : bitmap_ok input = true) by done.
  clear - HO Hwf Hguard Hfit Ho Hl HW Hd Hbm Hout.
  apply preallocated_output_elim in Hout
    as (Hout0 & Hout3 & HoutV & h1 & pre & Hpre & Hprelen).
  assert (Hcheck : (W * len input >? numeric_limits_max (offset_type O)) = false).
  { destruct (W * len input >? _) eqn:E; [|done].
    apply Z.gtb_lt in E. nia. }
  set (out1 := SetNullCount (with_length out (len input)) (null_count input)).
  (* the validity bitmap: shared, copied to bit 0, or absent *)
  assert (Hstage : exists a ctxa,
    (if offset input =? offset out1
     then ret (set_buffer out1 0 (GetBuffer input 0))
     else match GetBuffer input 0 with
          | Some b =>
              b0 ← CopyBitmap (default [] (bits_of (Some b)))
                              (offset input) (len input);
              ret (set_buffer out1 0 (Some b0))
          | None => ret out1
          end) ctx1 = (Ok a, ctxa)
    /\ trace ctxa = trace ctx1 /\ (memory_pool ctx1 <= memory_pool ctxa)%N
    /\ type a = type out /\ len a = len input /\ offset a = 0
    /\ null_count a = null_count input
    /\ length (buffers a) = 3%nat
    /\ GetBuffer a 1 = GetBuffer out 1
    /\ forall i, 0 <= i < len input -> IsValid a i = IsValid input i).
  { change (offset out1) with (offset out). rewrite Hout0.
    destruct (offset input =? 0) eqn:Ez.
    - apply Z.eqb_eq in Ez. eexists _, _. split; [reflexivity|].
      repeat split; try done; try lia;
        try (by rewrite length_buffers_set_buffer);
          try (by rewrite GetBuffer_set_buffer_ne by done).
      intros i Hi. unfold IsValid.
      rewrite GetBuffer_set_buffer_eq by (simpl; lia).
      cbn [offset set_buffer out1 SetNullCount with_length]. by rewrite Hout0, Ez.
    - destruct (GetBuffer input 0) as [b|] eqn:E0.
      + destruct (bitmap_ok_bits input b Hbm E0) as (bits & Hb & Hlen).
        destruct b as [h c]. simpl in Hb. subst c.
        unfold CopyBitmap. monad_unfold. eexists _, _. split; [reflexivity|].
        cbn [trace memory_pool]. repeat split; try done; try lia;
          try (by rewrite length_buffers_set_buffer);
          try (by rewrite GetBuffer_set_buffer_ne by done).
        intros i Hi. unfold IsValid.
        rewrite GetBuffer_set_buffer_eq by (simpl; lia). rewrite E0.
        cbn [bits_of default id offset set_buffer out1 SetNullCount with_length].
        rewrite Hout0, Z.add_0_l. unfold bitmap_slice.
        by rewrite at_map_seqZ by lia.
      + exists out1, ctx1. split; [reflexivity|].
        repeat split; try done; try lia.
        intros i Hi. unfold IsValid.
        change (GetBuffer out1 0) with (GetBuffer out 0). by rewrite HoutV, E0. }
  destruct Hstage as (a & ctxa & Hst & Htr & Hpool & Hty & Hlena & Hoffa & Hnc
                      & Hlen3 & Ha1 & Hvalid).
  (* the offsets *)
  set (offsets0 := <[Z.to_nat 0 := static_cast (offset_type O) (offset input * W)]> pre).
  destruct (fixed_offset_fold (offset_type O) W (offset input) offsets0
              (Z.to_nat (len input)) ltac:(lia) Ho) as (Hflen & Hfv).
  { rewrite Z2Nat.id by lia. exact Hfit. }
  { unfold offsets0. rewrite length_insert. lia. }
  { unfold offsets0. rewrite (at_insert_eq 0 pre 0) by lia.
    apply static_cast_nonneg_id. split; [apply Z.mul_nonneg_nonneg; lia|nia]. }
  rewrite Z2Nat.id in Hfv, Hflen by lia.
  set (offsets := fold_left _ (seqZ 0 (len input)) offsets0) in *.
  set (a1 := set_buffer a 1 (Some {| handle := h1; contents := Ints offsets |})).
  assert (Hrest : forall b2,
    let output := set_buffer a1 2 b2 in
    type output = type out /\ len output = len input /\ offset output = 0
    /\ null_count output = null_count input
    /\ (forall i, 0 <= i < len input -> IsValid output i = IsValid input i)
    /\ (forall i, 0 <= i <= len input ->
          at_ 0 (ints_of (GetBuffer output 1)) i = (offset input + i) * W)
    /\ GetBuffer output 2 = b2
    /\ (bytes_of b2 = bytes_of (GetBuffer input 1) ->
        slots O output = slots FixedSizeBinaryType input)).
  { intros b2 output.
    assert (H1 : GetBuffer output 1 = Some {| handle := h1; contents := Ints offsets |}).
    { unfold output, a1. rewrite GetBuffer_set_buffer_ne by done.
      apply GetBuffer_set_buffer_eq. lia. }
    assert (H2 : GetBuffer output 2 = b2).
    { unfold output. apply GetBuffer_set_buffer_eq.
      unfold a1. rewrite length_buffers_set_buffer. lia. }
    assert (Hv : forall i, 0 <= i < len input -> IsValid output i = IsValid input i).
    { intros i Hi. rewrite <- Hvalid by done. unfold IsValid, output, a1.
      by rewrite !GetBuffer_set_buffer_ne by done. }
    assert (Hat : forall i, 0 <= i <= len input ->
              at_ 0 (ints_of (GetBuffer output 1)) i = (offset input + i) * W).
    { intros i Hi. rewrite H1. cbn [ints_of contents]. by apply Hfv. }
    repeat split; try done.
    intros Hbytes. unfold slots. change (len output) with (len a). rewrite Hlena.
    apply map_ext_in. intros i Hi. apply list_elem_of_In, elem_of_seqZ in Hi.
    rewrite Hv by lia. destruct (IsValid input i); [|done]. f_equal.
    unfold GetView. rewrite HO. cbn [is_base_binary_type is_binary_view_like_type].
    unfold GetView_offsets, GetView_fixed.
    change (offset output) with (offset a). rewrite Hoffa, !Z.add_0_l.
    rewrite !Hat by lia. rewrite H2, Hbytes. fold W. f_equal. lia. }
  unfold BinaryToBinaryCastExec_fixed_offset.
  rewrite fixed_offset_guard. monad_unfold. rewrite Hguard.
  fold W. rewrite Hcheck. fold out1.
  unfold mbind, M_bind, bind, mret, M_ret, ret in Hst. rewrite Hst.
  rewrite Ha1, Hpre, Hoffa. cbn [ints_of with_contents contents handle].
  unfold for_loop. fold offsets0 offsets. fold a1.
  destruct (GetBuffer input 1) as [input_data|] eqn:E1.
  - eexists _, _. split; [reflexivity|]. cbn [trace memory_pool].
    specialize (Hrest (Some {| handle := memory_pool ctxa;
                               contents := contents input_data |})).
    cbv zeta in Hrest.
    destruct Hrest as (R1 & R2 & R3 & R4 & R5 & R6 & R7 & R8).
    split; [done|]. split; [lia|]. repeat (split; [done|]).
    split; [by rewrite R7; destruct input_data|].
    split; [rewrite R7; split; [done|by exists input_data]|].
    apply R8. by destruct input_data.
  - eexists _, _. split; [reflexivity|].
    specialize (Hrest None). cbv zeta in Hrest.
    destruct Hrest as (R1 & R2 & R3 & R4 & R5 & R6 & R7 & R8).
    split; [done|]. split; [lia|]. repeat (split; [done|]).
    split; [by rewrite R7|]. split; [by rewrite R7|].
    by apply R8.
Qed.

End FixedToOffset.

Lemma wf_sliced_wide_fixed : wf_fixed sliced_wide_fixed = true.
Proof.
  unfold wf_fixed, bitmap_ok, GetBuffer.
  cbn [sliced_wide_fixed type len offset buffers byte_width lookup list_lookup
       default bytes_of contents id].
  rewrite length_replicate, Z2Nat.id by lia. reflexivity.
Qed.

(** C5 at the failing input: a one-slot slice, starting at element 1, of a
    fixed-width array of width [2^30] is cast to 32-bit offsets. The
    overflow check compares [width * length = 2^30] with the maximum and
    passes, the first offset is [offset * width = 2^30], and the second,
    [2^31], does not fit: the stored value has wrapped round. *)
Theorem fixed_to_offset_overflows_in_slice :
  wf_fixed sliced_wide_fixed = true
  /\ preallocated_output (preallocated_out binary 1) (len sliced_wide_fixed) = true
  /\ byte_width (type sliced_wide_fixed) * len sliced_wide_fixed
     <= numeric_limits_max int32_t
  /\ (offset sliced_wide_fixed + 1) * byte_width (type sliced_wide_fixed)
     > numeric_limits_max int32_t
  /\ exists output,
       run (BinaryToBinaryCastExec ascii_only type_name BinaryType
              FixedSizeBinaryType no_options sliced_wide_fixed
              (preallocated_out binary 1)) ctx0 = Ok output
       /\ offsets_of output = [1073741824; -2147483648].
Proof.
  split; [apply wf_sliced_wide_fixed|].
  split; [reflexivity|].
  split; [cbn [sliced_wide_fixed type len offset byte_width]; by vm_compute|].
  split; [cbn [sliced_wide_fixed type len offset byte_width]; by vm_compute|].
  eexists. split; reflexivity.
Qed.

(** Fixed width to offsets, within the limit the overflow check is meant
    to enforce: when the offsets of the whole window, [(offset + N) * W]
    included, fit the destination offset type, the offsets written are
    [offset[i] = offset * W + i * W], the data buffer is a copy under a
    fresh handle, and the slots are those of the source. *)
Theorem fixed_to_offset_progression
    (ValidateUTF8Inline : list byte -> bool) (ToString : DataType -> string)
    (O : TypeClass) (options : CastOptions)
    (input : ArraySpan) (out : ArrayData) (ctx : KernelContext) :
  is_base_binary_type O = true ->
  wf_fixed input = true ->
  preallocated_output out (len input) = true ->
  allocated_before ctx input = true ->
  guard_ok ValidateUTF8Inline O FixedSizeBinaryType options
    (slots FixedSizeBinaryType input) = true ->
  (offset input + len input) * byte_width (type input)
    <= numeric_limits_max (offset_type O) ->
  exists output,
    run (BinaryToBinaryCastExec ValidateUTF8Inline ToString O FixedSizeBinaryType
           options input out) ctx = Ok output
    /\ (forall i, 0 <= i <= len input ->
          at_ 0 (ints_of (GetBuffer output 1)) (offset output + i)
          = offset input * byte_width (type input) + i * byte_width (type input))
    /\ bytes_of (GetBuffer output 2) = bytes_of (GetBuffer input 1)
    /\ (forall b, GetBuffer input 1 = Some b ->
          exists b2, GetBuffer output 2 = Some b2
                     /\ contents b2 = contents b
                     /\ Forall (fun b' => handle_of b' <> Some (handle b2))
                               (buffers input))
    /\ slots O output = slots FixedSizeBinaryType input.
Proof.
  intros HO Hwf Hout Halloc Hguard Hfit.
  pose proof (guard_ok_run _ _ _ _ input ctx Hguard) as Hg.
  destruct (fixed_offset_run ValidateUTF8Inline ToString O options input out
              HO Hwf ctx _ Hout Hg Hfit)
    as (output & ctx2 & Hrun & _ & _ & _ & _ & Hoff & _ & _ & Hat & Hbytes & Hfresh & Hslots).
  exists output. unfold run. rewrite Exec_fixed_offset by done. rewrite Hrun.
  split; [done|]. split.
  { intros i Hi. rewrite Hoff, Z.add_0_l, Hat by done. lia. }
  split; [done|]. split; [|done].
  intros b Hb. destruct (GetBuffer output 2) as [b2|] eqn:E2; [|congruence].
  destruct Hfresh as (Hpool & b0 & Hb0 & Hc).
  exists b2. split; [done|]. split; [congruence|].
  unfold allocated_before in Halloc. rewrite forallb_forall in Halloc.
  apply Forall_forall. intros b' Hb'. apply list_elem_of_In, Halloc in Hb'.
  destruct b' as [b'|]; [|done]. simpl. intros [= E].
  apply N.ltb_lt in Hb'. cbn [memory_pool add_trace] in Hpool. lia.
Qed.

Lemma fixed_to_offset_progression_witness :
  is_base_binary_type BinaryType = true
  /\ wf_fixed sample_fixed2 = true
  /\ preallocated_output (preallocated_out binary 2) (len sample_fixed2) = true
  /\ allocated_before ctx0 sample_fixed2 = true
  /\ guard_ok ascii_only BinaryType FixedSizeBinaryType no_options
       (slots FixedSizeBinaryType sample_fixed2) = true
  /\ (offset sample_fixed2 + len sample_fixed2) * byte_width (type sample_fixed2)
     <= numeric_limits_max (offset_type BinaryType)
  /\ exists output,
       run (BinaryToBinaryCastExec ascii_only type_name BinaryType
              FixedSizeBinaryType no_options sample_fixed2
              (preallocated_out binary 2)) ctx0 = Ok output
       /\ slots BinaryType output = slots FixedSizeBinaryType sample_fixed2.
Proof.
  repeat (split; [by vm_compute|]).
  destruct (fixed_to_offset_progression ascii_only type_name BinaryType no_options
              sample_fixed2 (preallocated_out binary 2) ctx0
              eq_refl eq_refl eq_refl eq_refl eq_refl ltac:(by vm_compute))
    as (output & Hrun & _ & _ & _ & Hslots).
  by exists output.
Defined.

(** ** Every conversion keeps the slots *)

Lemma offset_view_slots (O I : TypeClass) (input : ArraySpan)
    (out output : ArrayData) (h : N) :
  is_binary_view_like_type O = true ->
  is_base_binary_type I = true ->
  wf_offsets I input = true ->
  (0 < len input ->
   at_ 0 (ints_of (GetBuffer input 1)) (offset input + len input)
   <= numeric_limits_max int32_t) ->
  offset_view_post input out output h ->
  slots O output = slots I input.
Proof.
  intros HO HI Hwf Hfinal (_ & Hlen & Hoff & _ & H0 & _ & Hviews & H2).
  unfold slots. rewrite Hlen. apply map_ext_in. intros i Hi.
  apply list_elem_of_In, elem_of_seqZ in Hi.
  assert (Hv : IsValid output i = IsValid input i)
    by (unfold IsValid; by rewrite H0, Hoff).
  rewrite Hv. destruct (IsValid input i) eqn:Ev; [|done]. f_equal.
  unfold GetView. rewrite HI.
  replace (is_base_binary_type O) with false by (by destruct O).
  rewrite HO. unfold GetView_views. rewrite Hoff, Hviews, Ev by lia.
  apply (view_of_slot_resolve I); try done; try lia.
  intros Hlong. rewrite H2.
  destruct (forallb _ _) eqn:Hall; [|done].
  rewrite forallb_forall in Hall.
  specialize (Hall i ltac:(apply list_elem_of_In, elem_of_valid_indices; split; [lia|done])).
  apply Z.leb_le in Hall. lia.
Qed.

Lemma fixed_view_slots (O : TypeClass) (input : ArraySpan)
    (out output : ArrayData) (h : N) :
  is_binary_view_like_type O = true ->
  wf_fixed input = true ->
  (0 < len input ->
   (offset input + len input - 1) * byte_width (type input)
   <= numeric_limits_max int32_t) ->
  len out = len input ->
  fixed_view_post input out output h ->
  slots O output = slots FixedSizeBinaryType input.
Proof.
  intros HO Hwf Hfits Hlenout (_ & Hlen & Hoff & _ & H0 & _ & Hviews & H2).
  unfold slots. rewrite Hlen, Hlenout. apply map_ext_in. intros i Hi.
  apply list_elem_of_In, elem_of_seqZ in Hi.
  assert (Hv : IsValid output i = IsValid input i)
    by (unfold IsValid; by rewrite H0, Hoff).
  rewrite Hv. destruct (IsValid input i) eqn:Ev; [|done]. f_equal.
  unfold GetView. cbn [is_base_binary_type is_binary_view_like_type].
  replace (is_base_binary_type O) with false by (by destruct O).
  rewrite HO. unfold GetView_views. rewrite Hoff, Hviews by lia.
  apply view_of_fixed_slot_resolve; try done; try lia.
  intros Hlong. rewrite H2. by rewrite (proj2 (Z.leb_gt _ _)) by done.
Qed.

Lemma add_trace_trace (ctx : KernelContext) (calls : list Call) :
  trace (add_trace ctx calls) = trace ctx ++ calls.
Proof. reflexivity. Qed.

Section KeepsSlots.

Variable ValidateUTF8Inline : list byte -> bool.
Variable ToString : DataType -> string.
Variables (options : CastOptions) (input : ArraySpan) (out : ArrayData).
Variable ctx : KernelContext.

Lemma keeps_slots_offset_offset (O I : TypeClass) :
  is_base_binary_type I = true -> is_base_binary_type O = true ->
  wf_input I input = true ->
  within_limits O I options input = true ->
  guard_ok ValidateUTF8Inline O I options (slots I input) = true ->
  keeps_slots O I options input ctx
    (BinaryToBinaryCastExec ValidateUTF8Inline ToString O I options input out ctx).
Proof.
  intros HI HO Hwf Hlim Hg. rewrite Exec_offset_offset by done.
  unfold wf_input in Hwf. rewrite HI in Hwf.
  pose proof (guard_ok_run _ _ _ _ input ctx Hg) as Hguard.
  assert (Hcheck : match offset_type I, offset_type O with
                   | int64_t, int32_t => true
                   | _, _ => false
                   end
                   && (at_ 0 (ints_of (GetBuffer input 1)) (offset input + len input)
                       >? numeric_limits_max int32_t) = false).
  { apply negb_true_iff. by destruct I, O. }
  destruct (offset_offset_run ValidateUTF8Inline ToString O I options input out
              HI HO Hwf ctx _ Hguard Hcheck)
    as (output & ctx2 & Hrun & Htr & _ & Hlen & _ & _ & _ & _ & Hoffs & Hslots).
  exists output, ctx2. split; [done|]. split; [by rewrite Htr|].
  split; [|done].
  clear - Hrun Hguard.
  unfold BinaryToBinaryCastExec_offset_offset, ZeroCopyCastExec,
    CastBinaryToBinaryOffsets, CastBinaryToBinaryOffsets_up,
    CastBinaryToBinaryOffsets_down, CastBinaryToBinaryOffsets_same in Hrun.
  monad_unfold. rewrite Hguard in Hrun.
  destruct (offset_type I), (offset_type O);
    repeat match type of Hrun with
           | context [if ?c then _ else _] => destruct c
           end;
    injection Hrun as _ <-; simpl; lia.
Qed.

Lemma keeps_slots_offset_view (O I : TypeClass) :
  is_base_binary_type I = true -> is_binary_view_like_type O = true ->
  wf_input I input = true ->
  within_limits O I options input = true ->
  guard_ok ValidateUTF8Inline O I options (slots I input) = true ->
  keeps_slots O I options input ctx
    (BinaryToBinaryCastExec ValidateUTF8Inline ToString O I options input out ctx).
Proof.
  intros HI HO Hwf Hlim Hg. rewrite Exec_offset_view by done.
  unfold wf_input in Hwf. rewrite HI in Hwf.
  pose proof (guard_ok_run _ _ _ _ input ctx Hg) as Hguard.
  assert (Hcheck : (sizeof (offset_type I) >? 4) && (offset input + len input >? 0)
            && (at_ 0 (ints_of (GetBuffer input 1)) (offset input + len input)
                >? numeric_limits_max int32_t) = false).
  { apply negb_true_iff. by destruct I, O. }
  pose proof (offset_view_check_final I input Hwf Hcheck) as Hfinal.
  destruct (offset_view_run ValidateUTF8Inline ToString I input Hwf Hfinal
              O options out ctx _ Hguard Hcheck) as (output & Hrun & Hpost).
  exists output, (add_allocations (add_trace ctx (guard_calls O I options (slots I input))) 1).
  split; [done|]. split; [done|]. split; [simpl; lia|].
  split; [by destruct Hpost as (_ & ? & _)|].
  by apply (offset_view_slots O I input out output _ HO HI Hwf Hfinal Hpost).
Qed.

Lemma keeps_slots_view_offset (O I : TypeClass) :
  is_binary_view_like_type I = true -> is_base_binary_type O = true ->
  wf_input I input = true ->
  output_ready O I options input out = true ->
  within_limits O I options input = true ->
  guard_ok ValidateUTF8Inline O I options (slots I input) = true ->
  keeps_slots O I options input ctx
    (BinaryToBinaryCastExec ValidateUTF8Inline ToString O I options input out ctx).
Proof.
  intros HI HO Hwf Hready Hlim Hg. rewrite Exec_view_offset by done.
  assert (Hwfv : wf_views input = true) by (by destruct I).
  assert (Hprep : prepared_output out = true) by (by destruct I, O).
  assert (Hfit : total_bytes (slots I input) <= numeric_limits_max (offset_type O)).
  { apply Z.leb_le. by destruct I, O. }
  pose proof (guard_ok_run _ _ _ _ input ctx Hg) as Hguard.
  destruct (view_offset_run ValidateUTF8Inline O I options input out ctx _
              HO Hwfv Hprep Hfit Hguard)
    as (output & ctx2 & Hrun & Htr & _ & Hlen & _ & _ & _ & _ & _ & Hslots).
  exists output, ctx2. split; [done|]. split; [by rewrite Htr|].
  split; [|done].
  clear - Hrun Hguard Hwfv.
  unfold wf_views in Hwfv. apply andb_prop in Hwfv as [_ Hbm].
  destruct (GetOrCopyNullBitmapBuffer_run input
              (add_trace ctx (guard_calls O I options (slots I input))) Hbm)
    as (b0 & ctxb & Hb0 & _ & Hpool & _).
  unfold BinaryToBinaryCastExec_view_offset in Hrun. monad_unfold.
  rewrite Hguard, Hb0 in Hrun.
  destruct (VisitArraySpanInline _ _ _ _ _ ctxb) as [[st|] ctxv] eqn:Ev; [|done].
  injection Hrun as _ <-. cbn [memory_pool].
  assert (memory_pool ctxv = memory_pool ctxb); [|simpl in *; lia].
  clear - Ev. rewrite VisitArraySpanInline_slots in Ev.
  revert Ev. generalize ([0], @nil byte). generalize (slots I input).
  induction l as [|[v|] l IH]; intros st0 Ev.
  - by injection Ev as _ <-.
  - rewrite visit_slots_cons_some in Ev. monad_unfold. by apply IH in Ev.
  - rewrite visit_slots_cons_none in Ev. monad_unfold. by apply IH in Ev.
Qed.

Lemma keeps_slots_view_view (O I : TypeClass) :
  is_binary_view_like_type I = true -> is_binary_view_like_type O = true ->
  guard_ok ValidateUTF8Inline O I options (slots I input) = true ->
  keeps_slots O I options input ctx
    (BinaryToBinaryCastExec ValidateUTF8Inline ToString O I options input out ctx).
Proof.
  intros HI HO Hg. rewrite Exec_view_view by done.
  pose proof (guard_ok_run _ _ _ _ input ctx Hg) as Hguard.
  unfold BinaryToBinaryCastExec_view_view, ZeroCopyCastExec. monad_unfold.
  rewrite Hguard. eexists _, _. split; [reflexivity|].
  split; [done|]. split; [simpl; lia|]. split; [done|].
  unfold slots, GetView. cbn [len].
  replace (is_base_binary_type O) with false by (by destruct O).
  replace (is_base_binary_type I) with false by (by destruct I).
  by rewrite HI, HO.
Qed.

Lemma keeps_slots_fixed_view (O : TypeClass) :
  is_binary_view_like_type O = true ->
  wf_input FixedSizeBinaryType input = true ->
  output_ready O FixedSizeBinaryType options input out = true ->
  within_limits O FixedSizeBinaryType options input = true ->
  guard_ok ValidateUTF8Inline O FixedSizeBinaryType options
    (slots FixedSizeBinaryType input) = true ->
  keeps_slots O FixedSizeBinaryType options input ctx
    (BinaryToBinaryCastExec ValidateUTF8Inline ToString O FixedSizeBinaryType
       options input out ctx).
Proof.
  intros HO Hwf Hready Hlim Hg. rewrite Exec_fixed_view by done.
  change (wf_fixed input = true) in Hwf.
  pose proof (guard_ok_run _ _ _ _ input ctx Hg) as Hguard.
  assert (Hlenout : len out = len input) by (apply Z.eqb_eq; by destruct O).
  assert (Hcheck : (offset input + len input >? 0)
            && ((offset input + len input - 1) * byte_width (type input)
                >? numeric_limits_max int32_t) = false).
  { apply negb_true_iff. by destruct O. }
  assert (Hfits : 0 < len input ->
            (offset input + len input - 1) * byte_width (type input)
            <= numeric_limits_max int32_t).
  { destruct (wf_fixed_elim input Hwf) as (Ho & _).
    intros Hlen. apply andb_false_iff in Hcheck as [Hc|Hc]; lia. }
  destruct (fixed_view_run ValidateUTF8Inline ToString O _ options input out
              ctx _ Hwf Hguard Hcheck) as (output & Hrun & Hpost).
  exists output, (add_allocations (add_trace ctx (guard_calls O FixedSizeBinaryType
                                     options (slots FixedSizeBinaryType input))) 1).
  split; [done|]. split; [done|]. split; [simpl; lia|].
  split; [destruct Hpost as (_ & ? & _); congruence|].
  by apply (fixed_view_slots O input out output _ HO Hwf Hfits Hlenout Hpost).
Qed.

Lemma keeps_slots_fixed_offset (O : TypeClass) :
  is_base_binary_type O = true ->
  wf_input FixedSizeBinaryType input = true ->
  output_ready O FixedSizeBinaryType options input out = true ->
  within_limits O FixedSizeBinaryType options input = true ->
  guard_ok ValidateUTF8Inline O FixedSizeBinaryType options
    (slots FixedSizeBinaryType input) = true ->
  keeps_slots O FixedSizeBinaryType options input ctx
    (BinaryToBinaryCastExec ValidateUTF8Inline ToString O FixedSizeBinaryType
       options input out ctx).
Proof.
  intros HO Hwf Hready Hlim Hg. rewrite Exec_fixed_offset by done.
  change (wf_fixed input = true) in Hwf.
  pose proof (guard_ok_run _ _ _ _ input ctx Hg) as Hguard.
  assert (Hprep : preallocated_output out (len input) = true) by (by destruct O).
  assert (Hfit : (offset input + len input) * byte_width (type input)
                 <= numeric_limits_max (offset_type O)).
  { apply Z.leb_le. by destruct O. }
  destruct (fixed_offset_run ValidateUTF8Inline ToString O options input out
              HO Hwf ctx _ Hprep Hguard Hfit)
    as (output & ctx2 & Hrun & Htr & Hpool & _ & Hlen & _ & _ & _ & _ & _ & _ & Hslots).
  exists output, ctx2. split; [done|]. split; [by rewrite Htr|].
  split; [simpl in Hpool; lia|done].
Qed.

Lemma keeps_slots_fixed_fixed :
  output_ready FixedSizeBinaryType FixedSizeBinaryType options input out = true ->
  within_limits FixedSizeBinaryType FixedSizeBinaryType options input = true ->
  keeps_slots FixedSizeBinaryType FixedSizeBinaryType options input ctx
    (BinaryToBinaryCastExec ValidateUTF8Inline ToString FixedSizeBinaryType
       FixedSizeBinaryType options input out ctx).
Proof.
  intros Hready Hlim. cbn [output_ready within_limits] in Hready, Hlim.
  apply Z.eqb_eq in Hready, Hlim.
  cbn [BinaryToBinaryCastExec]. unfold BinaryToBinaryCastExec_fixed_fixed.
  rewrite (proj2 (Z.eqb_eq _ _) Hlim). cbn [negb].
  unfold ZeroCopyCastExec. monad_unfold.
  eexists _, _. split; [reflexivity|].
  split; [by rewrite app_nil_r|]. split; [lia|]. split; [done|].
  unfold slots, GetView, GetView_fixed. cbn [len type offset GetBuffer buffers
    is_base_binary_type is_binary_view_like_type].
  by rewrite Hready, <- Hlim.
Qed.

Lemma keeps_slots_to_fixed (I : TypeClass) :
  is_base_binary_type I || is_binary_view_like_type I = true ->
  wf_input I input = true ->
  within_limits FixedSizeBinaryType I options input = true ->
  keeps_slots FixedSizeBinaryType I options input ctx
    (BinaryToBinaryCastExec ValidateUTF8Inline ToString FixedSizeBinaryType I
       options input out ctx).
Proof.
  intros HI Hwf Hlim. rewrite Exec_to_fixed by done.
  assert (Hl : forallb (width_ok (byte_width (to_type options))) (slots I input)
               && (0 <=? byte_width (to_type options)) = true) by (by destruct I).
  apply andb_prop in Hl as [Hall HW]. apply Z.leb_le in HW.
  assert (Hlen : 0 <= len input).
  { destruct I; try discriminate; unfold wf_input in Hwf; simpl in Hwf.
    1-4: by apply wf_offsets_elim in Hwf as (_ & ? & _).
    all: unfold wf_views in Hwf; apply andb_prop in Hwf as [Hwf _];
      apply andb_prop in Hwf as [_ Hwf]; lia. }
  destruct (to_fixed_success ToString I options input out ctx Hall HW)
    as (output & Hrun & _ & Hlen' & Hslots & _).
  exists output, (add_allocations ctx 2). split; [done|].
  split; [|split; [simpl; lia|split; [|done]]].
  - unfold guard_calls, must_validate. cbn [is_utf8]. rewrite andb_false_r.
    cbn [andb]. by rewrite app_nil_r.
  - rewrite Hlen', length_slots. lia.
Qed.

(** A well-formed source handed a ready output, within the size limits of
    its conversion and past the guard, is converted keeping every slot. *)
Lemma cast_keeps_slots (O I : TypeClass) :
  wf_input I input = true ->
  output_ready O I options input out = true ->
  within_limits O I options input = true ->
  guard_ok ValidateUTF8Inline O I options (slots I input) = true ->
  keeps_slots O I options input ctx
    (BinaryToBinaryCastExec ValidateUTF8Inline ToString O I options input out ctx).
Proof.
  intros Hwf Hready Hlim Hg.
  destruct I eqn:EI; destruct O eqn:EO;
    first
      [ by apply keeps_slots_offset_offset
      | by apply keeps_slots_offset_view
      | by apply keeps_slots_view_offset
      | by apply keeps_slots_view_view
      | by apply keeps_slots_fixed_view
      | by apply keeps_slots_fixed_offset
      | by apply keeps_slots_fixed_fixed
      | by apply keeps_slots_to_fixed ].
Qed.

End KeepsSlots.

(** ** Round trip through the view layout *)

Lemma total_bytes_app (l1 l2 : list (option (list byte))) :
  total_bytes (l1 ++ l2) = total_bytes l1 + total_bytes l2.
Proof.
  induction l1 as [|o l1 IH]; [unfold total_bytes; simpl; lia|].
  rewrite <- app_comm_cons, !total_bytes_cons, IH. lia.
Qed.

Lemma total_bytes_offsets (I : TypeClass) (input : ArraySpan) :
  is_base_binary_type I = true ->
  wf_offsets I input = true ->
  total_bytes (slots I input)
  <= at_ 0 (ints_of (GetBuffer input 1)) (offset input + len input).
Proof.
  intros HI Hwf.
  pose proof (wf_offsets_elim I input Hwf) as (Ho & Hl & _ & H0 & Hmono & _).
  assert (H : forall k : nat, Z.of_nat k <= len input ->
            total_bytes (map (fun i => if IsValid input i
                                       then Some (GetView I input i) else None)
                             (seqZ 0 (Z.of_nat k)))
            <= at_ 0 (ints_of (GetBuffer input 1)) (offset input + Z.of_nat k)
               - at_ 0 (ints_of (GetBuffer input 1)) (offset input)).
  { induction k as [|k IH]; intros Hk.
    - simpl. rewrite Z.add_0_r. unfold total_bytes. simpl. lia.
    - replace (Z.of_nat (S k)) with (Z.of_nat k + 1) by lia.
      rewrite seqZ_snoc by lia. rewrite map_app, total_bytes_app.
      specialize (IH ltac:(lia)). specialize (Hmono (Z.of_nat k) ltac:(lia)).
      cbn [map]. rewrite total_bytes_cons. unfold total_bytes at 2. cbn [non_null omap concat length].
      rewrite Z.add_0_l.
      assert (Z.of_nat (length (default [] (if IsValid input (Z.of_nat k)
                then Some (GetView I input (Z.of_nat k)) else None)))
              <= at_ 0 (ints_of (GetBuffer input 1)) (offset input + Z.of_nat k + 1)
                 - at_ 0 (ints_of (GetBuffer input 1)) (offset input + Z.of_nat k)).
      { destruct (IsValid input (Z.of_nat k)); [|simpl; lia].
        unfold GetView. rewrite HI. unfold GetView_offsets, string_view.
        cbn [default id]. rewrite length_take. lia. }
      replace (offset input + (Z.of_nat k + 1)) with (offset input + Z.of_nat k + 1) by lia.
      change (Z.of_nat (length (concat (@non_null (list byte) [])))) with 0. lia. }
  specialize (H (Z.to_nat (len input)) ltac:(lia)).
  rewrite Z2Nat.id in H by lia. unfold slots. lia.
Qed.

(** C2, as amended: for a well-formed offset-layout array, of any length
    [N], whose UTF-8 guards pass. When the conversion to views is within
    its capacity check (always so for 32-bit offsets and for an empty
    window; for 64-bit offsets when the last offset of the window is at
    most the 32-bit maximum), the array is converted to views and back to
    the same offset layout with every slot, null or not, exactly as it was,
    in the view array and in the array that comes back. Otherwise the
    conversion to views is refused with a capacity error, and there is
    nothing to convert back. *)
Theorem offset_view_offset_roundtrip
    (ValidateUTF8Inline : list byte -> bool) (ToString : DataType -> string)
    (I V : TypeClass) (options : CastOptions)
    (input : ArraySpan) (out1 out2 : ArrayData) (ctx : KernelContext) :
  is_base_binary_type I = true ->
  is_binary_view_like_type V = true ->
  wf_offsets I input = true ->
  prepared_output out2 = true ->
  guard_ok ValidateUTF8Inline V I options (slots I input) = true ->
  guard_ok ValidateUTF8Inline I V options (slots I input) = true ->
  let forth :=
    BinaryToBinaryCastExec ValidateUTF8Inline ToString V I options input out1 ctx in
  (within_limits V I options input = true ->
   exists viewed ctx1 restored ctx2,
     forth = (Ok viewed, ctx1)
     /\ len viewed = len input
     /\ slots V viewed = slots I input
     /\ BinaryToBinaryCastExec ValidateUTF8Inline ToString I V options viewed
          out2 ctx1
        = (Ok restored, ctx2)
     /\ len restored = len input
     /\ slots I restored = slots I input)
  /\ (within_limits V I options input = false ->
      exists ctx1,
        forth = (Err CapacityError
                   (failed_casting ToString (type input) (type out1)
                      ": input array too large for efficient conversion."),
                 ctx1)).
Proof.
  intros HI HV Hwf Hout2 Hg1 Hg2 forth. unfold forth.
  pose proof (wf_offsets_elim I input Hwf) as (Ho & Hl & _ & _ & _ & _ & Hmax).
  pose proof (guard_ok_run _ _ _ _ input ctx Hg1) as Hguard.
  assert (Hlimits : within_limits V I options input
            = negb ((sizeof (offset_type I) >? 4) && (offset input + len input >? 0)
                    && (at_ 0 (ints_of (GetBuffer input 1))
                          (offset input + len input)
                        >? numeric_limits_max int32_t)))
    by (by destruct I, V).
  rewrite Hlimits. rewrite Exec_offset_view by done. split.
  - intros Hlim. apply negb_true_iff in Hlim. rename Hlim into Hcheck.
    (* to views *)
    pose proof (offset_view_check_final I input Hwf Hcheck) as Hfinal.
    destruct (offset_view_run ValidateUTF8Inline ToString I input Hwf Hfinal
                V options out1 ctx _ Hguard Hcheck) as (viewed & Hrun1 & Hpost).
    pose proof (offset_view_slots V I input out1 viewed _ HV HI Hwf Hfinal Hpost)
      as Hs1.
    destruct Hpost as (_ & Hlen1 & Hoff1 & _ & Hbuf0 & _).
    (* and back *)
    assert (Hwfv : wf_input V viewed = true).
    { replace (wf_input V viewed) with (wf_views viewed) by (by destruct V).
      unfold wf_views, bitmap_ok. rewrite Hlen1, Hoff1, Hbuf0.
      unfold wf_offsets in Hwf. repeat (apply andb_prop in Hwf as [Hwf ?]).
      repeat (apply andb_true_intro; split); try done; lia. }
    assert (Hready : output_ready I V options viewed out2 = true)
      by (by destruct I, V).
    assert (Hlim2 : within_limits I V options viewed = true).
    { replace (within_limits I V options viewed)
        with (total_bytes (slots V viewed) <=? numeric_limits_max (offset_type I))
        by (by destruct I, V).
      rewrite Hs1. apply Z.leb_le.
      pose proof (total_bytes_offsets I input HI Hwf). lia. }
    rewrite <- Hs1 in Hg2.
    destruct (cast_keeps_slots ValidateUTF8Inline ToString options viewed out2
                (add_allocations
                   (add_trace ctx (guard_calls V I options (slots I input))) 1)
                I V Hwfv Hready Hlim2 Hg2)
      as (restored & ctx2 & Hrun2 & _ & _ & Hlen2 & Hs2).
    exists viewed,
      (add_allocations (add_trace ctx (guard_calls V I options (slots I input))) 1),
      restored, ctx2.
    split; [exact Hrun1|]. split; [exact Hlen1|]. split; [exact Hs1|].
    split; [exact Hrun2|]. split; [congruence|]. by rewrite Hs2.
  - intros Hlim. apply negb_false_iff in Hlim.
    eexists.
    exact (offset_view_run_overflow ValidateUTF8Inline ToString I input
             V options out1 ctx _ Hguard Hlim).
Qed.

Lemma offset_view_offset_roundtrip_witness :
  is_base_binary_type StringType = true
  /\ is_binary_view_like_type StringViewType = true
  /\ wf_offsets StringType sample_sliced_strings = true
  /\ prepared_output (sample_out utf8 4) = true
  /\ guard_ok ascii_only StringViewType StringType no_options
       (slots StringType sample_sliced_strings) = true
  /\ guard_ok ascii_only StringType StringViewType no_options
       (slots StringType sample_sliced_strings) = true
  /\ within_limits StringViewType StringType no_options sample_sliced_strings = true
  /\ exists viewed ctx1 restored ctx2,
       BinaryToBinaryCastExec ascii_only type_name StringViewType StringType
         no_options sample_sliced_strings (sample_out utf8_view 4) ctx0
       = (Ok viewed, ctx1)
       /\ len viewed = len sample_sliced_strings
       /\ slots StringViewType viewed = slots StringType sample_sliced_strings
       /\ BinaryToBinaryCastExec ascii_only type_name StringType StringViewType
            no_options viewed (sample_out utf8 4) ctx1
          = (Ok restored, ctx2)
       /\ len restored = len sample_sliced_strings
       /\ slots StringType restored = slots StringType sample_sliced_strings.
Proof.
  repeat (split; [by vm_compute|]).
  exact (proj1 (offset_view_offset_roundtrip ascii_only type_name StringType
                  StringViewType no_options sample_sliced_strings
                  (sample_out utf8_view 4) (sample_out utf8 4) ctx0
                  eq_refl eq_refl eq_refl eq_refl eq_refl eq_refl)
           eq_refl).
Defined.

(** C2 as stated fails: a well-formed 64-bit-offset array, one empty slot
    at position [2^31] of its data buffer, past its guard, is refused by
    the conversion to views with a capacity error, so no array comes
    back. *)
Lemma roundtrip_refused_beyond_int32 :
  wf_offsets LargeBinaryType (empty_slot_at 2147483648) = true
  /\ guard_ok ascii_only BinaryViewType LargeBinaryType no_options
       (slots LargeBinaryType (empty_slot_at 2147483648)) = true
  /\ run (BinaryToBinaryCastExec ascii_only type_name BinaryViewType
            LargeBinaryType no_options (empty_slot_at 2147483648)
            (sample_out binary_view 1)) ctx0
     = Err CapacityError
         "Failed casting from large_binary to binary_view: input array too large for efficient conversion."
  /\ ~ exists viewed ctx1,
        BinaryToBinaryCastExec ascii_only type_name BinaryViewType
          LargeBinaryType no_options (empty_slot_at 2147483648)
          (sample_out binary_view 1) ctx0
        = (Ok viewed, ctx1).
Proof.
  assert (Hwf : wf_offsets LargeBinaryType (empty_slot_at 2147483648) = true).
  { unfold wf_offsets, bitmap_ok, GetBuffer.
    cbn [empty_slot_at type len offset buffers lookup list_lookup default
         ints_of bytes_of contents id].
    rewrite length_replicate, Z2Nat.id by lia. reflexivity. }
  assert (Hrun :
    BinaryToBinaryCastExec ascii_only type_name BinaryViewType
      LargeBinaryType no_options (empty_slot_at 2147483648)
      (sample_out binary_view 1) ctx0
    = (Err CapacityError
         "Failed casting from large_binary to binary_view: input array too large for efficient conversion.",
       add_allocations ctx0 1)).
  { exact (offset_view_run_overflow ascii_only type_name LargeBinaryType
             (empty_slot_at 2147483648) BinaryViewType no_options
             (sample_out binary_view 1) ctx0 ctx0 eq_refl eq_refl). }
  split; [exact Hwf|]. split; [reflexivity|].
  split; [unfold run; by rewrite Hrun|].
  intros (viewed & ctx1 & E). rewrite Hrun in E. discriminate.
Qed.

(** The round trip computed on the sliced sample: a long value (stored by
    reference), a null, an empty value and a short one. *)
Example roundtrip_sliced_strings :
  exists viewed restored,
    run (BinaryToBinaryCastExec ascii_only type_name StringViewType StringType
           no_options sample_sliced_strings (sample_out utf8_view 4)) ctx0
    = Ok viewed
    /\ map is_inline (views_of_array viewed) = [false; true; true; true]
    /\ run (BinaryToBinaryCastExec ascii_only type_name StringType StringViewType
              no_options viewed (sample_out utf8 4)) ctx0
       = Ok restored
    /\ slots StringType restored
       = [Some (bytes_of_string "a long enough string"); None;
          Some []; Some (bytes_of_string "xy")]
    /\ offsets_of restored = [0; 20; 20; 20; 22].
Proof.
  eexists _, _. split; [reflexivity|]. split; [reflexivity|].
  split; [by vm_compute|]. split; by vm_compute.
Qed.

(** ** The UTF-8 gate *)

Lemma Exec_guard_error (ValidateUTF8Inline : list byte -> bool)
    (ToString : DataType -> string) (O I : TypeClass) (options : CastOptions)
    (input : ArraySpan) (out : ArrayData) (ctx ctx1 : KernelContext) c msg :
  negb (is_utf8 I) && is_utf8 O = true ->
  guard ValidateUTF8Inline O I options input ctx = (Err c msg, ctx1) ->
  BinaryToBinaryCastExec ValidateUTF8Inline ToString O I options input out ctx
  = (Err c msg, ctx1).
Proof.
  intros HIO Hguard.
  destruct I, O; try discriminate; cbn [BinaryToBinaryCastExec];
    unfold BinaryToBinaryCastExec_offset_offset, BinaryToBinaryCastExec_offset_view,
      BinaryToBinaryCastExec_view_offset, BinaryToBinaryCastExec_view_view,
      BinaryToBinaryCastExec_fixed_view, BinaryToBinaryCastExec_fixed_offset;
    rewrite ?fixed_offset_guard; monad_unfold; by rewrite Hguard.
Qed.

Lemma limits_with_allow (O I : TypeClass) (options : CastOptions)
    (input : ArraySpan) (out : ArrayData) (allow : bool) :
  within_limits O I (with_allow allow options) input = within_limits O I options input
  /\ output_ready O I (with_allow allow options) input out
     = output_ready O I options input out.
Proof. by destruct I, O. Qed.

(** C4: for a cast from a type that is not UTF-8 to one that is, with
    [allow_invalid_utf8 = false] the guard validates the non-null slots in
    order and the cast fails with [Invalid] at the first one that is not
    well-formed UTF-8, nulls being passed over; when all are well-formed
    every non-null slot has been validated and the cast goes on. With
    [allow_invalid_utf8 = true] nothing is validated, and the cast (of a
    well-formed source within the conversion's size limits) succeeds with
    the bytes of every slot unchanged. *)
Theorem utf8_gate
    (ValidateUTF8Inline : list byte -> bool) (ToString : DataType -> string)
    (O I : TypeClass) (options : CastOptions)
    (input : ArraySpan) (out : ArrayData) (ctx : KernelContext) :
  negb (is_utf8 I) && is_utf8 O = true ->
  let cast allow :=
    BinaryToBinaryCastExec ValidateUTF8Inline ToString O I
      (with_allow allow options) input out ctx in
  (forall pre v post,
     slots I input = pre ++ Some v :: post ->
     utf8_clean ValidateUTF8Inline pre = true ->
     ValidateUTF8Inline v = false ->
     cast false
     = (Err Invalid "Invalid UTF8 payload",
        add_trace ctx (map CallValidateUTF8 (non_null pre ++ [v]))))
  /\ (wf_input I input = true ->
      output_ready O I options input out = true ->
      within_limits O I options input = true ->
      (utf8_clean ValidateUTF8Inline (slots I input) = true ->
       exists output ctx',
         cast false = (Ok output, ctx')
         /\ trace ctx' = trace ctx ++ map CallValidateUTF8 (non_null (slots I input))
         /\ slots O output = slots I input)
      /\ (exists output ctx',
            cast true = (Ok output, ctx')
            /\ trace ctx' = trace ctx
            /\ slots O output = slots I input)).
Proof.
  intros HIO cast. split.
  - intros pre v post Hs Hpre Hv. unfold cast.
    apply Exec_guard_error; [done|].
    apply (guard_dirty _ _ _ _ _ pre v post); try done.
    unfold must_validate. by rewrite HIO.
  - intros Hwf Hready Hlim. split.
    + intros Hclean.
      destruct (limits_with_allow O I options input out false) as [E1 E2].
      destruct (cast_keeps_slots ValidateUTF8Inline ToString
                  (with_allow false options) input out ctx O I Hwf)
        as (output & ctx' & Hrun & Htr & _ & _ & Hslots).
      { by rewrite E2. }
      { by rewrite E1. }
      { unfold guard_ok. by rewrite Hclean, orb_true_r. }
      exists output, ctx'. split; [done|]. split; [|done].
      rewrite Htr. unfold guard_calls, must_validate. by rewrite HIO.
    + destruct (limits_with_allow O I options input out true) as [E1 E2].
      destruct (guard_allow ValidateUTF8Inline O I (with_allow true options)
                  (slots I input) eq_refl) as [Hg Hcalls].
      destruct (cast_keeps_slots ValidateUTF8Inline ToString
                  (with_allow true options) input out ctx O I Hwf)
        as (output & ctx' & Hrun & Htr & _ & _ & Hslots).
      { by rewrite E2. }
      { by rewrite E1. }
      { done. }
      exists output, ctx'. split; [done|]. split; [|done].
      by rewrite Htr, Hcalls, app_nil_r.
Qed.

(** The example of the specification: the bytes [FF FE] cast from binary to
    string are rejected with the check on. *)
Lemma utf8_gate_witness :
  negb (is_utf8 BinaryType) && is_utf8 StringType = true
  /\ slots BinaryType sample_not_utf8 = [None] ++ Some [xff; xfe] :: []
  /\ utf8_clean ascii_only [None] = true
  /\ ascii_only [xff; xfe] = false
  /\ BinaryToBinaryCastExec ascii_only type_name StringType BinaryType
       (with_allow false no_options) sample_not_utf8 (sample_out utf8 2) ctx0
     = (Err Invalid "Invalid UTF8 payload",
        add_trace ctx0 [CallValidateUTF8 [xff; xfe]]).
Proof.
  repeat (split; [by vm_compute|]).
  exact (proj1 (utf8_gate ascii_only type_name StringType BinaryType no_options
                  sample_not_utf8 (sample_out utf8 2) ctx0 eq_refl)
           [None] [xff; xfe] [] eq_refl eq_refl eq_refl).
Defined.

(** ... and accepted, bytes unchanged, with the check off. *)
Example utf8_gate_open :
  exists output,
    BinaryToBinaryCastExec ascii_only type_name StringType BinaryType
      (with_allow true no_options) sample_not_utf8 (sample_out utf8 2) ctx0
    = (Ok output, ctx0)
    /\ slots StringType output = [None; Some [xff; xfe]]
    /\ GetBuffer output 2 = GetBuffer sample_not_utf8 2.
Proof. eexists. repeat split; reflexivity. Qed.

(** ** The offset-layout builder *)

Lemma slot_starts_running (l : list (option (list byte))) :
  forall base,
    slot_starts base l ++ [base + total_bytes l] = base :: running_offsets base l.
Proof.
  induction l as [|o l IH]; intros base.
  - simpl. unfold total_bytes. simpl. by rewrite Z.add_0_r.
  - cbn [slot_starts running_offsets]. rewrite total_bytes_cons.
    rewrite <- app_comm_cons. f_equal. rewrite <- IH. f_equal. f_equal. lia.
Qed.

Lemma slots_of_layout (O : TypeClass) (t : list (option (list byte)))
    (ty : DataType) (n : Z) (b0 b1 b2 : Buffer) :
  is_base_binary_type O = true ->
  contents b0 = Bitmap (map is_valid_slot t) ->
  contents b1 = Ints (0 :: running_offsets 0 t) ->
  contents b2 = Bytes (concat (non_null t)) ->
  slots O {| type := ty; len := Z.of_nat (length t); offset := 0; null_count := n;
             buffers := [Some b0; Some b1; Some b2] |}
  = t.
Proof.
  intros HO Hb0 Hb1 Hb2. unfold slots. cbn [len].
  apply (map_seqZ_nth _ t None). intros i Hi.
  destruct b0 as [h0 c0], b1 as [h1 c1], b2 as [h2 c2]. simpl in Hb0, Hb1, Hb2.
  subst c0 c1 c2.
  unfold IsValid, GetView. rewrite HO.
  unfold GetView_offsets, GetBuffer, string_view, at_.
  cbn [buffers lookup list_lookup default id bits_of ints_of bytes_of offset contents].
  rewrite !Z.add_0_l, Nat2Z.id.
  replace (Z.to_nat (Z.of_nat i + 1)) with (S i) by lia.
  rewrite (nth_map_default _ _ None) by done.
  destruct (running_offsets_slot t 0 i ltac:(lia) Hi) as (Hlo & Hhi & Hbytes).
  cbv zeta in Hbytes. rewrite Z.sub_0_r in Hbytes. rewrite Hbytes.
  by destruct (nth i t None).
Qed.

Section BinaryBuilderVisit.

Context {V : Type}.
Variables (O : TypeClass) (call : V -> Call) (render : V -> list byte).
Variable valid_func : V -> BinaryBuilder -> M BinaryBuilder.
Variable null_func : BinaryBuilder -> M BinaryBuilder.

Hypothesis valid_func_spec : forall v b ctx,
  valid_func v b ctx
  = (Ok (BinaryBuilder_append_slot (offset_type O) true (render v) b),
     add_trace ctx [call v]).
Hypothesis null_func_spec : forall b ctx,
  null_func b ctx
  = (Ok (BinaryBuilder_append_slot (offset_type O) false [] b), ctx).

Lemma BinaryBuilder_visit (l : list (option V)) :
  forall b ctx,
    Z.of_nat (length (bb_data b)) + total_bytes (rendered render l)
      <= numeric_limits_max (offset_type O) ->
    visit_slots valid_func null_func l b ctx
    = (Ok {| bb_validity := bb_validity b ++ map is_valid_slot l;
             bb_offsets := bb_offsets b
                           ++ slot_starts (Z.of_nat (length (bb_data b)))
                                          (rendered render l);
             bb_data := bb_data b ++ concat (non_null (rendered render l)) |},
       add_trace ctx (map call (non_null l))).
Proof.
  induction l as [|[v|] l IH]; intros b ctx Hfit.
  - simpl. rewrite !app_nil_r, add_trace_nil. by destruct b.
  - unfold rendered in *. cbn [map option_map] in *.
    rewrite total_bytes_cons in Hfit. cbn [default id] in Hfit.
    pose proof (total_bytes_nonneg (map (option_map render) l)).
    rewrite visit_slots_cons_some, valid_func_spec.
    rewrite IH.
    2:{ cbn [BinaryBuilder_append_slot bb_data]. rewrite length_app. lia. }
    cbn [BinaryBuilder_append_slot bb_validity bb_offsets bb_data is_valid_slot
         slot_starts default id].
    rewrite non_null_cons_some. cbn [concat map].
    rewrite static_cast_nonneg_id by lia.
    rewrite length_app, Nat2Z.inj_add, add_trace_app.
    by rewrite <- !app_assoc.
  - unfold rendered in *. cbn [map option_map] in *.
    rewrite total_bytes_cons in Hfit. cbn [default length] in Hfit.
    pose proof (total_bytes_nonneg (map (option_map render) l)).
    rewrite visit_slots_cons_none, null_func_spec.
    rewrite IH.
    2:{ cbn [BinaryBuilder_append_slot bb_data]. rewrite app_nil_r. lia. }
    cbn [BinaryBuilder_append_slot bb_validity bb_offsets bb_data is_valid_slot
         slot_starts default length].
    rewrite non_null_cons_none. rewrite app_nil_r, Z.add_0_r.
    rewrite static_cast_nonneg_id by lia.
    by rewrite <- !app_assoc.
Qed.

End BinaryBuilderVisit.

Lemma length_rendered {V} (render : V -> list byte) (l : list (option V)) :
  length (rendered render l) = length l.
Proof. unfold rendered. by rewrite length_map. Qed.

Lemma is_valid_rendered {V} (render : V -> list byte) (l : list (option V)) :
  map is_valid_slot (rendered render l) = map is_valid_slot l.
Proof.
  unfold rendered. rewrite map_map. apply map_ext. by intros [v|].
Qed.

(** Finishing a builder that was filled from empty with the texts [t]. *)
Lemma BinaryBuilder_Finish_run (O : TypeClass) (t : list (option (list byte)))
    (validity : list bool) (ctx : KernelContext) :
  is_base_binary_type O = true ->
  validity = map is_valid_slot t ->
  total_bytes t <= numeric_limits_max (offset_type O) ->
  exists output,
    BinaryBuilder_Finish O {| bb_validity := validity;
                              bb_offsets := slot_starts 0 t;
                              bb_data := concat (non_null t) |} ctx
    = (Ok output, add_allocations ctx 3)
    /\ len output = Z.of_nat (length t)
    /\ offset output = 0
    /\ slots O output = t
    /\ offsets_of output = 0 :: running_offsets 0 t
    /\ bytes_of (GetBuffer output 2) = concat (non_null t).
Proof.
  intros HO -> Hfit. unfold BinaryBuilder_Finish. monad_unfold.
  cbn [bb_validity bb_offsets bb_data memory_pool trace].
  pose proof (total_bytes_nonneg t).
  change (Z.of_nat (length (concat (non_null t)))) with (total_bytes t).
  rewrite static_cast_nonneg_id by lia.
  pose proof (slot_starts_running t 0) as Hs. rewrite Z.add_0_l in Hs. rewrite Hs.
  eexists. split.
  { unfold add_allocations. cbn [memory_pool trace].
    replace (memory_pool ctx + 3)%N
      with (N.succ (N.succ (N.succ (memory_pool ctx)))) by lia.
    reflexivity. }
  cbn [len offset]. rewrite length_map.
  split; [done|]. split; [done|]. split.
  { by apply slots_of_layout. }
  split; [|done].
  unfold offsets_of, GetBuffer, at_.
  cbn [len offset buffers lookup list_lookup default id ints_of contents].
  apply (nth_ext _ _ 0 0).
  - rewrite length_map, length_seqZ. cbn [length]. rewrite length_running_offsets. lia.
  - intros n Hn. rewrite length_map, length_seqZ in Hn.
    pose proof (at_map_seqZ 0
      (fun i => nth (Z.to_nat (0 + i)) (0 :: running_offsets 0 t) 0)
      (Z.of_nat (length t) + 1) (Z.of_nat n) ltac:(lia)) as E.
    unfold at_ in E. rewrite Nat2Z.id in E. rewrite E.
    by rewrite Z.add_0_l, Nat2Z.id.
Qed.

(** ** The view-layout builder *)

Lemma length_built_views (l : list (option (list byte))) :
  forall base, length (built_views base l) = length l.
Proof.
  induction l as [|[v|] l IH]; intros base; cbn [built_views length]; [done| |].
  - destruct (_ <=? _); cbn [length]; by rewrite IH.
  - by rewrite IH.
Qed.

Lemma built_views_resolve (a : ArraySpan) (l : list (option (list byte))) :
  forall base prefix suffix,
    bytes_of (GetBuffer a 2) = prefix ++ view_heap l ++ suffix ->
    Z.of_nat (length prefix) = base ->
    base + Z.of_nat (length (view_heap l)) <= numeric_limits_max int32_t ->
    forall i v,
      nth i l None = Some v ->
      resolve_view a (nth i (built_views base l) zero_view) = v.
Proof.
  induction l as [|[w|] l IH]; intros base prefix suffix Hheap Hbase Hfit i v Hi.
  - by destruct i.
  - cbn [view_heap built_views] in *.
    destruct (Z.of_nat (length w) <=? kInlineSize) eqn:Hw.
    + apply Z.leb_le in Hw. destruct i as [|i]; cbn [nth] in *.
      * injection Hi as ->. rewrite resolve_set_inlined by lia.
        by rewrite Nat2Z.id, firstn_all.
      * by apply (IH base prefix suffix).
    + apply Z.leb_gt in Hw. unfold kInlineSize in Hw.
      rewrite length_app, Nat2Z.inj_add in Hfit.
      change (numeric_limits_max int32_t) with 2147483647 in Hfit.
      destruct i as [|i]; cbn [nth] in *.
      * injection Hi as ->.
        rewrite resolve_set_ref by (unfold kInlineSize; lia).
        unfold string_view. rewrite Hheap, <- Hbase, !Nat2Z.id.
        rewrite drop_app_length, <- app_assoc.
        by apply take_app_length.
      * apply (IH (base + Z.of_nat (length w)) (prefix ++ w) suffix); try done.
        -- by rewrite Hheap, <- !app_assoc.
        -- rewrite length_app. lia.
        -- change (numeric_limits_max int32_t) with 2147483647. lia.
  - cbn [view_heap built_views] in *.
    destruct i as [|i]; cbn [nth] in *; [done|].
    by apply (IH base prefix suffix).
Qed.

Lemma slots_of_views (O : TypeClass) (t : list (option (list byte)))
    (ty : DataType) (n : Z) (b0 b1 b2 : Buffer) :
  is_binary_view_like_type O = true ->
  Z.of_nat (length (view_heap t)) <= numeric_limits_max int32_t ->
  contents b0 = Bitmap (map is_valid_slot t) ->
  contents b1 = Views (built_views 0 t) ->
  contents b2 = Bytes (view_heap t) ->
  slots O {| type := ty; len := Z.of_nat (length t); offset := 0; null_count := n;
             buffers := [Some b0; Some b1; Some b2] |}
  = t.
Proof.
  intros HO Hfit Hb0 Hb1 Hb2. unfold slots. cbn [len].
  apply (map_seqZ_nth _ t None). intros i Hi.
  destruct b0 as [h0 c0], b1 as [h1 c1], b2 as [h2 c2]. simpl in Hb0, Hb1, Hb2.
  subst c0 c1 c2.
  unfold IsValid, GetView. rewrite HO.
  assert (is_base_binary_type O = false) as -> by (by destruct O).
  unfold GetView_views, at_.
  unfold GetBuffer at 1 2.
  cbn [buffers lookup list_lookup default id bits_of views_of offset contents].
  rewrite !Z.add_0_l, Nat2Z.id.
  rewrite (nth_map_default _ _ None) by done.
  destruct (nth i t None) as [v|] eqn:Hnth; [|done].
  cbn [is_valid_slot]. f_equal.
  apply (built_views_resolve _ t 0 [] []); try done.
  by rewrite app_nil_r.
Qed.

Section BinaryViewBuilderVisit.

Context {V : Type}.
Variables (call : V -> Call) (render : V -> list byte).
Variable valid_func : V -> BinaryViewBuilder -> M BinaryViewBuilder.
Variable null_func : BinaryViewBuilder -> M BinaryViewBuilder.

Hypothesis valid_func_spec : forall v b ctx,
  valid_func v b ctx
  = (Ok (BinaryViewBuilder_Append (render v) b), add_trace ctx [call v]).
Hypothesis null_func_spec : forall b ctx,
  null_func b ctx = (Ok (BinaryViewBuilder_AppendNull b), ctx).

Lemma BinaryViewBuilder_visit (l : list (option V)) :
  forall b ctx,
    Z.of_nat (length (bv_heap b))
      + Z.of_nat (length (view_heap (rendered render l)))
      <= numeric_limits_max int32_t ->
    visit_slots valid_func null_func l b ctx
    = (Ok {| bv_validity := bv_validity b ++ map is_valid_slot l;
             bv_views := bv_views b
                         ++ built_views (Z.of_nat (length (bv_heap b)))
                                        (rendered render l);
             bv_heap := bv_heap b ++ view_heap (rendered render l) |},
       add_trace ctx (map call (non_null l))).
Proof.
  induction l as [|[v|] l IH]; intros b ctx Hfit.
  - simpl. rewrite !app_nil_r, add_trace_nil. by destruct b.
  - unfold rendered in *. cbn [map option_map view_heap built_views] in *.
    rewrite visit_slots_cons_some, valid_func_spec.
    rewrite non_null_cons_some. cbn [map]. unfold BinaryViewBuilder_Append.
    destruct (Z.of_nat (length (render v)) <=? kInlineSize) eqn:Hv.
    + rewrite IH by done.
      cbn [bv_validity bv_views bv_heap is_valid_slot].
      rewrite add_trace_app. by rewrite <- !app_assoc.
    + rewrite length_app, Nat2Z.inj_add in Hfit.
      rewrite IH.
      2:{ cbn [bv_heap]. rewrite length_app. lia. }
      cbn [bv_validity bv_views bv_heap is_valid_slot].
      rewrite static_cast_nonneg_id
        by (change (numeric_limits_max int32_t) with 2147483647 in *; lia).
      rewrite length_app, Nat2Z.inj_add, add_trace_app.
      by rewrite <- !app_assoc.
  - unfold rendered in *. cbn [map option_map view_heap built_views] in *.
    rewrite visit_slots_cons_none, null_func_spec.
    rewrite IH by done.
    cbn [BinaryViewBuilder_AppendNull bv_validity bv_views bv_heap is_valid_slot].
    rewrite non_null_cons_none. by rewrite <- !app_assoc.
Qed.

End BinaryViewBuilderVisit.

Lemma BinaryViewBuilder_Finish_run (O : TypeClass) (t : list (option (list byte)))
    (validity : list bool) (ctx : KernelContext) :
  is_binary_view_like_type O = true ->
  validity = map is_valid_slot t ->
  Z.of_nat (length (view_heap t)) <= numeric_limits_max int32_t ->
  exists output,
    BinaryViewBuilder_Finish O {| bv_validity := validity;
                                  bv_views := built_views 0 t;
                                  bv_heap := view_heap t |} ctx
    = (Ok output, add_allocations ctx 3)
    /\ len output = Z.of_nat (length t)
    /\ offset output = 0
    /\ slots O output = t
    /\ views_of_array output = built_views 0 t
    /\ bytes_of (GetBuffer output 2) = view_heap t.
Proof.
  intros HO -> Hfit. unfold BinaryViewBuilder_Finish. monad_unfold.
  cbn [bv_validity bv_views bv_heap memory_pool trace].
  eexists. split.
  { unfold add_allocations. cbn [memory_pool trace].
    replace (memory_pool ctx + 3)%N
      with (N.succ (N.succ (N.succ (memory_pool ctx)))) by lia.
    reflexivity. }
  cbn [len offset]. rewrite length_map.
  split; [done|]. split; [done|]. split.
  { by apply slots_of_views. }
  split; [|done].
  unfold views_of_array, GetBuffer.
  cbn [len offset buffers lookup list_lookup default id views_of contents].
  rewrite <- (length_built_views t 0).
  apply (map_seqZ_nth _ _ zero_view). intros i Hi.
  unfold at_. by rewrite Z.add_0_l, Nat2Z.id.
Qed.

(** ** The renderers *)

Lemma text_layout_cases (O : TypeClass) :
  is_text_layout O = true ->
  (is_binary_view_like_type O = true /\ is_base_binary_type O = false)
  \/ (is_binary_view_like_type O = false /\ is_base_binary_type O = true).
Proof. destruct O; cbn; intros H; auto; discriminate. Qed.

Lemma render_finish_offsets {V} (O : TypeClass) (call : V -> Call)
    (render : V -> list byte)
    (valid_func : V -> BinaryBuilder -> M BinaryBuilder)
    (null_func : BinaryBuilder -> M BinaryBuilder)
    (l : list (option V)) (t : DataType) (ctx : KernelContext) :
  (forall v b ctx,
      valid_func v b ctx
      = (Ok (BinaryBuilder_append_slot (offset_type O) true (render v) b),
         add_trace ctx [call v])) ->
  (forall b ctx,
      null_func b ctx
      = (Ok (BinaryBuilder_append_slot (offset_type O) false [] b), ctx)) ->
  is_binary_view_like_type O = false ->
  is_base_binary_type O = true ->
  text_fits O (rendered render l) = true ->
  render_post O call render l ctx
    ((builder ← visit_slots valid_func null_func l
                  (Builder_new (BuilderType := BinaryBuilder_ops O) t);
      BinaryBuilder_Finish O builder) ctx).
Proof.
  intros Hv Hn HV HO Hfit. unfold render_post, text_layout, text_fits in *.
  rewrite HV in *. apply Z.leb_le in Hfit.
  unfold mbind, M_bind, bind.
  rewrite (BinaryBuilder_visit O call render valid_func null_func Hv Hn).
  2:{ cbn [Builder_new BinaryBuilder_ops bb_data length]. lia. }
  cbn [Builder_new BinaryBuilder_ops bb_validity bb_offsets bb_data length app].
  change (Z.of_nat 0) with 0.
  destruct (BinaryBuilder_Finish_run O (rendered render l) (map is_valid_slot l)
              (add_trace ctx (map call (non_null l))) HO
              (eq_sym (is_valid_rendered render l)) Hfit)
    as (output & Hrun & Hlen & Hoff & Hslots & Hoffs & Hdata).
  exists output. rewrite Hrun. rewrite length_rendered in Hlen. done.
Qed.

Lemma render_finish_views {V} (O : TypeClass) (call : V -> Call)
    (render : V -> list byte)
    (valid_func : V -> BinaryViewBuilder -> M BinaryViewBuilder)
    (null_func : BinaryViewBuilder -> M BinaryViewBuilder)
    (l : list (option V)) (t : DataType) (ctx : KernelContext) :
  (forall v b ctx,
      valid_func v b ctx
      = (Ok (BinaryViewBuilder_Append (render v) b), add_trace ctx [call v])) ->
  (forall b ctx,
      null_func b ctx = (Ok (BinaryViewBuilder_AppendNull b), ctx)) ->
  is_binary_view_like_type O = true ->
  text_fits O (rendered render l) = true ->
  render_post O call render l ctx
    ((builder ← visit_slots valid_func null_func l
                  (Builder_new (BuilderType := BinaryViewBuilder_ops O) t);
      BinaryViewBuilder_Finish O builder) ctx).
Proof.
  intros Hv Hn HV Hfit. unfold render_post, text_layout, text_fits in *.
  rewrite HV in *. apply Z.leb_le in Hfit.
  unfold mbind, M_bind, bind.
  rewrite (BinaryViewBuilder_visit call render valid_func null_func Hv Hn).
  2:{ cbn [Builder_new BinaryViewBuilder_ops bv_heap length]. lia. }
  cbn [Builder_new BinaryViewBuilder_ops bv_validity bv_views bv_heap length app].
  change (Z.of_nat 0) with 0.
  destruct (BinaryViewBuilder_Finish_run O (rendered render l)
              (map is_valid_slot l)
              (add_trace ctx (map call (non_null l))) HV
              (eq_sym (is_valid_rendered render l)) Hfit)
    as (output & Hrun & Hlen & Hoff & Hslots & Hviews & Hdata).
  exists output. rewrite Hrun. rewrite length_rendered in Hlen. done.
Qed.

Section Renderers.

Variable O : TypeClass.
Hypothesis HO : is_text_layout O = true.

Variable StringFormatter : DataType -> Z -> list byte.

Lemma Numeric_run (input : ArraySpan) ctx :
  text_fits O (rendered (StringFormatter (type input)) (value_slots input)) = true ->
  render_post O CallFormat (StringFormatter (type input)) (value_slots input) ctx
    (NumericToString O StringFormatter input ctx).
Proof.
  intros Hfit. unfold NumericToString, NumericToStringCastFunctor_Exec.
  destruct (text_layout_cases O HO) as [[HV HB]|[HV HB]]; rewrite HV;
    unfold mbind, M_bind, bind; rewrite VisitValuesInline_slots.
  - by apply (render_finish_views O CallFormat (StringFormatter (type input))).
  - by apply (render_finish_offsets O CallFormat (StringFormatter (type input))).
Qed.

Lemma Temporal_run (input : ArraySpan) ctx :
  text_fits O (rendered (StringFormatter (type input)) (value_slots input)) = true ->
  render_post O CallFormat (StringFormatter (type input)) (value_slots input) ctx
    (TemporalToString O StringFormatter input ctx).
Proof. apply Numeric_run. Qed.

Lemma Decimal_run (input : ArraySpan) ctx :
  let render bs := StringFormatter (type input) (decode_signed bs) in
  let l := slots FixedSizeBinaryType input in
  text_fits O (rendered render l) = true ->
  render_post O (fun bs => CallFormat (decode_signed bs)) render l ctx
    (DecimalToString O StringFormatter input ctx).
Proof.
  intros render l Hfit. unfold DecimalToString, DecimalToStringCastFunctor_Exec.
  destruct (text_layout_cases O HO) as [[HV HB]|[HV HB]]; rewrite HV;
    unfold mbind, M_bind, bind; rewrite VisitArraySpanInline_slots.
  - by apply (render_finish_views O (fun bs => CallFormat (decode_signed bs)) render).
  - by apply (render_finish_offsets O (fun bs => CallFormat (decode_signed bs)) render).
Qed.

End Renderers.

(** ** Timestamps to text *)

Ltac app_normal :=
  rewrite ?app_nil_r;
  repeat first [rewrite <- app_assoc | rewrite <- app_comm_cons].

Lemma format_civil_offset (u : TimeUnit) (c : civil_time) :
  format_civil u c kFormatString
  = civil_text u c ++ offset_text (c_utc_offset c).
Proof.
  unfold civil_text, kFormatString.
  cbn [format_civil Ascii.eqb Bool.eqb directive byte_of_ascii].
  by app_normal.
Qed.

Lemma format_civil_utc (u : TimeUnit) (c : civil_time) :
  format_civil u c kUtcFormatString = civil_text u c ++ [byte_of_ascii "Z"].
Proof.
  unfold civil_text, kUtcFormatString.
  cbn [format_civil Ascii.eqb Bool.eqb directive byte_of_ascii].
  by app_normal.
Qed.

Lemma TimestampFormatter_zoned_text (u : TimeUnit) (timezone : string)
    (tz : time_zone) (v : Z) :
  TimestampFormatter_zoned u
    (if String.eqb timezone "UTC" then kUtcFormatString else kFormatString) tz v
  = Ok (zoned_timestamp_text u timezone tz v).
Proof.
  unfold TimestampFormatter_zoned, zoned_timestamp_text. f_equal.
  destruct (String.eqb timezone "UTC").
  - apply format_civil_utc.
  - apply format_civil_offset.
Qed.

Lemma zone_lookups_app (l1 l2 : list Call) :
  zone_lookups (l1 ++ l2) = (zone_lookups l1 + zone_lookups l2)%nat.
Proof. unfold zone_lookups. by rewrite List.filter_app, length_app. Qed.

Lemma zone_lookups_cons_zone (name : string) (l : list Call) :
  zone_lookups (CallLocateZone name :: l) = S (zone_lookups l).
Proof. reflexivity. Qed.

Lemma zone_lookups_format (l : list Z) : zone_lookups (map CallFormat l) = 0%nat.
Proof. induction l as [|v l IH]; [done|]. exact IH. Qed.

Lemma zone_lookups_format_zoned (l : list Z) :
  zone_lookups (map CallFormatZoned l) = 0%nat.
Proof. induction l as [|v l IH]; [done|]. exact IH. Qed.

Section TimestampToText.

Variable O : TypeClass.
Hypothesis HO : is_text_layout O = true.
Variable LocateZone : string -> Result time_zone.

Lemma Timestamp_naive_run (input : ArraySpan) ctx :
  GetInputTimezone (type input) = EmptyString ->
  text_fits O (rendered (naive_timestamp_text (unit_of (type input)))
                        (value_slots input)) = true ->
  render_post O CallFormat (naive_timestamp_text (unit_of (type input)))
    (value_slots input) ctx (TimestampToString O LocateZone input ctx).
Proof.
  intros Htz Hfit. unfold TimestampToString, TimestampToStringCastFunctor_Exec.
  rewrite Htz. cbn [String.eqb].
  destruct (text_layout_cases O HO) as [[HV HB]|[HV HB]]; rewrite HV;
    unfold mbind, M_bind, bind;
    cbn [Reserve ReserveData BinaryBuilder_ops BinaryViewBuilder_ops];
    unfold mret, M_ret, ret; rewrite VisitValuesInline_slots.
  - by apply (render_finish_views O CallFormat
                (naive_timestamp_text (unit_of (type input)))).
  - by apply (render_finish_offsets O CallFormat
                (naive_timestamp_text (unit_of (type input)))).
Qed.

Lemma ConvertZoned_offsets_run (u : TimeUnit) (input : ArraySpan)
    (timezone : string) (tz : time_zone) (t : DataType) ctx :
  is_binary_view_like_type O = false ->
  is_base_binary_type O = true ->
  LocateZone timezone = Ok tz ->
  text_fits O (rendered (zoned_timestamp_text u timezone tz) (value_slots input))
    = true ->
  render_post O CallFormatZoned (zoned_timestamp_text u timezone tz)
    (value_slots input) (add_trace ctx [CallLocateZone timezone])
    ((builder ← ConvertZoned (builder_ops := BinaryBuilder_ops O) time_zone
                  LocateZone TimestampFormatter_zoned u input timezone
                  (Builder_new (BuilderType := BinaryBuilder_ops O) t);
      BinaryBuilder_Finish O builder) ctx).
Proof.
  intros HV HB Hzone Hfit. unfold ConvertZoned.
  unfold mbind, M_bind, bind, record_call, lift. rewrite Hzone.
  rewrite VisitValuesInline_slots.
  change {| memory_pool := memory_pool ctx;
            trace := trace ctx ++ [CallLocateZone timezone] |}
    with (add_trace ctx [CallLocateZone timezone]).
  apply (render_finish_offsets O CallFormatZoned
           (zoned_timestamp_text u timezone tz)); [|done..].
  intros v b ctx'. by rewrite TimestampFormatter_zoned_text.
Qed.

Lemma ConvertZoned_views_run (u : TimeUnit) (input : ArraySpan)
    (timezone : string) (tz : time_zone) (t : DataType) ctx :
  is_binary_view_like_type O = true ->
  LocateZone timezone = Ok tz ->
  text_fits O (rendered (zoned_timestamp_text u timezone tz) (value_slots input))
    = true ->
  render_post O CallFormatZoned (zoned_timestamp_text u timezone tz)
    (value_slots input) (add_trace ctx [CallLocateZone timezone])
    ((builder ← ConvertZoned (builder_ops := BinaryViewBuilder_ops O) time_zone
                  LocateZone TimestampFormatter_zoned u input timezone
                  (Builder_new (BuilderType := BinaryViewBuilder_ops O) t);
      BinaryViewBuilder_Finish O builder) ctx).
Proof.
  intros HV Hzone Hfit. unfold ConvertZoned.
  unfold mbind, M_bind, bind, record_call, lift. rewrite Hzone.
  rewrite VisitValuesInline_slots.
  change {| memory_pool := memory_pool ctx;
            trace := trace ctx ++ [CallLocateZone timezone] |}
    with (add_trace ctx [CallLocateZone timezone]).
  apply (render_finish_views O CallFormatZoned
           (zoned_timestamp_text u timezone tz)); [|done..].
  intros v b ctx'. by rewrite TimestampFormatter_zoned_text.
Qed.

Lemma Timestamp_zoned_run (input : ArraySpan) (tz : time_zone) ctx :
  let timezone := GetInputTimezone (type input) in
  let u := unit_of (type input) in
  timezone <> EmptyString ->
  LocateZone timezone = Ok tz ->
  text_fits O (rendered (zoned_timestamp_text u timezone tz) (value_slots input))
    = true ->
  render_post O CallFormatZoned (zoned_timestamp_text u timezone tz)
    (value_slots input) (add_trace ctx [CallLocateZone timezone])
    (TimestampToString O LocateZone input ctx).
Proof.
  intros timezone u Hne Hzone Hfit.
  unfold TimestampToString, TimestampToStringCastFunctor_Exec.
  fold timezone. fold u.
  apply String.eqb_neq in Hne. rewrite Hne.
  destruct (text_layout_cases O HO) as [[HV HB]|[HV HB]]; rewrite HV;
    unfold mbind at 1 2, M_bind at 1 2, bind at 1 2;
    cbn [Reserve ReserveData BinaryBuilder_ops BinaryViewBuilder_ops];
    unfold mret, M_ret, ret.
  - pose proof (ConvertZoned_views_run u input timezone tz (type input) ctx
                  HV Hzone Hfit) as Hrun.
    by destruct u.
  - pose proof (ConvertZoned_offsets_run u input timezone tz (type input) ctx
                  HV HB Hzone Hfit) as Hrun.
    by destruct u.
Qed.

Lemma Timestamp_zone_unknown (input : ArraySpan) c msg ctx :
  let timezone := GetInputTimezone (type input) in
  timezone <> EmptyString ->
  LocateZone timezone = Err c msg ->
  TimestampToString O LocateZone input ctx
  = (Err c msg, add_trace ctx [CallLocateZone timezone]).
Proof.
  intros timezone Hne Hzone.
  unfold TimestampToString, TimestampToStringCastFunctor_Exec. fold timezone.
  apply String.eqb_neq in Hne. rewrite Hne.
  assert (forall B (ops : BuilderType B) u b,
    ConvertZoned (builder_ops := ops) time_zone LocateZone
      TimestampFormatter_zoned u input timezone b ctx
    = (Err c msg, add_trace ctx [CallLocateZone timezone])) as Hfail.
  { intros B ops u b. unfold ConvertZoned.
    unfold mbind, M_bind, bind, record_call, lift. by rewrite Hzone. }
  destruct (is_binary_view_like_type O);
    unfold mbind at 1 2 3, M_bind at 1 2 3, bind at 1 2 3;
    cbn [Reserve ReserveData BinaryBuilder_ops BinaryViewBuilder_ops];
    unfold mret, M_ret, ret;
    destruct (unit_of (type input)); by rewrite Hfail.
Qed.

End TimestampToText.

(** C8: a timestamp column cast to text.  Without a time zone every
    non-null instant is rendered in the naive civil form (year, month, day,
    hour, minute, second and the fractional digits of the unit) and no zone
    is looked up.  With a time zone that resolves, the zone is looked up
    exactly once, before the first value, and every non-null instant is
    rendered as the civil time in that zone followed by the zone's [+HHMM]
    offset, or by the letter [Z] when the zone name is exactly [UTC]
    ([zoned_timestamp_text]).  A zone that does not resolve fails the cast
    with the lookup's error, nothing being formatted.  Null instants stay
    null. *)
Theorem timestamp_to_text (O : TypeClass)
    (LocateZone : string -> Result time_zone) (input : ArraySpan)
    (ctx : KernelContext) :
  is_text_layout O = true ->
  let timezone := GetInputTimezone (type input) in
  let u := unit_of (type input) in
  let values := value_slots input in
  let cast := TimestampToString O LocateZone input ctx in
  (timezone = EmptyString ->
   text_fits O (rendered (naive_timestamp_text u) values) = true ->
   exists output ctx',
     cast = (Ok output, ctx')
     /\ slots O output = rendered (naive_timestamp_text u) values
     /\ trace ctx' = trace ctx ++ map CallFormat (non_null values)
     /\ zone_lookups (trace ctx') = zone_lookups (trace ctx))
  /\ (timezone <> EmptyString ->
      forall tz, LocateZone timezone = Ok tz ->
      text_fits O (rendered (zoned_timestamp_text u timezone tz) values) = true ->
      exists output ctx',
        cast = (Ok output, ctx')
        /\ slots O output = rendered (zoned_timestamp_text u timezone tz) values
        /\ trace ctx'
           = trace ctx
             ++ CallLocateZone timezone :: map CallFormatZoned (non_null values)
        /\ zone_lookups (trace ctx') = S (zone_lookups (trace ctx)))
  /\ (timezone <> EmptyString ->
      forall c msg, LocateZone timezone = Err c msg ->
      cast = (Err c msg, add_trace ctx [CallLocateZone timezone])).
Proof.
  intros HO timezone u values cast. split; [|split].
  - intros Htz Hfit.
    destruct (Timestamp_naive_run O HO LocateZone input ctx Htz Hfit)
      as (output & Hrun & _ & _ & Hslots & _).
    exists output, (add_allocations (add_trace ctx
                      (map CallFormat (non_null values))) 3).
    split; [exact Hrun|]. split; [exact Hslots|]. split; [done|].
    cbn [add_allocations add_trace trace].
    rewrite zone_lookups_app, zone_lookups_format. lia.
  - intros Hne tz Hzone Hfit.
    destruct (Timestamp_zoned_run O HO LocateZone input tz ctx Hne Hzone Hfit)
      as (output & Hrun & _ & _ & Hslots & _).
    eexists output, _. split; [exact Hrun|]. split; [exact Hslots|].
    cbn [add_allocations add_trace trace]. rewrite <- app_assoc. cbn [app].
    split; [done|].
    rewrite zone_lookups_app, zone_lookups_cons_zone, zone_lookups_format_zoned.
    lia.
  - intros Hne c msg Hzone.
    exact (Timestamp_zone_unknown O LocateZone input c msg ctx Hne Hzone).
Qed.

(** An instant tagged with a zone five and a half hours east of UTC. *)
Lemma timestamp_to_text_witness :
  is_text_layout StringType = true
  /\ GetInputTimezone (type (sample_instants "Asia/Kolkata")) <> EmptyString
  /\ sample_zones "Asia/Kolkata" = Ok {| tz_utc_offset := fun _ => 19800 |}
  /\ exists output ctx',
       TimestampToString StringType sample_zones
         (sample_instants "Asia/Kolkata") ctx0 = (Ok output, ctx')
       /\ slots StringType output
          = rendered (zoned_timestamp_text SECOND "Asia/Kolkata"
                        {| tz_utc_offset := fun _ => 19800 |})
                     (value_slots (sample_instants "Asia/Kolkata"))
       /\ trace ctx'
          = trace ctx0
            ++ CallLocateZone "Asia/Kolkata"
               :: map CallFormatZoned
                    (non_null (value_slots (sample_instants "Asia/Kolkata")))
       /\ zone_lookups (trace ctx') = S (zone_lookups (trace ctx0)).
Proof.
  split; [reflexivity|]. split; [discriminate|]. split; [reflexivity|].
  exact (proj1 (proj2 (timestamp_to_text StringType sample_zones
                         (sample_instants "Asia/Kolkata") ctx0 eq_refl))
           ltac:(discriminate) {| tz_utc_offset := fun _ => 19800 |}
           eq_refl eq_refl).
Defined.

(** The examples of the specification: midnight of 2021-01-01, in seconds,
    without a zone, tagged UTC, and tagged with a zone at +05:30. *)
Example timestamp_without_zone :
  exists output ctx',
    TimestampToString StringType sample_zones (sample_instants EmptyString) ctx0
    = (Ok output, ctx')
    /\ slots StringType output
       = [Some (bytes_of_string "2021-01-01 00:00:00"); None]
    /\ trace ctx' = [CallFormat 1609459200].
Proof. eexists _, _. split; [reflexivity|]. split; by vm_compute. Qed.

Example timestamp_tagged_UTC :
  exists output ctx',
    TimestampToString StringType sample_zones (sample_instants "UTC") ctx0
    = (Ok output, ctx')
    /\ slots StringType output
       = [Some (bytes_of_string "2021-01-01 00:00:00Z"); None]
    /\ trace ctx' = [CallLocateZone "UTC"; CallFormatZoned 1609459200].
Proof. eexists _, _. split; [reflexivity|]. split; by vm_compute. Qed.

Example timestamp_tagged_offset_zone :
  exists output ctx',
    TimestampToString LargeStringType sample_zones
      (sample_instants "Asia/Kolkata") ctx0
    = (Ok output, ctx')
    /\ slots LargeStringType output
       = [Some (bytes_of_string "2021-01-01 05:30:00+0530"); None]
    /\ offsets_of output = [0; 24; 24].
Proof. eexists _, _. split; [reflexivity|]. split; by vm_compute. Qed.

Example timestamp_milliseconds_as_view :
  exists output ctx',
    TimestampToString StringViewType sample_zones
      {| type := timestamp MILLI EmptyString; len := 1; offset := 0;
         null_count := 0;
         buffers := [ None;
                      Some {| handle := 2%N;
                              contents := Ints [1609459200123] |} ] |} ctx0
    = (Ok output, ctx')
    /\ slots StringViewType output
       = [Some (bytes_of_string "2021-01-01 00:00:00.123")].
Proof. eexists _, _. split; [reflexivity|]. by vm_compute. Qed.

(** ** Null slots *)

Lemma IsValid_slots (I : TypeClass) (a : ArraySpan) (i : Z) :
  0 <= i < len a ->
  is_valid_slot (nth (Z.to_nat i) (slots I a) None) = IsValid a i.
Proof.
  intros Hi. rewrite nth_slots by lia. rewrite Z2Nat.id by lia.
  by destruct (IsValid a i).
Qed.

Lemma length_value_slots (a : ArraySpan) :
  length (value_slots a) = Z.to_nat (len a).
Proof. unfold value_slots. by rewrite length_map, length_seqZ. Qed.

Lemma IsValid_value_slots (a : ArraySpan) (i : Z) :
  0 <= i < len a ->
  is_valid_slot (nth (Z.to_nat i) (value_slots a) None) = IsValid a i.
Proof.
  intros Hi. unfold value_slots.
  pose proof (at_map_seqZ None
    (fun i => if IsValid a i then Some (GetValue a i) else None)
    (len a) i Hi) as E.
  unfold at_ in E. rewrite E. by destruct (IsValid a i).
Qed.

Lemma nulls_kept_intro {V} (O : TypeClass) (input output : ArraySpan)
    (l : list (option V)) :
  len output = len input ->
  (forall i, 0 <= i < len input ->
     is_valid_slot (nth (Z.to_nat i) l None) = IsValid input i) ->
  length l = Z.to_nat (len input) ->
  map is_valid_slot (slots O output) = map is_valid_slot l ->
  nulls_kept input output.
Proof.
  intros Hlen Hin Hl Hmap. split; [done|]. intros i Hi Hnull.
  rewrite <- (IsValid_slots O output i) by lia.
  rewrite <- (nth_map_default is_valid_slot _ None false)
    by (rewrite length_slots; lia).
  rewrite Hmap. rewrite (nth_map_default is_valid_slot _ None false) by lia.
  by rewrite Hin.
Qed.

Lemma running_offsets_null (l : list (option (list byte))) :
  forall base i,
    nth i l (Some []) = None ->
    nth (S i) (base :: running_offsets base l) 0
    = nth i (base :: running_offsets base l) 0.
Proof.
  induction l as [|o l IH]; intros base i Hi.
  - by destruct i.
  - destruct i as [|i]; cbn [nth] in Hi.
    + subst o. cbn [running_offsets nth default length]. lia.
    + cbn [running_offsets]. 
      change (nth (S (S i)) (base :: ?x :: ?r) 0) with (nth (S i) (x :: r) 0).
      change (nth (S i) (base :: ?x :: ?r) 0) with (nth i (x :: r) 0).
      by apply IH.
Qed.

Lemma null_spans_empty_intro (O : TypeClass) (output : ArraySpan)
    (t : list (option (list byte))) (base : Z) :
  offsets_of output = base :: running_offsets base t ->
  slots O output = t ->
  null_spans_empty output.
Proof.
  intros Hoffs Hslots i Hi Hnull. rewrite Hoffs.
  apply running_offsets_null. rewrite <- Hslots.
  pose proof (nth_slots O output i Hi) as E. rewrite Hnull in E.
  rewrite (nth_indep _ _ None); [done|].
  rewrite length_slots. lia.
Qed.

Lemma built_views_null (l : list (option (list byte))) :
  forall base i,
    nth i l (Some []) = None ->
    nth i (built_views base l) zero_view = zero_view.
Proof.
  induction l as [|[v|] l IH]; intros base i Hi.
  - by destruct i.
  - destruct i as [|i]; cbn [nth] in Hi; [done|].
    cbn [built_views]. destruct (_ <=? _); cbn [nth]; by apply IH.
  - destruct i as [|i]; cbn [nth built_views] in *; [done|]. by apply IH.
Qed.

Lemma compact_intro (O : TypeClass) (t : list (option (list byte)))
    (output : ArraySpan) :
  slots O output = t ->
  text_layout O t output ->
  compact O output.
Proof.
  intros Hslots Hlayout. unfold compact, text_layout in *.
  destruct (is_binary_view_like_type O).
  - destruct Hlayout as [Hviews Hheap]. rewrite Hslots. split; [done|].
    intros i Hi Hnull. rewrite Hviews. apply built_views_null.
    rewrite <- Hslots.
    pose proof (nth_slots O output i Hi) as E. rewrite Hnull in E.
    rewrite (nth_indep _ _ None); [done|].
    rewrite length_slots. lia.
  - destruct Hlayout as [Hoffs Hdata]. rewrite Hslots. split; [done|].
    by apply (null_spans_empty_intro O output t 0).
Qed.

Lemma renders_nulls_intro {V} (O : TypeClass) (call : V -> Call)
    (render : V -> list byte) (l : list (option V)) (input : ArraySpan)
    (ctx : KernelContext) (r : Result ArrayData * KernelContext) :
  0 <= len input ->
  length l = Z.to_nat (len input) ->
  (forall i, 0 <= i < len input ->
     is_valid_slot (nth (Z.to_nat i) l None) = IsValid input i) ->
  render_post O call render l ctx r ->
  renders_nulls O call l input ctx r.
Proof.
  intros Hlen Hl Hvalid (output & Hrun & Hlen' & Hoff & Hslots & Hlayout).
  exists output, (add_allocations (add_trace ctx (map call (non_null l))) 3).
  split; [done|]. split.
  - apply (nulls_kept_intro O input output l); try done; [lia|].
    by rewrite Hslots, is_valid_rendered.
  - split; [done|]. by apply (compact_intro O (rendered render l)).
Qed.

(** C9 as stated fails for a fixed-width source cast to an offset
    layout: the null slot of ["ab", null] stays null, but its offsets are 2
    and 4, a span of the full width, and the data buffer holds the two
    padding bytes of that slot. *)
Lemma fixed_to_offset_null_slot_has_span :
  exists output ctx',
    BinaryToBinaryCastExec ascii_only type_name BinaryType FixedSizeBinaryType
      no_options sample_fixed2 (preallocated_out binary 2) ctx0
    = (Ok output, ctx')
    /\ IsValid sample_fixed2 1 = false
    /\ IsValid output 1 = false
    /\ offsets_of output = [0; 2; 4]
    /\ bytes_of (GetBuffer output 2) = bytes_of_string "ab" ++ [x00; x00]
    /\ ~ compact BinaryType output.
Proof.
  eexists _, _. split; [by vm_compute|].
  repeat (split; [by vm_compute|]).
  intros [Hdata _]. vm_compute in Hdata. discriminate.
Qed.

(** C9, amended: in every conversion pair that returns a result, a null
    source slot yields a null destination slot, and the validator or
    formatter is called on the non-null slots only.  Where the destination
    is built slot by slot (views to an offset layout, and every renderer) no
    data byte is written for a null slot: in an offset output it repeats the
    offset before it, in a view output it is a zeroed view.  The other
    layout conversions leave under a null slot what [storage_kept] says:
    offsets to offsets keeps the source's validity and data buffers and the
    offsets of its window; views to views and fixed width to fixed width
    keep every buffer; offsets to views writes no data and leaves the view
    of a null slot zeroed; fixed width to views writes, for every slot, a
    view of the width over the source's bytes; fixed width to offsets
    copies the source's data and gives every slot, null or not, a span of
    the width; offsets or views to fixed width stores as many zero bytes
    as the width for a null slot. *)
Theorem null_slots_propagate :
  (forall V ToString O I options input out ctx,
      wf_input I input = true ->
      output_ready O I options input out = true ->
      within_limits O I options input = true ->
      guard_ok V O I options (slots I input) = true ->
      transcodes_nulls O I options input out ctx
        (BinaryToBinaryCastExec V ToString O I options input out ctx))
  /\ (forall O StringFormatter input ctx,
        is_text_layout O = true -> 0 <= len input ->
        text_fits O (rendered (StringFormatter (type input)) (value_slots input))
          = true ->
        renders_nulls O CallFormat (value_slots input) input ctx
          (NumericToString O StringFormatter input ctx)
        /\ renders_nulls O CallFormat (value_slots input) input ctx
             (TemporalToString O StringFormatter input ctx))
  /\ (forall O StringFormatter input ctx,
        is_text_layout O = true -> 0 <= len input ->
        text_fits O
          (rendered (fun bs => StringFormatter (type input) (decode_signed bs))
                    (slots FixedSizeBinaryType input)) = true ->
        renders_nulls O (fun bs => CallFormat (decode_signed bs))
          (slots FixedSizeBinaryType input) input ctx
          (DecimalToString O StringFormatter input ctx))
  /\ (forall O LocateZone input ctx,
        is_text_layout O = true -> 0 <= len input ->
        let timezone := GetInputTimezone (type input) in
        let u := unit_of (type input) in
        (timezone = EmptyString ->
         text_fits O (rendered (naive_timestamp_text u) (value_slots input))
           = true ->
         renders_nulls O CallFormat (value_slots input) input ctx
           (TimestampToString O LocateZone input ctx))
        /\ (timezone <> EmptyString ->
            forall tz, LocateZone timezone = Ok tz ->
            text_fits O (rendered (zoned_timestamp_text u timezone tz)
                                  (value_slots input)) = true ->
            renders_nulls O CallFormatZoned (value_slots input) input
              (add_trace ctx [CallLocateZone timezone])
              (TimestampToString O LocateZone input ctx))).
Proof.
  split; [|split; [|split]].
  - intros V ToString O I options input out ctx Hwf Hready Hlim Hg.
    unfold transcodes_nulls.
    pose proof (guard_ok_run _ _ _ _ input ctx Hg) as Hguard.
    destruct (cast_keeps_slots V ToString options input out ctx O I
                Hwf Hready Hlim Hg)
      as (output & ctx' & Hrun & Htr & _ & Hlen & Hslots).
    exists output, ctx'. split; [done|]. split.
    { apply (nulls_kept_intro O input output (slots I input)); try done.
      - intros i Hi. by apply IsValid_slots.
      - apply length_slots.
      - by rewrite Hslots. }
    split; [done|]. intros ov Hov.
    destruct ov; cbn [enabled] in Hov; apply andb_prop in Hov as [HI HO];
      cbn [storage_kept].
    + (* offsets to offsets *)
      rewrite Exec_offset_offset in Hrun by done.
      unfold wf_input in Hwf. rewrite HI in Hwf.
      assert (Hcheck : match offset_type I, offset_type O with
                       | int64_t, int32_t => true
                       | _, _ => false
                       end
                       && (at_ 0 (ints_of (GetBuffer input 1))
                             (offset input + len input)
                           >? numeric_limits_max int32_t) = false).
      { apply negb_true_iff. by destruct I, O. }
      destruct (offset_offset_run V ToString O I options input out
                  HI HO Hwf ctx _ Hguard Hcheck)
        as (output' & ctx2 & Hrun' & _ & _ & _ & _ & _ & Hb0 & Hb2 & Hoffs & _).
      rewrite Hrun' in Hrun. injection Hrun as <- <-. done.
    + (* views to offsets *)
      rewrite Exec_view_offset in Hrun by done.
      assert (Hwfv : wf_views input = true) by (by destruct I).
      assert (Hprep : prepared_output out = true) by (by destruct I, O).
      assert (Hfit : total_bytes (slots I input)
                     <= numeric_limits_max (offset_type O)).
      { apply Z.leb_le. by destruct I, O. }
      destruct (view_offset_run V O I options input out ctx _
                  HO Hwfv Hprep Hfit Hguard)
        as (output' & ctx2 & Hrun' & _ & _ & Hlen' & _ & _ & _
            & Hoffs & Hdata & Hslots').
      rewrite Hrun' in Hrun. injection Hrun as <- <-.
      unfold compact.
      assert (is_binary_view_like_type O = false) as -> by (by destruct O).
      rewrite Hslots'. split; [done|].
      by apply (null_spans_empty_intro O output' (slots I input) 0).
    + (* offsets to views *)
      rewrite Exec_offset_view in Hrun by done.
      unfold wf_input in Hwf. rewrite HI in Hwf.
      assert (Hcheck : (sizeof (offset_type I) >? 4)
                && (offset input + len input >? 0)
                && (at_ 0 (ints_of (GetBuffer input 1))
                      (offset input + len input)
                    >? numeric_limits_max int32_t) = false).
      { apply negb_true_iff. by destruct I, O. }
      pose proof (offset_view_check_final I input Hwf Hcheck) as Hfinal.
      destruct (offset_view_run V ToString I input Hwf Hfinal
                  O options out ctx _ Hguard Hcheck)
        as (output' & Hrun' & _ & _ & _ & _ & Hb0 & _ & Hviews & Hb2).
      rewrite Hrun' in Hrun. injection Hrun as <- <-.
      split; [done|]. split.
      * rewrite Hb2. destruct (forallb _ _); auto.
      * intros j Hj Hnull. by rewrite Hviews, Hnull.
    + (* views to views *)
      rewrite Exec_view_view in Hrun by done.
      unfold BinaryToBinaryCastExec_view_view, ZeroCopyCastExec in Hrun.
      monad_unfold. rewrite Hguard in Hrun. by injection Hrun as <- <-.
    + (* fixed width to views *)
      assert (I = FixedSizeBinaryType) as -> by (by destruct I).
      rewrite Exec_fixed_view in Hrun by done.
      change (wf_fixed input = true) in Hwf.
      assert (Hcheck : (offset input + len input >? 0)
                && ((offset input + len input - 1) * byte_width (type input)
                    >? numeric_limits_max int32_t) = false).
      { apply negb_true_iff. by destruct O. }
      assert (Hfits : 0 < len input ->
                (offset input + len input - 1) * byte_width (type input)
                <= numeric_limits_max int32_t).
      { destruct (wf_fixed_elim input Hwf) as (Ho & _).
        intros Hpos. apply andb_false_iff in Hcheck as [Hc|Hc]; lia. }
      destruct (fixed_view_run V ToString O _ options input out
                  ctx _ Hwf Hguard Hcheck)
        as (output' & Hrun' & _ & _ & _ & _ & Hb0 & _ & Hviews & Hb2).
      rewrite Hrun' in Hrun. injection Hrun as <- <-.
      split; [done|]. split; [done|].
      intros j Hj. rewrite Hviews by done. split.
      * destruct (Z.le_gt_cases (byte_width (type input)) kInlineSize)
          as [Hs|Hl].
        -- by destruct (view_of_fixed_slot_inline input Hwf Hfits j Hj Hs)
             as (_ & ? & _).
        -- by destruct (view_of_fixed_slot_ref input Hwf Hfits j Hj Hl)
             as (_ & ? & _).
      * apply (view_of_fixed_slot_resolve input Hwf Hfits output' j Hj).
        intros Hl. rewrite Hb2. by rewrite (proj2 (Z.leb_gt _ _)).
    + (* fixed width to offsets *)
      assert (I = FixedSizeBinaryType) as -> by (by destruct I).
      rewrite Exec_fixed_offset in Hrun by done.
      change (wf_fixed input = true) in Hwf.
      assert (Hprep : preallocated_output out (len input) = true)
        by (by destruct O).
      assert (Hfit : (offset input + len input) * byte_width (type input)
                     <= numeric_limits_max (offset_type O)).
      { apply Z.leb_le. by destruct O. }
      destruct (fixed_offset_run V ToString O options input out
                  HO Hwf ctx _ Hprep Hguard Hfit)
        as (output' & ctx2 & Hrun' & _ & _ & _ & _ & Hoff & _ & _
            & Hat & Hdata & _).
      rewrite Hrun' in Hrun. injection Hrun as <- <-.
      split; [done|]. intros i Hi.
      rewrite Hoff, !Z.add_0_l, !Hat by lia. lia.
    + (* fixed width to fixed width *)
      assert (I = FixedSizeBinaryType) as -> by (by destruct I).
      assert (O = FixedSizeBinaryType) as -> by (by destruct O).
      cbn [within_limits] in Hlim.
      cbn [BinaryToBinaryCastExec] in Hrun.
      unfold BinaryToBinaryCastExec_fixed_fixed in Hrun.
      rewrite Hlim in Hrun. cbn [negb] in Hrun.
      unfold ZeroCopyCastExec in Hrun. monad_unfold.
      by injection Hrun as <- <-.
    + (* offsets or views to fixed width *)
      assert (O = FixedSizeBinaryType) as -> by (by destruct O).
      rewrite Exec_to_fixed in Hrun by done.
      assert (Hl : forallb (width_ok (byte_width (to_type options)))
                     (slots I input)
                   && (0 <=? byte_width (to_type options)) = true)
        by (by destruct I).
      apply andb_prop in Hl as [Hall HW]. apply Z.leb_le in HW.
      destruct (to_fixed_success ToString I options input out ctx Hall HW)
        as (output' & Hrun' & _ & _ & _ & Hdata & _).
      rewrite Hrun' in Hrun. by injection Hrun as <- <-.
  - intros O fmt input ctx HO Hlen Hfit.
    split; apply (renders_nulls_intro O CallFormat (fmt (type input)));
      try done; try apply length_value_slots;
      try (intros i Hi; by apply IsValid_value_slots).
    + by apply Numeric_run.
    + by apply Temporal_run.
  - intros O fmt input ctx HO Hlen Hfit.
    apply (renders_nulls_intro O (fun bs => CallFormat (decode_signed bs))
             (fun bs => fmt (type input) (decode_signed bs)));
      try done; try apply length_slots.
    + intros i Hi. by apply IsValid_slots.
    + by apply Decimal_run.
  - intros O LocateZone input ctx HO Hlen timezone u. split.
    + intros Htz Hfit.
      apply (renders_nulls_intro O CallFormat (naive_timestamp_text u));
        try done; try apply length_value_slots.
      * intros i Hi. by apply IsValid_value_slots.
      * by apply Timestamp_naive_run.
    + intros Hne tz Hzone Hfit.
      apply (renders_nulls_intro O CallFormatZoned
               (zoned_timestamp_text u timezone tz));
        try done; try apply length_value_slots.
      * intros i Hi. by apply IsValid_value_slots.
      * by apply Timestamp_zoned_run.
Qed.

(** ["ab", null, "cde"] as views, cast to strings with the UTF-8 check on:
    the two non-null slots are validated, the null slot is kept and takes no
    room. *)
Lemma null_slots_propagate_witness :
  wf_input BinaryViewType sample_views = true
  /\ output_ready StringType BinaryViewType no_options sample_views
       (sample_out utf8 3) = true
  /\ within_limits StringType BinaryViewType no_options sample_views = true
  /\ guard_ok ascii_only StringType BinaryViewType no_options
       (slots BinaryViewType sample_views) = true
  /\ transcodes_nulls StringType BinaryViewType no_options sample_views
       (sample_out utf8 3) ctx0
       (BinaryToBinaryCastExec ascii_only type_name StringType BinaryViewType
          no_options sample_views (sample_out utf8 3) ctx0).
Proof.
  repeat (split; [by vm_compute|]).
  exact (proj1 null_slots_propagate ascii_only type_name StringType
           BinaryViewType no_options sample_views (sample_out utf8 3) ctx0
           eq_refl eq_refl eq_refl eq_refl).
Defined.

Example views_to_strings_skip_null :
  exists output ctx',
    BinaryToBinaryCastExec ascii_only type_name StringType BinaryViewType
      no_options sample_views (sample_out utf8 3) ctx0
    = (Ok output, ctx')
    /\ slots StringType output
       = [Some (bytes_of_string "ab"); None; Some (bytes_of_string "cde")]
    /\ offsets_of output = [0; 2; 2; 5]
    /\ bytes_of (GetBuffer output 2) = bytes_of_string "abcde"
    /\ trace ctx' = [CallValidateUTF8 (bytes_of_string "ab");
                     CallValidateUTF8 (bytes_of_string "cde")].
Proof. eexists _, _. split; [by vm_compute|]. repeat split; by vm_compute. Qed.

(** A fixed-width destination stores a null slot as a slot of zero bytes. *)
Example strings_to_fixed_pad_null :
  exists output ctx',
    BinaryToBinaryCastExec ascii_only type_name FixedSizeBinaryType StringType
      to_fixed2 sample_pairs (sample_out (fixed_size_binary 2) 3) ctx0
    = (Ok output, ctx')
    /\ slots FixedSizeBinaryType output
       = [Some (bytes_of_string "ab"); None; Some (bytes_of_string "de")]
    /\ bytes_of (GetBuffer output 1)
       = bytes_of_string "ab" ++ [x00; x00] ++ bytes_of_string "de".
Proof. eexists _, _. split; [by vm_compute|]. repeat split; by vm_compute. Qed.

(* ===================================================================== *)
(** * Further properties of the kernels *)

(** ** Overload selection *)

Lemma overloads_selected
    (ValidateUTF8Inline : list byte -> bool) (ToString : DataType -> string)
    (O I : TypeClass) :
  exists ov,
    enabled ov O I = true
    /\ BinaryToBinaryCastExec ValidateUTF8Inline ToString O I
       = overload_body ValidateUTF8Inline ToString ov O I.
Proof.
  destruct O, I;
    first [ by exists OffsetToOffset | by exists ViewToOffset
          | by exists OffsetToView | by exists ViewToView
          | by exists FixedToView | by exists FixedToOffset
          | by exists FixedToFixed | by exists ToFixed ].
Qed.

(** Every pair of binary-like classes enables exactly one of the eight
    overloads of [BinaryToBinaryCastExec], and the cast of that pair is
    that overload. *)
Theorem overloads_partition_pairs
    (ValidateUTF8Inline : list byte -> bool) (ToString : DataType -> string)
    (O I : TypeClass) :
  exists ov,
    enabled ov O I = true
    /\ (forall ov', enabled ov' O I = true -> ov' = ov)
    /\ BinaryToBinaryCastExec ValidateUTF8Inline ToString O I
       = overload_body ValidateUTF8Inline ToString ov O I.
Proof.
  destruct O, I;
    first
      [ exists OffsetToOffset; split; [reflexivity|]
      | exists ViewToOffset; split; [reflexivity|]
      | exists OffsetToView; split; [reflexivity|]
      | exists ViewToView; split; [reflexivity|]
      | exists FixedToView; split; [reflexivity|]
      | exists FixedToOffset; split; [reflexivity|]
      | exists FixedToFixed; split; [reflexivity|]
      | exists ToFixed; split; [reflexivity|] ];
    (split; [intros ov' H; destruct ov'; (reflexivity || discriminate)
            | reflexivity]).
Qed.

(** ** Casts that copy nothing *)

(** A cast between offset layouts of the same offset width (binary and
    string, large binary and large string) whose guard passes allocates
    nothing: the output is the input's record, every buffer shared, under
    the output's type. *)
Theorem same_width_offsets_zero_copy
    (ValidateUTF8Inline : list byte -> bool) (ToString : DataType -> string)
    (O I : TypeClass) (options : CastOptions)
    (input : ArraySpan) (out : ArrayData) (ctx : KernelContext) :
  is_base_binary_type I = true ->
  is_base_binary_type O = true ->
  offset_type I = offset_type O ->
  guard_ok ValidateUTF8Inline O I options (slots I input) = true ->
  BinaryToBinaryCastExec ValidateUTF8Inline ToString O I options input out ctx
  = (Ok (zero_copy_of input out),
     add_trace ctx (guard_calls O I options (slots I input))).
Proof.
  intros HI HO Hw Hg. rewrite Exec_offset_offset by done.
  unfold BinaryToBinaryCastExec_offset_offset, ZeroCopyCastExec. monad_unfold.
  rewrite (guard_ok_run _ _ _ _ input ctx Hg).
  unfold CastBinaryToBinaryOffsets. rewrite Hw.
  by destruct (offset_type O).
Qed.

Lemma same_width_offsets_zero_copy_witness :
  is_base_binary_type BinaryType = true
  /\ is_base_binary_type StringType = true
  /\ offset_type BinaryType = offset_type StringType
  /\ guard_ok ascii_only StringType BinaryType no_options
       (slots BinaryType sample_strings) = true
  /\ BinaryToBinaryCastExec ascii_only type_name StringType BinaryType no_options
       sample_strings (sample_out utf8 3) ctx0
     = (Ok (zero_copy_of sample_strings (sample_out utf8 3)),
        add_trace ctx0 (guard_calls StringType BinaryType no_options
                          (slots BinaryType sample_strings))).
Proof.
  repeat (split; [by vm_compute|]).
  exact (same_width_offsets_zero_copy ascii_only type_name StringType BinaryType
           no_options sample_strings (sample_out utf8 3) ctx0
           eq_refl eq_refl eq_refl eq_refl).
Defined.

(** A cast between view layouts whose guard passes allocates nothing and
    shares every buffer, the variadic data buffers included. *)
Theorem view_to_view_zero_copy
    (ValidateUTF8Inline : list byte -> bool) (ToString : DataType -> string)
    (O I : TypeClass) (options : CastOptions)
    (input : ArraySpan) (out : ArrayData) (ctx : KernelContext) :
  is_binary_view_like_type I = true ->
  is_binary_view_like_type O = true ->
  guard_ok ValidateUTF8Inline O I options (slots I input) = true ->
  BinaryToBinaryCastExec ValidateUTF8Inline ToString O I options input out ctx
  = (Ok (zero_copy_of input out),
     add_trace ctx (guard_calls O I options (slots I input))).
Proof.
  intros HI HO Hg. rewrite Exec_view_view by done.
  unfold BinaryToBinaryCastExec_view_view, ZeroCopyCastExec. monad_unfold.
  by rewrite (guard_ok_run _ _ _ _ input ctx Hg).
Qed.

Lemma view_to_view_zero_copy_witness :
  is_binary_view_like_type BinaryViewType = true
  /\ is_binary_view_like_type StringViewType = true
  /\ guard_ok ascii_only StringViewType BinaryViewType no_options
       (slots BinaryViewType sample_views) = true
  /\ BinaryToBinaryCastExec ascii_only type_name StringViewType BinaryViewType
       no_options sample_views (sample_out utf8_view 3) ctx0
     = (Ok (zero_copy_of sample_views (sample_out utf8_view 3)),
        add_trace ctx0 (guard_calls StringViewType BinaryViewType no_options
                          (slots BinaryViewType sample_views))).
Proof.
  repeat (split; [by vm_compute|]).
  exact (view_to_view_zero_copy ascii_only type_name StringViewType
           BinaryViewType no_options sample_views (sample_out utf8_view 3) ctx0
           eq_refl eq_refl eq_refl).
Defined.

(** ** Widening the offsets (32 -> 64 bits) *)

Lemma CastInts_window (O : IntType) (T : TypeClass) (input : ArraySpan) :
  wf_offsets T input = true ->
  at_ 0 (ints_of (GetBuffer input 1)) (offset input + len input)
    <= numeric_limits_max O ->
  CastInts O (fun i => at_ 0 (ints_of (GetBuffer input 1)) (offset input + i))
           (len input + 1)
  = offsets_of input.
Proof.
  intros Hwf Hlast. unfold CastInts, offsets_of.
  apply map_ext_in. intros i Hi. apply list_elem_of_In, elem_of_seqZ in Hi.
  pose proof (wf_offsets_bounds T input Hwf i ltac:(lia)) as Hb.
  apply static_cast_nonneg_id. lia.
Qed.

Lemma converted_offsets_window (O : IntType) (T : TypeClass)
    (input : ArraySpan) (out : ArrayData) :
  wf_offsets T input = true ->
  at_ 0 (ints_of (GetBuffer input 1)) (offset input + len input)
    <= numeric_limits_max O ->
  converted_offsets O input (zero_copy_of input out)
  = replicate (Z.to_nat (offset input)) 0 ++ offsets_of input.
Proof.
  intros Hwf Hlast.
  pose proof (wf_offsets_elim T input Hwf) as (Ho & Hl & _).
  unfold converted_offsets, write_at. cbn [zero_copy_of len offset].
  rewrite (CastInts_window O T) by done.
  rewrite take_replicate, drop_replicate.
  assert (length (offsets_of input) = Z.to_nat (len input + 1)) as ->.
  { unfold offsets_of. by rewrite length_map, length_seqZ. }
  replace (Z.to_nat (offset input) `min` Z.to_nat (len input + offset input + 1))%nat
    with (Z.to_nat (offset input)) by lia.
  replace (Z.to_nat (len input + offset input + 1)
           - (Z.to_nat (offset input) + Z.to_nat (len input + 1)))%nat
    with 0%nat by lia.
  by rewrite app_nil_r.
Qed.

Lemma upcast_run
    (ValidateUTF8Inline : list byte -> bool) (ToString : DataType -> string)
    (O I : TypeClass) (options : CastOptions)
    (input : ArraySpan) (out : ArrayData) (ctx : KernelContext) :
  is_base_binary_type I = true ->
  is_base_binary_type O = true ->
  offset_type I = int32_t ->
  offset_type O = int64_t ->
  wf_offsets I input = true ->
  guard_ok ValidateUTF8Inline O I options (slots I input) = true ->
  let ctx1 := add_trace ctx (guard_calls O I options (slots I input)) in
  let offsets :=
    {| handle := memory_pool ctx;
       contents := Ints (replicate (Z.to_nat (offset input)) 0
                         ++ offsets_of input) |} in
  BinaryToBinaryCastExec ValidateUTF8Inline ToString O I options input out ctx
  = (Ok (set_buffer (zero_copy_of input out) 1 (Some offsets)),
     add_allocations ctx1 1).
Proof.
  intros HI HO HwI HwO Hwf Hg ctx1 offsets.
  rewrite Exec_offset_offset by done.
  unfold BinaryToBinaryCastExec_offset_offset, ZeroCopyCastExec. monad_unfold.
  rewrite (guard_ok_run _ _ _ _ input ctx Hg).
  unfold CastBinaryToBinaryOffsets. rewrite HwI, HwO.
  unfold CastBinaryToBinaryOffsets_up. monad_unfold.
  change {| type := type out; len := len input; offset := offset input;
            null_count := null_count input; buffers := buffers input |}
    with (zero_copy_of input out).
  pose proof (wf_offsets_elim I input Hwf) as (_ & _ & _ & _ & _ & _ & Hmax).
  rewrite HwI in Hmax.
  rewrite (converted_offsets_window int64_t I) by (done || (simpl in *; lia)).
  unfold add_allocations, ctx1, offsets. cbn [add_trace memory_pool trace].
  by rewrite N.add_1_r.
Qed.

(** Casting a well-formed 32-bit-offset array to a 64-bit-offset layout
    never fails once the guard has passed. It allocates one buffer, the new
    offsets: zeros up to the array's start, then the offsets of the
    array's window, unchanged; the validity and data buffers are the
    source's. *)
Theorem upcast_offsets_window
    (ValidateUTF8Inline : list byte -> bool) (ToString : DataType -> string)
    (O I : TypeClass) (options : CastOptions)
    (input : ArraySpan) (out : ArrayData) (ctx : KernelContext) :
  is_base_binary_type I = true ->
  is_base_binary_type O = true ->
  offset_type I = int32_t ->
  offset_type O = int64_t ->
  wf_offsets I input = true ->
  guard_ok ValidateUTF8Inline O I options (slots I input) = true ->
  let ctx1 := add_trace ctx (guard_calls O I options (slots I input)) in
  let offsets :=
    {| handle := memory_pool ctx;
       contents := Ints (replicate (Z.to_nat (offset input)) 0
                         ++ offsets_of input) |} in
  BinaryToBinaryCastExec ValidateUTF8Inline ToString O I options input out ctx
  = (Ok (set_buffer (zero_copy_of input out) 1 (Some offsets)),
     add_allocations ctx1 1).
Proof.
  intros HI HO HwI HwO Hwf Hg. by apply upcast_run.
Qed.

(** A slice, starting at slot 1, of 32-bit-offset strings. *)
Lemma upcast_offsets_window_witness :
  is_base_binary_type StringType = true
  /\ is_base_binary_type LargeStringType = true
  /\ offset_type StringType = int32_t
  /\ offset_type LargeStringType = int64_t
  /\ wf_offsets StringType sample_sliced_strings = true
  /\ guard_ok ascii_only LargeStringType StringType no_options
       (slots StringType sample_sliced_strings) = true
  /\ BinaryToBinaryCastExec ascii_only type_name LargeStringType StringType
       no_options sample_sliced_strings (sample_out large_utf8 4) ctx0
     = (Ok (set_buffer (zero_copy_of sample_sliced_strings (sample_out large_utf8 4))
              1 (Some {| handle := memory_pool ctx0;
                         contents :=
                           Ints (replicate (Z.to_nat (offset sample_sliced_strings)) 0
                                 ++ offsets_of sample_sliced_strings) |})),
        add_allocations
          (add_trace ctx0 (guard_calls LargeStringType StringType no_options
                             (slots StringType sample_sliced_strings))) 1).
Proof.
  repeat (split; [by vm_compute|]).
  exact (upcast_offsets_window ascii_only type_name LargeStringType StringType
           no_options sample_sliced_strings (sample_out large_utf8 4) ctx0
           eq_refl eq_refl eq_refl eq_refl eq_refl eq_refl).
Defined.

(** ** When the validator is not called *)

Lemma silent_ret {A} (a : A) : silent (ret a).
Proof. by intros ctx. Qed.

Lemma silent_raise {A} c msg : silent (raise (A := A) c msg).
Proof. by intros ctx. Qed.

Lemma silent_Allocate (c : Contents) : silent (Allocate c).
Proof. by intros ctx. Qed.

Lemma silent_bind {A B} (m : M A) (k : A -> M B) :
  silent m -> (forall a, silent (k a)) -> silent (m ≫= k).
Proof.
  intros Hm Hk ctx. unfold mbind, M_bind, bind.
  specialize (Hm ctx). destruct (m ctx) as [[a|c msg] ctx1]; simpl in *.
  - by rewrite Hk.
  - done.
Qed.

Lemma silent_foldM {A S} (f : A -> S -> M S) (l : list A) :
  (forall a s, silent (f a s)) -> forall s, silent (foldM f l s).
Proof.
  intros Hf. induction l as [|a l IH]; intros s; simpl.
  - apply silent_ret.
  - apply silent_bind; [apply Hf|apply IH].
Qed.

Lemma silent_VisitArraySpanInline {S} (I : TypeClass) (input : ArraySpan)
    (vf : list byte -> S -> M S) (nf : S -> M S) (s : S) :
  (forall v s, silent (vf v s)) -> (forall s, silent (nf s)) ->
  silent (VisitArraySpanInline I input vf nf s).
Proof.
  intros Hv Hn. unfold VisitArraySpanInline. apply silent_foldM.
  intros i s'. by destruct (IsValid input i).
Qed.

Lemma silent_guard (ValidateUTF8Inline : list byte -> bool) (O I : TypeClass)
    (options : CastOptions) (input : ArraySpan) :
  must_validate O I options = false ->
  silent (guard ValidateUTF8Inline O I options input).
Proof.
  intros Hm ctx. by rewrite guard_skipped.
Qed.

Ltac silent_step :=
  first
    [ apply silent_ret
    | apply silent_raise
    | apply silent_Allocate
    | apply silent_bind; [|intros ?]
    | apply silent_VisitArraySpanInline; intros
    | match goal with
      | |- silent (if ?b then _ else _) => destruct b
      | |- silent (match ?x with Some _ => _ | None => _ end) => destruct x
      | |- silent (match ?x with int32_t => _ | int64_t => _ end) => destruct x
      end ].

(** A cast that has no UTF-8 guard to run (the source type is already
    UTF-8, or the destination is not, or the check is switched off) never
    calls the validator, whatever the array and whether it succeeds or
    fails. *)
Theorem no_validation_without_guard
    (ValidateUTF8Inline : list byte -> bool) (ToString : DataType -> string)
    (O I : TypeClass) (options : CastOptions)
    (input : ArraySpan) (out : ArrayData) (ctx : KernelContext) :
  must_validate O I options = false ->
  trace (snd (BinaryToBinaryCastExec ValidateUTF8Inline ToString O I options
                input out ctx))
  = trace ctx.
Proof.
  intros Hm.
  pose proof (silent_guard ValidateUTF8Inline O I options input Hm) as Hg.
  revert ctx. change (silent (BinaryToBinaryCastExec ValidateUTF8Inline ToString
                                O I options input out)).
  destruct (overloads_selected ValidateUTF8Inline ToString O I) as (ov & Hov & ->).
  destruct ov; cbn [overload_body enabled] in *.
  - unfold BinaryToBinaryCastExec_offset_offset, ZeroCopyCastExec,
      CastBinaryToBinaryOffsets, CastBinaryToBinaryOffsets_same,
      CastBinaryToBinaryOffsets_up, CastBinaryToBinaryOffsets_down.
    cbv zeta. repeat silent_step; done.
  - unfold BinaryToBinaryCastExec_view_offset, GetOrCopyNullBitmapBuffer,
      CopyBitmap.
    cbv zeta. repeat silent_step; done.
  - unfold BinaryToBinaryCastExec_offset_view, ZeroCopyCastExec.
    cbv zeta. repeat silent_step; done.
  - unfold BinaryToBinaryCastExec_view_view, ZeroCopyCastExec.
    repeat silent_step; done.
  - unfold BinaryToBinaryCastExec_fixed_view.
    cbv zeta. repeat silent_step; done.
  - assert (I = FixedSizeBinaryType) as -> by (by destruct I).
    unfold BinaryToBinaryCastExec_fixed_offset, CopyBitmap.
    rewrite fixed_offset_guard.
    cbv zeta. repeat silent_step; done.
  - unfold BinaryToBinaryCastExec_fixed_fixed, ZeroCopyCastExec.
    cbv zeta. repeat silent_step; done.
  - unfold BinaryToBinaryCastExec_to_fixed, FixedSizeBinaryBuilder_FinishInternal.
    cbv zeta. repeat silent_step; done.
Qed.

(** A string array that holds bytes that are not UTF-8 is cast to large
    strings unchecked. *)
Lemma no_validation_without_guard_witness :
  must_validate LargeStringType StringType no_options = false
  /\ trace (snd (BinaryToBinaryCastExec ascii_only type_name LargeStringType
                   StringType no_options sample_bad_string
                   (sample_out large_utf8 2) ctx0))
     = trace ctx0.
Proof.
  split; [reflexivity|].
  exact (no_validation_without_guard ascii_only type_name LargeStringType
           StringType no_options sample_bad_string (sample_out large_utf8 2)
           ctx0 eq_refl).
Defined.

Example bad_string_widened_unchecked :
  exists output ctx',
    BinaryToBinaryCastExec ascii_only type_name LargeStringType StringType
      no_options sample_bad_string (sample_out large_utf8 2) ctx0
    = (Ok output, ctx')
    /\ slots LargeStringType output = [None; Some [xff; xfe]]
    /\ trace ctx' = [].
Proof. eexists _, _. split; [by vm_compute|]. split; by vm_compute. Qed.

(** ** Content and length across every pair *)

(** Every layout conversion, of any of the forty-nine pairs of classes,
    maps the slots one to one: a well-formed source, handed a ready output,
    within the size limits of its pair and past the guard, is converted to
    an array of the same length whose slots hold the same bytes and the
    same nulls; the guard's calls are the only ones traced, and no handle
    of the pool is given back. *)
Theorem cast_preserves_content
    (ValidateUTF8Inline : list byte -> bool) (ToString : DataType -> string)
    (O I : TypeClass) (options : CastOptions)
    (input : ArraySpan) (out : ArrayData) (ctx : KernelContext) :
  wf_input I input = true ->
  output_ready O I options input out = true ->
  within_limits O I options input = true ->
  guard_ok ValidateUTF8Inline O I options (slots I input) = true ->
  exists output ctx',
    BinaryToBinaryCastExec ValidateUTF8Inline ToString O I options input out ctx
    = (Ok output, ctx')
    /\ len output = len input
    /\ slots O output = slots I input
    /\ trace ctx' = trace ctx ++ guard_calls O I options (slots I input)
    /\ (memory_pool ctx <= memory_pool ctx')%N.
Proof.
  intros Hwf Hready Hlim Hg.
  destruct (cast_keeps_slots ValidateUTF8Inline ToString options input out ctx
              O I Hwf Hready Hlim Hg)
    as (output & ctx' & Hrun & Htr & Hpool & Hlen & Hslots).
  by exists output, ctx'.
Qed.

(** ["ab", null] of width 2, cast to binary. *)
Lemma cast_preserves_content_witness :
  wf_input FixedSizeBinaryType sample_fixed2 = true
  /\ output_ready BinaryType FixedSizeBinaryType no_options sample_fixed2
       (preallocated_out binary 2) = true
  /\ within_limits BinaryType FixedSizeBinaryType no_options sample_fixed2 = true
  /\ guard_ok ascii_only BinaryType FixedSizeBinaryType no_options
       (slots FixedSizeBinaryType sample_fixed2) = true
  /\ exists output ctx',
       BinaryToBinaryCastExec ascii_only type_name BinaryType FixedSizeBinaryType
         no_options sample_fixed2 (preallocated_out binary 2) ctx0
       = (Ok output, ctx')
       /\ len output = len sample_fixed2
       /\ slots BinaryType output = slots FixedSizeBinaryType sample_fixed2
       /\ trace ctx'
          = trace ctx0
            ++ guard_calls BinaryType FixedSizeBinaryType no_options
                 (slots FixedSizeBinaryType sample_fixed2)
       /\ (memory_pool ctx0 <= memory_pool ctx')%N.
Proof.
  repeat (split; [by vm_compute|]).
  exact (cast_preserves_content ascii_only type_name BinaryType
           FixedSizeBinaryType no_options sample_fixed2
           (preallocated_out binary 2) ctx0 eq_refl eq_refl eq_refl eq_refl).
Defined.

(** ** What the renderers write *)

(** The number renderer writes, for an input of [N] values, a text array
    of [N] slots: slot [i] holds the text the formatter (built on the
    input's type) gives for value [i], and is null where the input is; the
    formatter is called once per non-null value, in slot order. *)
Theorem numeric_to_text_renders_values
    (O : TypeClass) (StringFormatter : DataType -> Z -> list byte)
    (input : ArraySpan) (ctx : KernelContext) :
  is_text_layout O = true ->
  0 <= len input ->
  text_fits O (rendered (StringFormatter (type input)) (value_slots input))
    = true ->
  exists output ctx',
    NumericToString O StringFormatter input ctx = (Ok output, ctx')
    /\ len output = len input
    /\ offset output = 0
    /\ slots O output
       = map (option_map (StringFormatter (type input))) (value_slots input)
    /\ trace ctx' = trace ctx ++ map CallFormat (non_null (value_slots input)).
Proof.
  intros HO Hlen Hfit.
  destruct (Numeric_run O HO StringFormatter input ctx Hfit)
    as (output & Hrun & Hlen' & Hoff & Hslots & _).
  eexists output, _. split; [exact Hrun|].
  rewrite length_value_slots, Z2Nat.id in Hlen' by done.
  by repeat split.
Qed.

Lemma numeric_to_text_renders_values_witness :
  is_text_layout StringType = true
  /\ 0 <= len sample_numbers
  /\ text_fits StringType
       (rendered (sample_formatter (type sample_numbers))
                 (value_slots sample_numbers)) = true
  /\ exists output ctx',
       NumericToString StringType sample_formatter sample_numbers ctx0
       = (Ok output, ctx')
       /\ len output = len sample_numbers
       /\ offset output = 0
       /\ slots StringType output
          = map (option_map (sample_formatter (type sample_numbers)))
                (value_slots sample_numbers)
       /\ trace ctx'
          = trace ctx0 ++ map CallFormat (non_null (value_slots sample_numbers)).
Proof.
  split; [reflexivity|]. split; [by vm_compute|]. split; [reflexivity|].
  exact (numeric_to_text_renders_values StringType sample_formatter
           sample_numbers ctx0 eq_refl ltac:(by vm_compute) eq_refl).
Defined.

Example numbers_to_strings :
  exists output ctx',
    NumericToString StringType sample_formatter sample_numbers ctx0
    = (Ok output, ctx')
    /\ slots StringType output
       = [Some (bytes_of_string "7"); None; Some (bytes_of_string "42")]
    /\ offsets_of output = [0; 1; 1; 3]
    /\ trace ctx' = [CallFormat 7; CallFormat 42].
Proof. eexists _, _. split; [by vm_compute|]. repeat split; by vm_compute. Qed.

(** The decimal renderer reads each non-null fixed-width slot as a
    little-endian two's complement number and writes the formatter's text
    for it; the output has the input's length and nulls. *)
Theorem decimal_to_text_renders_values
    (O : TypeClass) (StringFormatter : DataType -> Z -> list byte)
    (input : ArraySpan) (ctx : KernelContext) :
  is_text_layout O = true ->
  0 <= len input ->
  text_fits O
    (rendered (fun bs => StringFormatter (type input) (decode_signed bs))
              (slots FixedSizeBinaryType input)) = true ->
  exists output ctx',
    DecimalToString O StringFormatter input ctx = (Ok output, ctx')
    /\ len output = len input
    /\ slots O output
       = map (option_map (fun bs => StringFormatter (type input) (decode_signed bs)))
             (slots FixedSizeBinaryType input)
    /\ trace ctx'
       = trace ctx
         ++ map (fun bs => CallFormat (decode_signed bs))
                (non_null (slots FixedSizeBinaryType input)).
Proof.
  intros HO Hlen Hfit.
  destruct (Decimal_run O HO StringFormatter input ctx Hfit)
    as (output & Hrun & Hlen' & Hoff & Hslots & _).
  eexists output, _. split; [exact Hrun|].
  rewrite length_slots, Z2Nat.id in Hlen' by done.
  by repeat split.
Qed.

Lemma decimal_to_text_renders_values_witness :
  is_text_layout StringViewType = true
  /\ 0 <= len sample_decimals
  /\ text_fits StringViewType
       (rendered (fun bs => sample_formatter (type sample_decimals) (decode_signed bs))
                 (slots FixedSizeBinaryType sample_decimals)) = true
  /\ exists output ctx',
       DecimalToString StringViewType sample_formatter sample_decimals ctx0
       = (Ok output, ctx')
       /\ len output = len sample_decimals
       /\ slots StringViewType output
          = map (option_map (fun bs => sample_formatter (type sample_decimals)
                                         (decode_signed bs)))
                (slots FixedSizeBinaryType sample_decimals)
       /\ trace ctx'
          = trace ctx0
            ++ map (fun bs => CallFormat (decode_signed bs))
                   (non_null (slots FixedSizeBinaryType sample_decimals)).
Proof.
  split; [reflexivity|]. split; [by vm_compute|]. split; [reflexivity|].
  exact (decimal_to_text_renders_values StringViewType sample_formatter
           sample_decimals ctx0 eq_refl ltac:(by vm_compute) eq_refl).
Defined.

Example decimals_to_string_views :
  exists output ctx',
    DecimalToString StringViewType sample_formatter sample_decimals ctx0
    = (Ok output, ctx')
    /\ slots StringViewType output = [Some (bytes_of_string "258"); None]
    /\ trace ctx' = [CallFormat 258].
Proof. eexists _, _. split; [by vm_compute|]. repeat split; by vm_compute. Qed.

(** ** The capacity checks of the conversions to views *)

(** Offsets to views: past the guard, the conversion of a well-formed
    source is refused with a capacity error exactly when the offsets are
    64 bits wide, the window is not empty and the last offset of the window
    exceeds the 32-bit maximum, whatever the lengths of the slots (so also
    when every view would be inline); otherwise it succeeds. The views
    buffer has been allocated in both cases. *)
Theorem offset_to_view_capacity_exact
    (ValidateUTF8Inline : list byte -> bool) (ToString : DataType -> string)
    (O I : TypeClass) (options : CastOptions)
    (input : ArraySpan) (out : ArrayData) (ctx : KernelContext) :
  is_base_binary_type I = true ->
  is_binary_view_like_type O = true ->
  wf_offsets I input = true ->
  guard_ok ValidateUTF8Inline O I options (slots I input) = true ->
  let final := at_ 0 (ints_of (GetBuffer input 1)) (offset input + len input) in
  let refused := (sizeof (offset_type I) >? 4) && (offset input + len input >? 0)
                 && (final >? numeric_limits_max int32_t) in
  let ctx1 := add_trace ctx (guard_calls O I options (slots I input)) in
  let result := BinaryToBinaryCastExec ValidateUTF8Inline ToString O I options
                  input out ctx in
  (refused = true ->
   result = (Err CapacityError
               (failed_casting ToString (type input) (type out)
                  ": input array too large for efficient conversion."),
             add_allocations ctx1 1))
  /\ (refused = false ->
      exists output, result = (Ok output, add_allocations ctx1 1)
                     /\ slots O output = slots I input).
Proof.
  intros HI HO Hwf Hg final refused ctx1 result.
  pose proof (guard_ok_run _ _ _ _ input ctx Hg) as Hguard.
  unfold result. rewrite Exec_offset_view by done. split.
  - intros Hr.
    exact (offset_view_run_overflow ValidateUTF8Inline ToString I input
             O options out ctx ctx1 Hguard Hr).
  - intros Hr.
    pose proof (offset_view_check_final I input Hwf Hr) as Hfinal.
    destruct (offset_view_run ValidateUTF8Inline ToString I input Hwf Hfinal
                O options out ctx ctx1 Hguard Hr) as (output & Hrun & Hpost).
    exists output. split; [exact Hrun|].
    exact (offset_view_slots O I input out output _ HO HI Hwf Hfinal Hpost).
Qed.

Lemma wf_empty_slot_at :
  wf_offsets LargeBinaryType (empty_slot_at 2147483648) = true.
Proof.
  unfold wf_offsets, bitmap_ok, GetBuffer.
  cbn [empty_slot_at type len offset buffers lookup list_lookup default
       ints_of bytes_of contents id].
  rewrite length_replicate, Z2Nat.id by lia. reflexivity.
Qed.

(** An empty value that sits 2 GiB into the data buffer of a large binary
    array: nothing would be referenced, and the conversion is refused. *)
Lemma offset_to_view_capacity_exact_witness :
  is_base_binary_type LargeBinaryType = true
  /\ is_binary_view_like_type BinaryViewType = true
  /\ wf_offsets LargeBinaryType (empty_slot_at 2147483648) = true
  /\ guard_ok ascii_only BinaryViewType LargeBinaryType no_options
       (slots LargeBinaryType (empty_slot_at 2147483648)) = true
  /\ slot_length (empty_slot_at 2147483648) 0 = 0
  /\ BinaryToBinaryCastExec ascii_only type_name BinaryViewType LargeBinaryType
       no_options (empty_slot_at 2147483648) (sample_out binary_view 1) ctx0
     = (Err CapacityError
          (failed_casting type_name (type (empty_slot_at 2147483648))
             (type (sample_out binary_view 1))
             ": input array too large for efficient conversion."),
        add_allocations
          (add_trace ctx0 (guard_calls BinaryViewType LargeBinaryType no_options
                             (slots LargeBinaryType (empty_slot_at 2147483648))))
          1).
Proof.
  split; [reflexivity|]. split; [reflexivity|].
  split; [exact wf_empty_slot_at|]. split; [reflexivity|].
  split; [reflexivity|].
  exact (proj1 (offset_to_view_capacity_exact ascii_only type_name
                  BinaryViewType LargeBinaryType no_options
                  (empty_slot_at 2147483648) (sample_out binary_view 1) ctx0
                  eq_refl eq_refl wf_empty_slot_at eq_refl)
           eq_refl).
Defined.

(** Fixed width to views: past the guard, the conversion of a well-formed
    source is refused with a capacity error exactly when the window is not
    empty and the position of its last element, [(offset + N - 1) * W],
    exceeds the 32-bit maximum; the width does not matter, so a source
    whose elements would all be stored inline is refused too. Otherwise it
    succeeds. *)
Theorem fixed_to_view_capacity_exact
    (ValidateUTF8Inline : list byte -> bool) (ToString : DataType -> string)
    (O : TypeClass) (options : CastOptions)
    (input : ArraySpan) (out : ArrayData) (ctx : KernelContext) :
  is_binary_view_like_type O = true ->
  wf_fixed input = true ->
  guard_ok ValidateUTF8Inline O FixedSizeBinaryType options
    (slots FixedSizeBinaryType input) = true ->
  let refused := (offset input + len input >? 0)
                 && ((offset input + len input - 1) * byte_width (type input)
                     >? numeric_limits_max int32_t) in
  let ctx1 := add_trace ctx (guard_calls O FixedSizeBinaryType options
                               (slots FixedSizeBinaryType input)) in
  let result := BinaryToBinaryCastExec ValidateUTF8Inline ToString O
                  FixedSizeBinaryType options input out ctx in
  (refused = true ->
   result = (Err CapacityError
               (failed_casting ToString (type input) (type out)
                  ": input array too large for efficient conversion."),
             add_allocations ctx1 1))
  /\ (refused = false ->
      exists output, result = (Ok output, add_allocations ctx1 1)).
Proof.
  intros HO Hwf Hg refused ctx1 result.
  pose proof (guard_ok_run _ _ _ _ input ctx Hg) as Hguard.
  unfold result. rewrite Exec_fixed_view by done. split.
  - intros Hr.
    exact (fixed_view_run_overflow ValidateUTF8Inline ToString O _ options
             input out ctx ctx1 Hguard Hr).
  - intros Hr.
    destruct (fixed_view_run ValidateUTF8Inline ToString O _ options input out
                ctx ctx1 Hwf Hguard Hr) as (output & Hrun & Hpost).
    by exists output.
Qed.

Lemma wf_last_of_fixed8 : wf_fixed (last_of_fixed8 268435457) = true.
Proof.
  unfold wf_fixed, bitmap_ok, GetBuffer.
  cbn [last_of_fixed8 type len offset buffers lookup list_lookup default
       bytes_of contents id byte_width].
  rewrite length_replicate, Z2Nat.id by lia. reflexivity.
Qed.

(** The element at position [2^28] of a fixed-width array of width 8: it
    would be stored inline, and the conversion is refused. *)
Lemma fixed_to_view_capacity_exact_witness :
  is_binary_view_like_type BinaryViewType = true
  /\ wf_fixed (last_of_fixed8 268435457) = true
  /\ guard_ok ascii_only BinaryViewType FixedSizeBinaryType no_options
       (slots FixedSizeBinaryType (last_of_fixed8 268435457)) = true
  /\ byte_width (type (last_of_fixed8 268435457)) <= kInlineSize
  /\ BinaryToBinaryCastExec ascii_only type_name BinaryViewType
       FixedSizeBinaryType no_options (last_of_fixed8 268435457)
       (sample_out binary_view 1) ctx0
     = (Err CapacityError
          (failed_casting type_name (type (last_of_fixed8 268435457))
             (type (sample_out binary_view 1))
             ": input array too large for efficient conversion."),
        add_allocations
          (add_trace ctx0
             (guard_calls BinaryViewType FixedSizeBinaryType no_options
                (slots FixedSizeBinaryType (last_of_fixed8 268435457))))
          1).
Proof.
  split; [reflexivity|]. split; [exact wf_last_of_fixed8|].
  split; [reflexivity|].
  split; [cbn [last_of_fixed8 type byte_width]; by vm_compute|].
  exact (proj1 (fixed_to_view_capacity_exact ascii_only type_name
                  BinaryViewType no_options (last_of_fixed8 268435457)
                  (sample_out binary_view 1) ctx0
                  eq_refl wf_last_of_fixed8 eq_refl)
           eq_refl).
Defined.

(** ** What the conversions to views share, and what they write for nulls *)

(** Offsets to views copies no byte of data: a successful conversion makes
    one allocation, the views buffer; the validity buffer is the source's,
    the external data buffer is the source's data buffer or none, the
    array keeps the source's start, and the view of a null slot stays
    zeroed. *)
Theorem offset_to_view_shares_buffers
    (ValidateUTF8Inline : list byte -> bool) (ToString : DataType -> string)
    (O I : TypeClass) (options : CastOptions)
    (input : ArraySpan) (out : ArrayData) (ctx : KernelContext) :
  is_base_binary_type I = true ->
  is_binary_view_like_type O = true ->
  wf_offsets I input = true ->
  guard_ok ValidateUTF8Inline O I options (slots I input) = true ->
  within_limits O I options input = true ->
  exists output ctx',
    BinaryToBinaryCastExec ValidateUTF8Inline ToString O I options input out ctx
    = (Ok output, ctx')
    /\ memory_pool ctx' = (memory_pool ctx + 1)%N
    /\ handle_of (GetBuffer output 1) = Some (memory_pool ctx)
    /\ offset output = offset input
    /\ GetBuffer output 0 = GetBuffer input 0
    /\ (GetBuffer output 2 = None \/ GetBuffer output 2 = GetBuffer input 2)
    /\ forall j, 0 <= j < len input -> IsValid input j = false ->
         at_ zero_view (views_of (GetBuffer output 1)) (offset input + j)
         = zero_view.
Proof.
  intros HI HO Hwf Hg Hlim.
  pose proof (guard_ok_run _ _ _ _ input ctx Hg) as Hguard.
  assert (Hcheck : (sizeof (offset_type I) >? 4) && (offset input + len input >? 0)
            && (at_ 0 (ints_of (GetBuffer input 1)) (offset input + len input)
                >? numeric_limits_max int32_t) = false).
  { apply negb_true_iff. by destruct I, O. }
  pose proof (offset_view_check_final I input Hwf Hcheck) as Hfinal.
  destruct (offset_view_run ValidateUTF8Inline ToString I input Hwf Hfinal
              O options out ctx _ Hguard Hcheck)
    as (output & Hrun & _ & _ & Hoff & _ & Hb0 & Hh & Hviews & Hb2).
  rewrite Exec_offset_view by done.
  eexists output, _. split; [exact Hrun|].
  split; [done|]. split; [exact Hh|]. split; [done|]. split; [done|].
  split.
  - rewrite Hb2. destruct (forallb _ _); auto.
  - intros j Hj Hnull. by rewrite Hviews, Hnull.
Qed.

Lemma offset_to_view_shares_buffers_witness :
  is_base_binary_type StringType = true
  /\ is_binary_view_like_type StringViewType = true
  /\ wf_offsets StringType sample_sliced_strings = true
  /\ guard_ok ascii_only StringViewType StringType no_options
       (slots StringType sample_sliced_strings) = true
  /\ within_limits StringViewType StringType no_options sample_sliced_strings
     = true
  /\ exists output ctx',
       BinaryToBinaryCastExec ascii_only type_name StringViewType StringType
         no_options sample_sliced_strings (sample_out utf8_view 4) ctx0
       = (Ok output, ctx')
       /\ memory_pool ctx' = (memory_pool ctx0 + 1)%N
       /\ handle_of (GetBuffer output 1) = Some (memory_pool ctx0)
       /\ offset output = offset sample_sliced_strings
       /\ GetBuffer output 0 = GetBuffer sample_sliced_strings 0
       /\ (GetBuffer output 2 = None
           \/ GetBuffer output 2 = GetBuffer sample_sliced_strings 2)
       /\ forall j, 0 <= j < len sample_sliced_strings ->
            IsValid sample_sliced_strings j = false ->
            at_ zero_view (views_of (GetBuffer output 1))
                (offset sample_sliced_strings + j)
            = zero_view.
Proof.
  repeat (split; [by vm_compute|]).
  exact (offset_to_view_shares_buffers ascii_only type_name StringViewType
           StringType no_options sample_sliced_strings (sample_out utf8_view 4)
           ctx0 eq_refl eq_refl eq_refl eq_refl eq_refl).
Defined.

(** Fixed width to views writes a view for every slot, null or not: each
    view has the size of the width and resolves to the bytes the source
    holds at that slot; the validity buffer is the source's, the array
    keeps the source's start, and the length is the one the output record
    was handed over with. *)
Theorem fixed_to_view_writes_every_slot
    (ValidateUTF8Inline : list byte -> bool) (ToString : DataType -> string)
    (O : TypeClass) (options : CastOptions)
    (input : ArraySpan) (out : ArrayData) (ctx : KernelContext) :
  is_binary_view_like_type O = true ->
  wf_fixed input = true ->
  guard_ok ValidateUTF8Inline O FixedSizeBinaryType options
    (slots FixedSizeBinaryType input) = true ->
  within_limits O FixedSizeBinaryType options input = true ->
  exists output ctx',
    BinaryToBinaryCastExec ValidateUTF8Inline ToString O FixedSizeBinaryType
      options input out ctx
    = (Ok output, ctx')
    /\ len output = len out
    /\ offset output = offset input
    /\ GetBuffer output 0 = GetBuffer input 0
    /\ forall j, 0 <= j < len input ->
         let v := at_ zero_view (views_of (GetBuffer output 1))
                      (offset input + j) in
         size v = byte_width (type input)
         /\ resolve_view output v = GetView_fixed input j.
Proof.
  intros HO Hwf Hg Hlim.
  pose proof (guard_ok_run _ _ _ _ input ctx Hg) as Hguard.
  assert (Hcheck : (offset input + len input >? 0)
            && ((offset input + len input - 1) * byte_width (type input)
                >? numeric_limits_max int32_t) = false).
  { apply negb_true_iff. by destruct O. }
  assert (Hfits : 0 < len input ->
            (offset input + len input - 1) * byte_width (type input)
            <= numeric_limits_max int32_t).
  { destruct (wf_fixed_elim input Hwf) as (Ho & _).
    intros Hlen. apply andb_false_iff in Hcheck as [Hc|Hc]; lia. }
  destruct (fixed_view_run ValidateUTF8Inline ToString O _ options input out
              ctx _ Hwf Hguard Hcheck)
    as (output & Hrun & _ & Hlen & Hoff & _ & Hb0 & _ & Hviews & Hb2).
  rewrite Exec_fixed_view by done.
  eexists output, _. split; [exact Hrun|].
  split; [done|]. split; [done|]. split; [done|].
  intros j Hj v. unfold v. rewrite Hviews by done. split.
  - destruct (Z.le_gt_cases (byte_width (type input)) kInlineSize) as [Hs|Hl].
    + by destruct (view_of_fixed_slot_inline input Hwf Hfits j Hj Hs) as (_ & ? & _).
    + by destruct (view_of_fixed_slot_ref input Hwf Hfits j Hj Hl) as (_ & ? & _).
  - apply (view_of_fixed_slot_resolve input Hwf Hfits output j Hj).
    intros Hl. rewrite Hb2. by rewrite (proj2 (Z.leb_gt _ _)).
Qed.

(** ["ab", null] of width 2: the null slot gets a view of size 2 over its
    two padding bytes. *)
Lemma fixed_to_view_writes_every_slot_witness :
  is_binary_view_like_type BinaryViewType = true
  /\ wf_fixed sample_fixed2 = true
  /\ guard_ok ascii_only BinaryViewType FixedSizeBinaryType no_options
       (slots FixedSizeBinaryType sample_fixed2) = true
  /\ within_limits BinaryViewType FixedSizeBinaryType no_options sample_fixed2
     = true
  /\ IsValid sample_fixed2 1 = false
  /\ exists output ctx',
       BinaryToBinaryCastExec ascii_only type_name BinaryViewType
         FixedSizeBinaryType no_options sample_fixed2
         (sample_out binary_view 2) ctx0
       = (Ok output, ctx')
       /\ len output = len (sample_out binary_view 2)
       /\ offset output = offset sample_fixed2
       /\ GetBuffer output 0 = GetBuffer sample_fixed2 0
       /\ forall j, 0 <= j < len sample_fixed2 ->
            let v := at_ zero_view (views_of (GetBuffer output 1))
                         (offset sample_fixed2 + j) in
            size v = byte_width (type sample_fixed2)
            /\ resolve_view output v = GetView_fixed sample_fixed2 j.
Proof.
  repeat (split; [by vm_compute|]).
  exact (fixed_to_view_writes_every_slot ascii_only type_name BinaryViewType
           no_options sample_fixed2 (sample_out binary_view 2) ctx0
           eq_refl eq_refl eq_refl eq_refl).
Defined.

(** ** The validity bitmap of a fixed-width source cast to offsets *)

(** Fixed width to offsets shares or copies the validity bitmap by
    comparing the two starts: with equal starts the output has the
    source's validity buffer; with different starts and a bitmap present it
    has a fresh bitmap holding the bits of the source's window, moved to
    bit 0; with different starts and no bitmap the output's validity
    buffer is left as it was handed over. *)
Theorem fixed_to_offset_validity
    (ValidateUTF8Inline : list byte -> bool) (ToString : DataType -> string)
    (O : TypeClass) (options : CastOptions)
    (input : ArraySpan) (out : ArrayData) (ctx : KernelContext) :
  is_base_binary_type O = true ->
  length (buffers out) = 3%nat ->
  guard_ok ValidateUTF8Inline O FixedSizeBinaryType options
    (slots FixedSizeBinaryType input) = true ->
  byte_width (type input) * len input <= numeric_limits_max (offset_type O) ->
  exists output ctx',
    BinaryToBinaryCastExec ValidateUTF8Inline ToString O FixedSizeBinaryType
      options input out ctx
    = (Ok output, ctx')
    /\ (offset input = offset out -> GetBuffer output 0 = GetBuffer input 0)
    /\ (offset input <> offset out ->
        match GetBuffer input 0 with
        | Some b =>
            exists b0,
              GetBuffer output 0 = Some b0
              /\ handle b0 = memory_pool ctx
              /\ contents b0
                 = Bitmap (bitmap_slice (default [] (bits_of (Some b)))
                                        (offset input) (len input))
        | None => GetBuffer output 0 = GetBuffer out 0
        end).
Proof.
  intros HO Hout Hg Hfit.
  pose proof (guard_ok_run _ _ _ _ input ctx Hg) as Hguard.
  rewrite Exec_fixed_offset by done.
  unfold BinaryToBinaryCastExec_fixed_offset.
  rewrite fixed_offset_guard. unfold mbind at 1, M_bind at 1, bind at 1.
  rewrite Hguard. cbv zeta.
  assert ((byte_width (type input) * len input
           >? numeric_limits_max (offset_type O)) = false) as ->.
  { rewrite Z.gtb_ltb. apply Z.ltb_ge. lia. }
  set (out1 := SetNullCount (with_length out (len input)) (null_count input)).
  change (offset out1) with (offset out).
  set (ctx1 := add_trace ctx _).
  destruct (offset input =? offset out) eqn:Eoff.
  - apply Z.eqb_eq in Eoff. unfold mbind, M_bind, bind, ret.
    destruct (GetBuffer input 1) as [input_data|]; unfold Allocate;
      eexists _, _; (split; [reflexivity|]);
      (split; [intros _|intros Hne; contradiction]);
      rewrite !GetBuffer_set_buffer_ne by done;
      by rewrite GetBuffer_set_buffer_eq by (cbn; lia).
  - apply Z.eqb_neq in Eoff.
    destruct (GetBuffer input 0) as [b|] eqn:Eb0.
    + unfold CopyBitmap, mbind, M_bind, bind, ret, Allocate.
      destruct (GetBuffer input 1) as [input_data|];
        eexists _, _; (split; [reflexivity|]);
        (split; [intros He; contradiction|intros _]);
        eexists; rewrite !GetBuffer_set_buffer_ne by done;
        rewrite GetBuffer_set_buffer_eq by (cbn; lia); done.
    + unfold mbind, M_bind, bind, ret.
      destruct (GetBuffer input 1) as [input_data|]; unfold Allocate;
        eexists _, _; (split; [reflexivity|]);
        (split; [intros He; contradiction|intros _]);
        by rewrite !GetBuffer_set_buffer_ne by done.
Qed.

(** A slice that starts at slot 1: its two validity bits are copied to the
    front of a fresh bitmap. *)
Lemma fixed_to_offset_validity_witness :
  is_base_binary_type BinaryType = true
  /\ length (buffers (preallocated_out binary 2)) = 3%nat
  /\ guard_ok ascii_only BinaryType FixedSizeBinaryType no_options
       (slots FixedSizeBinaryType sample_sliced_fixed2) = true
  /\ byte_width (type sample_sliced_fixed2) * len sample_sliced_fixed2
     <= numeric_limits_max (offset_type BinaryType)
  /\ offset sample_sliced_fixed2 <> offset (preallocated_out binary 2)
  /\ exists output ctx',
       BinaryToBinaryCastExec ascii_only type_name BinaryType
         FixedSizeBinaryType no_options sample_sliced_fixed2
         (preallocated_out binary 2) ctx0
       = (Ok output, ctx')
       /\ exists b0,
            GetBuffer output 0 = Some b0
            /\ handle b0 = memory_pool ctx0
            /\ contents b0 = Bitmap [true; false].
Proof.
  split; [reflexivity|]. split; [reflexivity|]. split; [reflexivity|].
  split; [by vm_compute|]. split; [by vm_compute|].
  destruct (fixed_to_offset_validity ascii_only type_name BinaryType no_options
              sample_sliced_fixed2 (preallocated_out binary 2) ctx0
              eq_refl eq_refl eq_refl ltac:(by vm_compute))
    as (output & ctx' & Hrun & _ & Hcopy).
  exists output, ctx'. split; [exact Hrun|].
  exact (Hcopy ltac:(by vm_compute)).
Defined.

Example sliced_fixed_to_binary :
  exists output ctx',
    BinaryToBinaryCastExec ascii_only type_name BinaryType FixedSizeBinaryType
      no_options sample_sliced_fixed2 (preallocated_out binary 2) ctx0
    = (Ok output, ctx')
    /\ offset output = 0
    /\ offsets_of output = [2; 4; 6]
    /\ slots BinaryType output = [Some (bytes_of_string "ab"); None].
Proof. eexists _, _. split; [by vm_compute|]. repeat split; by vm_compute. Qed.

(** ** Conversions composed *)

Lemma wf_offsets_intro (T : TypeClass) (a : ArraySpan) :
  0 <= offset a -> 0 <= len a -> bitmap_ok a = true ->
  offset a + len a + 1 <= Z.of_nat (length (ints_of (GetBuffer a 1))) ->
  0 <= at_ 0 (ints_of (GetBuffer a 1)) (offset a) ->
  (forall i, 0 <= i < len a ->
     at_ 0 (ints_of (GetBuffer a 1)) (offset a + i)
     <= at_ 0 (ints_of (GetBuffer a 1)) (offset a + i + 1)) ->
  at_ 0 (ints_of (GetBuffer a 1)) (offset a + len a)
    <= Z.of_nat (length (bytes_of (GetBuffer a 2))) ->
  at_ 0 (ints_of (GetBuffer a 1)) (offset a + len a)
    <= numeric_limits_max (offset_type T) ->
  wf_offsets T a = true.
Proof.
  intros Ho Hl Hbm Hlen H0 Hmono Hdata Hmax. unfold wf_offsets.
  repeat (apply andb_true_intro; split); try (apply Z.leb_le; lia); try done.
  apply forallb_forall. intros i Hi.
  apply list_elem_of_In, elem_of_seqZ in Hi. apply Z.leb_le, Hmono. lia.
Qed.

Lemma at_offsets_of (a : ArraySpan) (i : Z) :
  0 <= i <= len a ->
  at_ 0 (offsets_of a) i = at_ 0 (ints_of (GetBuffer a 1)) (offset a + i).
Proof.
  intros Hi. unfold offsets_of. by rewrite at_map_seqZ by lia.
Qed.

(** The array the widening of [input] returns is well formed in the wider
    class. *)
Lemma wf_offsets_widened (O I : TypeClass) (input : ArraySpan) (out : ArrayData)
    (h : N) :
  wf_offsets I input = true ->
  at_ 0 (ints_of (GetBuffer input 1)) (offset input + len input)
    <= numeric_limits_max (offset_type O) ->
  let widened :=
    set_buffer (zero_copy_of input out) 1
      (Some {| handle := h;
               contents := Ints (replicate (Z.to_nat (offset input)) 0
                                 ++ offsets_of input) |}) in
  wf_offsets O widened = true
  /\ (forall i, 0 <= i <= len input ->
        at_ 0 (ints_of (GetBuffer widened 1)) (offset input + i)
        = at_ 0 (ints_of (GetBuffer input 1)) (offset input + i)).
Proof.
  intros Hwf Hmax widened.
  pose proof (wf_offsets_elim I input Hwf)
    as (Ho & Hl & Hlen & H0 & Hmono & Hdata & _).
  assert (Hbuf : (1 < length (buffers input))%nat).
  { apply (ints_nonempty_buffer input). lia. }
  assert (Hints : ints_of (GetBuffer widened 1)
                  = replicate (Z.to_nat (offset input)) 0 ++ offsets_of input).
  { unfold widened. by rewrite GetBuffer_set_buffer_eq by done. }
  assert (Hat : forall i, 0 <= i <= len input ->
            at_ 0 (ints_of (GetBuffer widened 1)) (offset input + i)
            = at_ 0 (ints_of (GetBuffer input 1)) (offset input + i)).
  { intros i Hi. rewrite Hints.
    rewrite at_app_r by (rewrite length_replicate; lia).
    rewrite length_replicate, Z2Nat.id by lia.
    replace (offset input + i - offset input) with i by lia.
    by apply at_offsets_of. }
  split; [|exact Hat].
  assert (Hbm : bitmap_ok input = true).
  { unfold wf_offsets in Hwf. by repeat (apply andb_prop in Hwf as [Hwf ?]). }
  apply wf_offsets_intro;
    change (offset widened) with (offset input);
    change (len widened) with (len input); try done.
  - unfold bitmap_ok, widened in *.
    rewrite GetBuffer_set_buffer_ne by done. exact Hbm.
  - rewrite Hints, length_app, length_replicate.
    unfold offsets_of. rewrite length_map, length_seqZ. lia.
  - specialize (Hat 0 ltac:(lia)). rewrite Z.add_0_r in Hat. by rewrite Hat.
  - intros i Hi.
    replace (offset input + i + 1) with (offset input + (i + 1)) by lia.
    rewrite !Hat by lia.
    replace (offset input + (i + 1)) with (offset input + i + 1) by lia.
    by apply Hmono.
  - rewrite Hat by lia. unfold widened.
    by rewrite GetBuffer_set_buffer_ne by done.
  - by rewrite Hat by lia.
Qed.

(** Widening the offsets of a well-formed 32-bit-offset array and
    narrowing them again never fails (the guards apart) and gives back the
    array's slots and the offsets of its window. *)
Theorem widen_narrow_roundtrip
    (ValidateUTF8Inline : list byte -> bool) (ToString : DataType -> string)
    (I O : TypeClass) (options : CastOptions)
    (input : ArraySpan) (out1 out2 : ArrayData) (ctx : KernelContext) :
  is_base_binary_type I = true ->
  is_base_binary_type O = true ->
  offset_type I = int32_t ->
  offset_type O = int64_t ->
  wf_offsets I input = true ->
  guard_ok ValidateUTF8Inline O I options (slots I input) = true ->
  guard_ok ValidateUTF8Inline I O options (slots I input) = true ->
  exists widened ctx1 restored ctx2,
    BinaryToBinaryCastExec ValidateUTF8Inline ToString O I options input out1 ctx
    = (Ok widened, ctx1)
    /\ BinaryToBinaryCastExec ValidateUTF8Inline ToString I O options widened
         out2 ctx1
       = (Ok restored, ctx2)
    /\ len restored = len input
    /\ slots I restored = slots I input
    /\ offsets_of restored = offsets_of input.
Proof.
  intros HI HO HwI HwO Hwf Hg1 Hg2.
  pose proof (wf_offsets_elim I input Hwf) as (Ho & Hl & _ & _ & _ & _ & Hmax).
  rewrite HwI in Hmax.
  assert (Hmax64 : at_ 0 (ints_of (GetBuffer input 1)) (offset input + len input)
                   <= numeric_limits_max (offset_type O)).
  { rewrite HwO. simpl in *. lia. }
  pose proof (upcast_run ValidateUTF8Inline ToString O I options input out1 ctx
                HI HO HwI HwO Hwf Hg1) as Hrun1.
  cbv zeta in Hrun1.
  set (widened := set_buffer (zero_copy_of input out1) 1 _) in Hrun1.
  set (ctx1 := add_allocations _ 1) in Hrun1.
  destruct (wf_offsets_widened O I input out1 (memory_pool ctx) Hwf Hmax64)
    as [Hwfw Hat].
  fold widened in Hwfw, Hat.
  assert (Hslots1 : slots O widened = slots I input).
  { apply slots_base_ext; try done.
    - intros i Hi. unfold IsValid, widened.
      by rewrite GetBuffer_set_buffer_ne by done.
    - intros i Hi _. unfold GetView_offsets.
      change (offset widened) with (offset input).
      replace (offset input + i + 1) with (offset input + (i + 1)) by lia.
      rewrite !Hat by lia. unfold widened.
      by rewrite GetBuffer_set_buffer_ne by done. }
  assert (Hfinal : (at_ 0 (ints_of (GetBuffer widened 1))
                      (offset widened + len widened)
                    >? numeric_limits_max int32_t) = false).
  { change (offset widened) with (offset input).
    change (len widened) with (len input). rewrite Hat by lia.
    rewrite Z.gtb_ltb. apply Z.ltb_ge. exact Hmax. }
  rewrite <- Hslots1 in Hg2.
  pose proof (guard_ok_run _ _ _ _ widened ctx1 Hg2) as Hguard2.
  assert (Hcheck : match offset_type O, offset_type I with
                   | int64_t, int32_t => true
                   | _, _ => false
                   end
                   && (at_ 0 (ints_of (GetBuffer widened 1))
                         (offset widened + len widened)
                       >? numeric_limits_max int32_t) = false).
  { by rewrite Hfinal, andb_false_r. }
  destruct (offset_offset_run ValidateUTF8Inline ToString I O options widened
              out2 HO HI Hwfw ctx1 _ Hguard2 Hcheck)
    as (restored & ctx2 & Hrun2 & _ & _ & Hlen & _ & _ & _ & _ & Hoffs & Hslots2).
  exists widened, ctx1, restored, ctx2.
  split; [exact Hrun1|]. rewrite Exec_offset_offset by done.
  split; [exact Hrun2|]. split; [exact Hlen|].
  split; [by rewrite Hslots2|].
  rewrite Hoffs. unfold offsets_of.
  change (offset widened) with (offset input).
  change (len widened) with (len input).
  apply map_ext_in. intros i Hi. apply list_elem_of_In, elem_of_seqZ in Hi.
  apply Hat. lia.
Qed.

Lemma widen_narrow_roundtrip_witness :
  is_base_binary_type StringType = true
  /\ is_base_binary_type LargeStringType = true
  /\ offset_type StringType = int32_t
  /\ offset_type LargeStringType = int64_t
  /\ wf_offsets StringType sample_sliced_strings = true
  /\ guard_ok ascii_only LargeStringType StringType no_options
       (slots StringType sample_sliced_strings) = true
  /\ guard_ok ascii_only StringType LargeStringType no_options
       (slots StringType sample_sliced_strings) = true
  /\ exists widened ctx1 restored ctx2,
       BinaryToBinaryCastExec ascii_only type_name LargeStringType StringType
         no_options sample_sliced_strings (sample_out large_utf8 4) ctx0
       = (Ok widened, ctx1)
       /\ BinaryToBinaryCastExec ascii_only type_name StringType LargeStringType
            no_options widened (sample_out utf8 4) ctx1
          = (Ok restored, ctx2)
       /\ len restored = len sample_sliced_strings
       /\ slots StringType restored = slots StringType sample_sliced_strings
       /\ offsets_of restored = offsets_of sample_sliced_strings.
Proof.
  repeat (split; [by vm_compute|]).
  exact (widen_narrow_roundtrip ascii_only type_name StringType LargeStringType
           no_options sample_sliced_strings (sample_out large_utf8 4)
           (sample_out utf8 4) ctx0
           eq_refl eq_refl eq_refl eq_refl eq_refl eq_refl eq_refl).
Defined.




(** ** Views to offsets: no check of its own *)

Lemma view_offset_visit_any (offset_ty : IntType)
    (l : list (option (list byte))) :
  forall ofs d ctx,
    visit_slots
      (fun (s : list byte) (st : list Z * list byte) =>
         ret (append_offset offset_ty (fst st, snd st ++ s)))
      (fun st => ret (append_offset offset_ty st))
      l (ofs, d) ctx
    = (Ok (ofs ++ map (static_cast offset_ty)
                      (running_offsets (Z.of_nat (length d)) l),
           d ++ concat (non_null l)),
       ctx).
Proof.
  induction l as [|[v|] l IH]; intros ofs d ctx.
  - simpl. by rewrite !app_nil_r.
  - rewrite visit_slots_cons_some.
    change (ret ?x ctx) with (Ok x, ctx).
    unfold append_offset at 1. cbn [fst snd]. rewrite IH.
    rewrite length_app, Nat2Z.inj_add.
    cbn [running_offsets default id map]. rewrite non_null_cons_some.
    cbn [concat]. by rewrite <- !app_assoc.
  - rewrite visit_slots_cons_none.
    change (ret ?x ctx) with (Ok x, ctx).
    unfold append_offset at 1. cbn [fst snd]. rewrite IH.
    cbn [running_offsets default length map]. rewrite non_null_cons_none.
    rewrite Z.add_0_r. by rewrite <- !app_assoc.
Qed.

(** Views to offsets has no failure of its own and checks no size: once
    the guard has passed it succeeds, the data buffer holds the non-null
    values end to end, and the offsets are [0] followed by the running
    total after each slot, each reduced to the offset type (so a total
    beyond the offset type's maximum is stored wrapped, not refused). *)
Theorem view_to_offset_unchecked
    (ValidateUTF8Inline : list byte -> bool) (ToString : DataType -> string)
    (O I : TypeClass) (options : CastOptions)
    (input : ArraySpan) (out : ArrayData) (ctx : KernelContext) :
  is_binary_view_like_type I = true ->
  is_base_binary_type O = true ->
  length (buffers out) = 3%nat ->
  guard_ok ValidateUTF8Inline O I options (slots I input) = true ->
  exists output ctx',
    BinaryToBinaryCastExec ValidateUTF8Inline ToString O I options input out ctx
    = (Ok output, ctx')
    /\ len output = len input
    /\ ints_of (GetBuffer output 1)
       = 0 :: map (static_cast (offset_type O))
                  (running_offsets 0 (slots I input))
    /\ bytes_of (GetBuffer output 2) = concat (non_null (slots I input)).
Proof.
  intros HI HO Hout Hg.
  pose proof (guard_ok_run _ _ _ _ input ctx Hg) as Hguard.
  rewrite Exec_view_offset by done.
  unfold BinaryToBinaryCastExec_view_offset.
  unfold mbind at 1, M_bind at 1, bind at 1. rewrite Hguard. cbv zeta.
  set (ctx1 := add_trace ctx _).
  assert (Hbm : exists b0 ctxb, GetOrCopyNullBitmapBuffer input ctx1 = (Ok b0, ctxb)).
  { unfold GetOrCopyNullBitmapBuffer, CopyBitmap. monad_unfold.
    destruct (GetBuffer input 0); [destruct (offset input =? 0)|]; by eexists _, _. }
  destruct Hbm as (b0 & ctxb & Hb0).
  unfold mbind at 1, M_bind at 1, bind at 1. rewrite Hb0.
  unfold mbind at 1, M_bind at 1, bind at 1.
  rewrite VisitArraySpanInline_slots, view_offset_visit_any.
  monad_unfold. cbn [fst snd app length].
  eexists _, _. split; [reflexivity|]. split; [reflexivity|].
  split.
  - rewrite GetBuffer_set_buffer_ne by done.
    rewrite GetBuffer_set_buffer_eq; [done|].
    cbn. rewrite length_insert. lia.
  - rewrite GetBuffer_set_buffer_eq; [done|].
    cbn. rewrite !length_insert. lia.
Qed.

Lemma view_to_offset_unchecked_witness :
  is_binary_view_like_type BinaryViewType = true
  /\ is_base_binary_type BinaryType = true
  /\ length (buffers (sample_out binary 3)) = 3%nat
  /\ guard_ok ascii_only BinaryType BinaryViewType no_options
       (slots BinaryViewType sample_views) = true
  /\ exists output ctx',
       BinaryToBinaryCastExec ascii_only type_name BinaryType BinaryViewType
         no_options sample_views (sample_out binary 3) ctx0
       = (Ok output, ctx')
       /\ len output = len sample_views
       /\ ints_of (GetBuffer output 1)
          = 0 :: map (static_cast (offset_type BinaryType))
                     (running_offsets 0 (slots BinaryViewType sample_views))
       /\ bytes_of (GetBuffer output 2)
          = concat (non_null (slots BinaryViewType sample_views)).
Proof.
  repeat (split; [by vm_compute|]).
  exact (view_to_offset_unchecked ascii_only type_name BinaryType BinaryViewType
           no_options sample_views (sample_out binary 3) ctx0
           eq_refl eq_refl eq_refl eq_refl).
Defined.

(** ** The size check of fixed width to offsets *)

(** Fixed width to offsets: past the guard, the conversion is refused with
    [Invalid], naming both types and before anything is allocated, exactly
    when [W * N] exceeds the maximum of the destination offset type; the
    start of a slice plays no part in the check. In every other case it
    succeeds. *)
Theorem fixed_to_offset_check_exact
    (ValidateUTF8Inline : list byte -> bool) (ToString : DataType -> string)
    (O : TypeClass) (options : CastOptions)
    (input : ArraySpan) (out : ArrayData) (ctx : KernelContext) :
  is_base_binary_type O = true ->
  guard_ok ValidateUTF8Inline O FixedSizeBinaryType options
    (slots FixedSizeBinaryType input) = true ->
  let refused := byte_width (type input) * len input
                 >? numeric_limits_max (offset_type O) in
  let ctx1 := add_trace ctx (guard_calls O FixedSizeBinaryType options
                               (slots FixedSizeBinaryType input)) in
  let result := BinaryToBinaryCastExec ValidateUTF8Inline ToString O
                  FixedSizeBinaryType options input out ctx in
  (refused = true ->
   result = (Err Invalid (failed_casting ToString (type input) (type out)
                                         ": input array too large"), ctx1))
  /\ (refused = false ->
      exists output ctx', result = (Ok output, ctx') /\ len output = len input).
Proof.
  intros HO Hg refused ctx1 result.
  pose proof (guard_ok_run _ _ _ _ input ctx Hg) as Hguard.
  unfold result. rewrite Exec_fixed_offset by done.
  unfold BinaryToBinaryCastExec_fixed_offset. rewrite fixed_offset_guard.
  split; intros Hr; unfold mbind at 1, M_bind at 1, bind at 1;
    rewrite Hguard; cbv zeta; fold ctx1; fold refused; rewrite Hr.
  - reflexivity.
  - unfold CopyBitmap, mbind, M_bind, bind, ret, Allocate.
    destruct (offset input =? _); [|destruct (GetBuffer input 0)];
      destruct (GetBuffer input 1); eexists _, _; split; reflexivity.
Qed.

(** A hundred elements of width [2^25] do not fit 32-bit offsets. *)
Lemma fixed_to_offset_check_exact_witness :
  is_base_binary_type BinaryType = true
  /\ guard_ok ascii_only BinaryType FixedSizeBinaryType no_options
       (slots FixedSizeBinaryType
          {| type := fixed_size_binary 33554432; len := 100; offset := 0;
             null_count := 0; buffers := [None; None] |}) = true
  /\ BinaryToBinaryCastExec ascii_only type_name BinaryType
       FixedSizeBinaryType no_options
       {| type := fixed_size_binary 33554432; len := 100; offset := 0;
          null_count := 0; buffers := [None; None] |}
       (preallocated_out binary 100) ctx0
     = (Err Invalid
          "Failed casting from fixed_size_binary[33554432] to binary: input array too large",
        ctx0).
Proof.
  split; [reflexivity|]. split; [reflexivity|].
  exact (proj1 (fixed_to_offset_check_exact ascii_only type_name BinaryType
                  no_options
                  {| type := fixed_size_binary 33554432; len := 100; offset := 0;
                     null_count := 0; buffers := [None; None] |}
                  (preallocated_out binary 100) ctx0 eq_refl eq_refl)
           eq_refl).
Defined.

(** ** The other temporal types *)

(** The generic temporal renderer (dates, times, durations) writes, like
    the number renderer, the formatter's text of every non-null value and a
    null for every null, in slot order. *)
Theorem temporal_to_text_renders_values
    (O : TypeClass) (StringFormatter : DataType -> Z -> list byte)
    (input : ArraySpan) (ctx : KernelContext) :
  is_text_layout O = true ->
  0 <= len input ->
  text_fits O (rendered (StringFormatter (type input)) (value_slots input))
    = true ->
  exists output ctx',
    TemporalToString O StringFormatter input ctx = (Ok output, ctx')
    /\ len output = len input
    /\ offset output = 0
    /\ slots O output
       = map (option_map (StringFormatter (type input))) (value_slots input)
    /\ trace ctx' = trace ctx ++ map CallFormat (non_null (value_slots input)).
Proof.
  intros HO Hlen Hfit.
  destruct (Temporal_run O HO StringFormatter input ctx Hfit)
    as (output & Hrun & Hlen' & Hoff & Hslots & _).
  eexists output, _. split; [exact Hrun|].
  rewrite length_value_slots, Z2Nat.id in Hlen' by done.
  by repeat split.
Qed.

Lemma temporal_to_text_renders_values_witness :
  is_text_layout LargeStringType = true
  /\ 0 <= len sample_numbers
  /\ text_fits LargeStringType
       (rendered (sample_formatter (type sample_numbers))
                 (value_slots sample_numbers)) = true
  /\ exists output ctx',
       TemporalToString LargeStringType sample_formatter sample_numbers ctx0
       = (Ok output, ctx')
       /\ len output = len sample_numbers
       /\ offset output = 0
       /\ slots LargeStringType output
          = map (option_map (sample_formatter (type sample_numbers)))
                (value_slots sample_numbers)
       /\ trace ctx'
          = trace ctx0 ++ map CallFormat (non_null (value_slots sample_numbers)).
Proof.
  split; [reflexivity|]. split; [by vm_compute|]. split; [reflexivity|].
  exact (temporal_to_text_renders_values LargeStringType sample_formatter
           sample_numbers ctx0 eq_refl ltac:(by vm_compute) eq_refl).
Defined.

(** ** The null count *)

(** Every conversion to an offset or view layout, and fixed width to
    fixed width, hands the source's null count on unchanged (an unknown
    count stays unknown). The conversion of an offset or view layout to a
    fixed width, which builds a new array, counts the null slots of the
    source instead. *)
Theorem cast_null_count
    (ValidateUTF8Inline : list byte -> bool) (ToString : DataType -> string)
    (O I : TypeClass) (options : CastOptions)
    (input : ArraySpan) (out : ArrayData) (ctx : KernelContext) :
  wf_input I input = true ->
  output_ready O I options input out = true ->
  within_limits O I options input = true ->
  guard_ok ValidateUTF8Inline O I options (slots I input) = true ->
  exists output ctx',
    BinaryToBinaryCastExec ValidateUTF8Inline ToString O I options input out ctx
    = (Ok output, ctx')
    /\ null_count output
       = if is_fixed_size_binary O && is_text_layout I
         then count_nulls (map is_valid_slot (slots I input))
         else null_count input.
Proof.
  intros Hwf Hready Hlim Hg.
  pose proof (guard_ok_run _ _ _ _ input ctx Hg) as Hguard.
  destruct (overloads_selected ValidateUTF8Inline ToString O I) as (ov & Hov & E).
  destruct ov; cbn [enabled] in Hov; apply andb_prop in Hov as [HI HO].
  - (* offsets to offsets *)
    rewrite Exec_offset_offset by done.
    unfold wf_input in Hwf. rewrite HI in Hwf.
    assert (Hcheck : match offset_type I, offset_type O with
                     | int64_t, int32_t => true
                     | _, _ => false
                     end
                     && (at_ 0 (ints_of (GetBuffer input 1))
                           (offset input + len input)
                         >? numeric_limits_max int32_t) = false).
    { apply negb_true_iff. by destruct I, O. }
    destruct (offset_offset_run ValidateUTF8Inline ToString O I options input out
                HI HO Hwf ctx _ Hguard Hcheck)
      as (output & ctx2 & Hrun & _ & _ & _ & _ & Hnull & _).
    exists output, ctx2. split; [done|].
    by replace (is_fixed_size_binary O) with false by (by destruct O).
  - (* views to offsets *)
    rewrite Exec_view_offset by done.
    assert (Hwfv : wf_views input = true) by (by destruct I).
    assert (Hprep : prepared_output out = true) by (by destruct I, O).
    assert (Hfit : total_bytes (slots I input)
                   <= numeric_limits_max (offset_type O)).
    { apply Z.leb_le. by destruct I, O. }
    destruct (view_offset_run ValidateUTF8Inline O I options input out ctx _
                HO Hwfv Hprep Hfit Hguard)
      as (output & ctx2 & Hrun & _ & _ & _ & _ & Hnull & _).
    exists output, ctx2. split; [done|].
    by replace (is_fixed_size_binary O) with false by (by destruct O).
  - (* offsets to views *)
    rewrite Exec_offset_view by done.
    unfold wf_input in Hwf. rewrite HI in Hwf.
    assert (Hcheck : (sizeof (offset_type I) >? 4)
              && (offset input + len input >? 0)
              && (at_ 0 (ints_of (GetBuffer input 1)) (offset input + len input)
                  >? numeric_limits_max int32_t) = false).
    { apply negb_true_iff. by destruct I, O. }
    pose proof (offset_view_check_final I input Hwf Hcheck) as Hfinal.
    destruct (offset_view_run ValidateUTF8Inline ToString I input Hwf Hfinal
                O options out ctx _ Hguard Hcheck)
      as (output & Hrun & _ & _ & _ & Hnull & _).
    eexists output, _. split; [exact Hrun|].
    by replace (is_fixed_size_binary O) with false by (by destruct O).
  - (* views to views *)
    rewrite Exec_view_view by done.
    unfold BinaryToBinaryCastExec_view_view, ZeroCopyCastExec. monad_unfold.
    rewrite Hguard. eexists _, _. split; [reflexivity|].
    by replace (is_fixed_size_binary O) with false by (by destruct O).
  - (* fixed width to views *)
    assert (I = FixedSizeBinaryType) as -> by (by destruct I).
    rewrite Exec_fixed_view by done.
    change (wf_fixed input = true) in Hwf.
    assert (Hcheck : (offset input + len input >? 0)
              && ((offset input + len input - 1) * byte_width (type input)
                  >? numeric_limits_max int32_t) = false).
    { apply negb_true_iff. by destruct O. }
    destruct (fixed_view_run ValidateUTF8Inline ToString O _ options input out
                ctx _ Hwf Hguard Hcheck)
      as (output & Hrun & _ & _ & _ & Hnull & _).
    eexists output, _. split; [exact Hrun|].
    by replace (is_fixed_size_binary O) with false by (by destruct O).
  - (* fixed width to offsets *)
    assert (I = FixedSizeBinaryType) as -> by (by destruct I).
    rewrite Exec_fixed_offset by done.
    change (wf_fixed input = true) in Hwf.
    assert (Hprep : preallocated_output out (len input) = true) by (by destruct O).
    assert (Hfit : (offset input + len input) * byte_width (type input)
                   <= numeric_limits_max (offset_type O)).
    { apply Z.leb_le. by destruct O. }
    destruct (fixed_offset_run ValidateUTF8Inline ToString O options input out
                HO Hwf ctx _ Hprep Hguard Hfit)
      as (output & ctx2 & Hrun & _ & _ & _ & _ & _ & Hnull & _).
    exists output, ctx2. split; [done|].
    by replace (is_fixed_size_binary O) with false by (by destruct O).
  - (* fixed width to fixed width *)
    assert (I = FixedSizeBinaryType) as -> by (by destruct I).
    assert (O = FixedSizeBinaryType) as -> by (by destruct O).
    cbn [within_limits] in Hlim.
    cbn [BinaryToBinaryCastExec]. unfold BinaryToBinaryCastExec_fixed_fixed.
    rewrite Hlim. cbn [negb]. unfold ZeroCopyCastExec. monad_unfold.
    by eexists _, _.
  - (* offsets or views to fixed width *)
    assert (O = FixedSizeBinaryType) as -> by (by destruct O).
    rewrite Exec_to_fixed by done.
    assert (Hl : forallb (width_ok (byte_width (to_type options))) (slots I input)
                 && (0 <=? byte_width (to_type options)) = true)
      by (by destruct I).
    apply andb_prop in Hl as [Hall HW].
    rewrite to_fixed_run.
    rewrite (to_fixed_visit_ok ToString options input _ Hall) by done.
    unfold FixedSizeBinaryBuilder_FinishInternal. monad_unfold.
    eexists _, _. split; [reflexivity|].
    cbn [null_count fsb_validity FixedSizeBinaryBuilder_new app is_fixed_size_binary].
    unfold is_text_layout. by rewrite HI.
Qed.

(** ["ab", null, "de"] cast to width 2, its null count taken as unknown:
    the new array knows it has one null. *)
Lemma cast_null_count_witness :
  let input := SetNullCount sample_pairs (-1) in
  wf_input StringType input = true
  /\ output_ready FixedSizeBinaryType StringType to_fixed2 input
       (sample_out (fixed_size_binary 2) 3) = true
  /\ within_limits FixedSizeBinaryType StringType to_fixed2 input = true
  /\ guard_ok ascii_only FixedSizeBinaryType StringType to_fixed2
       (slots StringType input) = true
  /\ exists output ctx',
       BinaryToBinaryCastExec ascii_only type_name FixedSizeBinaryType
         StringType to_fixed2 input (sample_out (fixed_size_binary 2) 3) ctx0
       = (Ok output, ctx')
       /\ null_count output = 1.
Proof.
  cbv zeta. repeat (split; [by vm_compute|]).
  exact (cast_null_count ascii_only type_name FixedSizeBinaryType StringType
           to_fixed2 (SetNullCount sample_pairs (-1))
           (sample_out (fixed_size_binary 2) 3) ctx0
           eq_refl eq_refl eq_refl eq_refl).
Defined.
